(** * hloppy_bot: the praise ledger and the weekly quota gate

    A shallow embedding of [src/hloppy_bot.py].  The Python classes
    [PraiseData] (the ledger store) and [HloppyBot] (the command
    orchestrator) are translated method by method into functions over an
    explicit world: the snapshot file, the in-memory [self.data], a counter
    of interactions with the outside, and the messages sent so far.
    Exceptions are values, so that [try ... except Exception] is a
    combinator and "no exception propagates" is a theorem. *)

From Stdlib Require Import ZArith Lia Ascii String.
From Stdlib Require DecimalString DecimalZ.
From stdpp Require Import gmap strings list fin_maps sorting.

Local Open Scope Z_scope.

(** ** Parsed JSON documents

    What [json.load] hands back: [None], [bool], [int], [str], [list] and
    [dict].  Floats are left out: the code never computes with numbers read
    from the file.  [JObj] lists the items of the parsed [dict] in insertion
    order; [json.load] has resolved repeated member names, so the keys of a
    [JObj] that comes from a file are pairwise distinct. *)

#[warnings="-register-all"] Inductive json : Type :=
| JNull
| JBool (b : bool)
| JNum (n : Z)
| JStr (s : string)
| JArr (elems : list json)
| JObj (members : list (string * json)).

(** The exceptions that the modelled code can meet. *)
Inductive exn : Type :=
| OSError
| JSONDecodeError
| AttributeError
| TypeError
| KeyError
| ValueError
| SlackApiError.

#[global] Instance exn_eq_dec : EqDecision exn.
Proof. solve_decision. Defined.

(** A computation that either raises or returns. *)
Definition result (A : Type) : Type := exn + A.

Definition raise {A} (e : exn) : result A := inl e.

#[global] Instance result_ret : MRet result := fun _ a => inr a.
#[global] Instance result_bind : MBind result := fun _ _ f r =>
  match r with
  | inl e => inl e
  | inr a => f a
  end.

(** ** Python built-ins on JSON values *)

(** [dict.get]-style lookup in the items of a dict. *)
Fixpoint assoc (k : string) (m : list (string * json)) : option json :=
  match m with
  | [] => None
  | (k', v) :: m' => if String.eqb k k' then Some v else assoc k m'
  end.

(** [not data]: the falsy values. *)
Definition py_truthy (j : json) : bool :=
  match j with
  | JNull => false
  | JBool b => b
  | JNum n => negb (n =? 0)
  | JStr s => negb (String.eqb s "")
  | JArr l => negb (bool_decide (l = []))
  | JObj m => negb (bool_decide (m = []))
  end.

(** [data.items()]: only a dict has the attribute. *)
Definition py_items (j : json) : result (list (string * json)) :=
  match j with
  | JObj m => inr m
  | _ => raise AttributeError
  end.

(** [user_data.get(key, [])]: only a dict has the attribute. *)
Definition py_get (j : json) (k : string) (dflt : json) : result json :=
  match j with
  | JObj m => inr (default dflt (assoc k m))
  | _ => raise AttributeError
  end.

(** [for p in v]: a list yields its elements, a dict its keys, a string its
    characters; the other values are not iterable. *)
Definition py_iter (j : json) : result (list json) :=
  match j with
  | JArr l => inr l
  | JObj m => inr ((fun kv => JStr kv.1) <$> m)
  | JStr s => inr ((fun c => JStr (String c EmptyString)) <$> String.list_ascii_of_string s)
  | _ => raise TypeError
  end.

(** [p['key']] with a string key: a dict looks the key up, every other
    value refuses a string index. *)
Definition py_subscript (j : json) (k : string) : result json :=
  match j with
  | JObj m =>
      match assoc k m with
      | Some v => inr v
      | None => raise KeyError
      end
  | _ => raise TypeError
  end.

(** ** Naive local datetimes

    A [datetime] without time zone, as [datetime.now()] returns it: the
    proleptic Gregorian day number of its date ([toordinal()], day 1 is
    Monday 0001-01-01) and the microseconds elapsed since midnight.  The
    type does not bound the two fields; nothing below needs the bounds. *)

Record datetime : Type := DateTime { ordinal : Z; tod : N }.

#[global] Instance datetime_eq_dec : EqDecision datetime.
Proof. solve_decision. Defined.

(** [t.weekday()]: Monday is 0, Sunday is 6. *)
Definition weekday (t : datetime) : Z := (ordinal t + 6) mod 7.

(** [t - timedelta(days=k)]. *)
Definition minus_days (t : datetime) (k : Z) : datetime :=
  {| ordinal := ordinal t - k; tod := tod t |}.

(** [t.replace(hour=0, minute=0, second=0, microsecond=0)]. *)
Definition at_midnight (t : datetime) : datetime :=
  {| ordinal := ordinal t; tod := 0%N |}.

(** [a <= b] on datetimes: by date, then by time of day. *)
Definition dt_leb (a b : datetime) : bool :=
  (ordinal a <? ordinal b) || ((ordinal a =? ordinal b) && (tod a <=? tod b)%N).

(** [a >= b]. *)
Definition dt_geb (a b : datetime) : bool := dt_leb b a.

(** ** The ledger *)

(** An entry of a ['received'] list. *)
Record received_entry : Type := Received {
  from_user : json;
  r_message : json;
  r_timestamp : datetime
}.

(** An entry of a ['given'] list. *)
Record given_entry : Type := Given {
  to_user : json;
  g_message : json;
  g_timestamp : datetime
}.

(** The value that [create_user_data] builds, and its two lists. *)
Record user_data : Type := UserData {
  received : list received_entry;
  given : list given_entry
}.

Definition create_user_data : user_data := {| received := []; given := [] |}.

(** [self.data]: a [defaultdict] from user ids to [user_data]. *)
Abbreviation ledger := (gmap string user_data).

(** [self.data[uid]] as a value: the stored entry, or the default. *)
Definition at_user (d : ledger) (uid : string) : user_data :=
  default create_user_data (d !! uid).

(** [user_data['received'] or user_data['given']]. *)
Definition has_data (ud : user_data) : bool :=
  negb (bool_decide (received ud = [])) || negb (bool_decide (given ud = [])).

(** ** The world and the monad of the methods *)

(** The snapshot file [DATA_FILE] as [load_data] can find it. *)
Inductive file_state : Type :=
| FileAbsent                (* os.path.exists is false *)
| FileUnreadable            (* the path exists, open() raises *)
| FileGarbled               (* the bytes are not a JSON document *)
| FileJson (doc : json).    (* json.load returns doc *)

(** What a disk write can do: succeed, fail before the file is touched
    ([open] raises), or fail after truncation, leaving bytes that are not a
    complete JSON document. *)
Inductive write_result : Type :=
| WriteOk
| WriteRefused
| WriteTorn.

(** The messages the bot sends: the texts of [say], with the values they
    interpolate, and the praise notification of [chat_postMessage]. *)
Inductive outmsg : Type :=
| SayUsage
| SayNoValidUsers
| SayWeeklyLimit (weekly_count : Z)
| SayOnlyRemaining (remaining : Z)
| SayNoMessage
| SayLimitReached
| SayError
| PostPraise (channel sender target_mention message : string)
             (praise_count remaining : Z) (sender_name target_name : string).

Record world : Type := World {
  file : file_state;        (* the snapshot on disk *)
  data : ledger;            (* self.data *)
  tick : nat;               (* interactions with the outside so far *)
  outbox : list outmsg      (* messages sent, oldest first *)
}.

Definition with_file (f : file_state) (w : world) : world :=
  {| file := f; data := data w; tick := tick w; outbox := outbox w |}.
Definition with_data (d : ledger) (w : world) : world :=
  {| file := file w; data := d; tick := tick w; outbox := outbox w |}.
Definition step (w : world) : world :=
  {| file := file w; data := data w; tick := S (tick w); outbox := outbox w |}.
Definition send (m : outmsg) (w : world) : world :=
  {| file := file w; data := data w; tick := tick w; outbox := outbox w ++ [m] |}.

(** A method: from a world to a raised exception or a returned value, and
    the world it leaves behind (an exception does not undo effects). *)
Definition M (A : Type) : Type := world → result A * world.

#[global] Instance M_ret : MRet M := fun _ a w => (inr a, w).
#[global] Instance M_bind : MBind M := fun _ _ f m w =>
  match m w with
  | (inl e, w') => (inl e, w')
  | (inr a, w') => f a w'
  end.

Definition lift {A} (r : result A) : M A := fun w => (r, w).
Definition get_data : M ledger := fun w => (inr (data w), w).
Definition set_data (d : ledger) : M unit := fun w => (inr tt, with_data d w).
Definition modify_data (f : ledger → ledger) : M unit :=
  fun w => (inr tt, with_data (f (data w)) w).

(** [try: body except Exception: handler]. *)
Definition try_except {A} (body : M A) (handler : exn → M A) : M A := fun w =>
  match body w with
  | (inl e, w') => handler e w'
  | (inr a, w') => (inr a, w')
  end.

(** [for x in xs: body(x)]. *)
Fixpoint for_each {A} (body : A → M unit) (xs : list A) : M unit :=
  match xs with
  | [] => mret tt
  | x :: xs' => body x ≫= fun _ => for_each body xs'
  end.

(** [say(text)]. *)
Definition say (m : outmsg) : M unit := fun w => (inr tt, send m w).

Definition WEEKLY_PRAISE_LIMIT : Z := 3.

(** ** Python sets of user ids

    [all_users] is a Python [set].  It holds the keys of [self.data]
    (strings) and whatever the entries carry as [from_user] and [to_user].
    A set keeps one element per class of [==] and refuses unhashable values;
    [pykey] is that class: [True == 1] and [False == 0] make a bool the
    integer it equals, a list or a dict has no hash. *)

Inductive pykey : Type :=
| KNone
| KInt (n : Z)
| KStr (s : string).

#[global] Instance pykey_eq_dec : EqDecision pykey.
Proof. solve_decision. Defined.

#[global] Instance pykey_countable : Countable pykey.
Proof.
  refine (inj_countable'
    (fun k => match k with
              | KNone => inl tt
              | KInt n => inr (inl n)
              | KStr s => inr (inr s)
              end)
    (fun x => match x with
              | inl _ => KNone
              | inr (inl n) => KInt n
              | inr (inr s) => KStr s
              end) _).
  intros []; reflexivity.
Defined.

(** [hash(v)], as [set.add] needs it. *)
Definition py_hash (j : json) : result pykey :=
  match j with
  | JNull => inr KNone
  | JBool b => inr (KInt (if b then 1 else 0))
  | JNum n => inr (KInt n)
  | JStr s => inr (KStr s)
  | JArr _ => raise TypeError
  | JObj _ => raise TypeError
  end.

(** One line of the ranking: user, received, given, total. *)
Record stats : Type := Stats {
  uid : pykey;
  received_count : Z;
  given_count : Z;
  total_score : Z
}.

(** ** Python strings *)

(** [str.isspace] on the characters below 256. *)
Definition is_space (c : ascii) : bool :=
  let n := nat_of_ascii c in
  (((9 <=? n) && (n <=? 13)) || ((28 <=? n) && (n <=? 32))
   || (n =? 133) || (n =? 160))%nat.

(** [s.lstrip()]. *)
Fixpoint lstrip (s : string) : string :=
  match s with
  | EmptyString => EmptyString
  | String c s' => if is_space c then lstrip s' else s
  end.

(** [s.strip()]. *)
Definition py_strip (s : string) : string :=
  String.rev (lstrip (String.rev (lstrip s))).

(** [s[n:]]. *)
Fixpoint slice_from (n : nat) (s : string) : string :=
  match n, s with
  | O, _ => s
  | S n', String _ s' => slice_from n' s'
  | S _, EmptyString => EmptyString
  end.

(** [s[a:b]] for [a <= b]. *)
Definition slice (a b : nat) (s : string) : string :=
  String.substring a (b - a) s.

(** [s.find(c, start)] for a one-character [c]: the first index at or after
    [start] that holds [c]; [None] is Python's [-1]. *)
Fixpoint find_from (c : ascii) (s : string) (i start : nat) : option nat :=
  match s with
  | EmptyString => None
  | String a s' =>
      if (start <=? i)%nat && Ascii.eqb a c then Some i
      else find_from c s' (S i) start
  end.

Definition py_find (c : ascii) (start : nat) (s : string) : option nat :=
  find_from c s 0 start.

(** A parsed mention: the dict that [_parse_single_mention] returns. *)
Record mention : Type := Mention {
  m_id : string;
  m_mention : string;
  m_end : nat
}.

Section Store.

(** The library and the outside, as parameters: [datetime.isoformat] and
    [datetime.fromisoformat] ([None] for a string it rejects), the wall
    clock read by [datetime.now()] and the fate of a disk write, both as
    functions of the number of interactions so far. *)
Variable isoformat : datetime → string.
Variable fromisoformat : string → option datetime.
Variable clock : nat → datetime.
Variable disk : nat → write_result.

(** [datetime.fromisoformat(v)]. *)
Definition py_fromisoformat (v : json) : result datetime :=
  match v with
  | JStr s =>
      match fromisoformat s with
      | Some t => inr t
      | None => raise ValueError
      end
  | _ => raise TypeError
  end.

(** One element of the comprehension over ['received']. *)
Definition load_received (p : json) : result received_entry :=
  f ← py_subscript p "from_user";
  m ← py_subscript p "message";
  ts ← py_subscript p "timestamp";
  t ← py_fromisoformat ts;
  mret (Received f m t).

(** One element of the comprehension over ['given']. *)
Definition load_given (p : json) : result given_entry :=
  u ← py_subscript p "to_user";
  m ← py_subscript p "message";
  ts ← py_subscript p "timestamp";
  t ← py_fromisoformat ts;
  mret (Given u m t).

(** [[parse(p) for p in user_data.get(key, [])]]. *)
Definition load_list {A} (parse : json → result A) (user_data : json) (key : string)
  : result (list A) :=
  v ← py_get user_data key (JArr []);
  ps ← py_iter v;
  mapM parse ps.

(** The body of [for user_id, user_data in data.items()]. *)
Definition load_user (kv : string * json) : M unit :=
  rs ← lift (load_list load_received kv.2 "received");
  modify_data (fun d => <[kv.1 := {| received := rs; given := given (at_user d kv.1) |}]> d);;
  gs ← lift (load_list load_given kv.2 "given");
  modify_data (fun d => <[kv.1 := {| received := received (at_user d kv.1); given := gs |}]> d).

(** The [try] block of [load_data]. *)
Definition load_body : M unit := fun w =>
  match file w with
  | FileAbsent => set_data ∅ w
  | FileUnreadable => (raise OSError, w)
  | FileGarbled => (raise JSONDecodeError, w)
  | FileJson doc =>
      (set_data ∅;;
       if py_truthy doc
       then items ← lift (py_items doc); for_each load_user items
       else mret tt) w
  end.

(** [PraiseData.load_data]. *)
Definition load_data : M unit :=
  try_except load_body (fun _ => set_data ∅).

Definition dump_received (p : received_entry) : json :=
  JObj [("from_user", from_user p); ("message", r_message p);
        ("timestamp", JStr (isoformat (r_timestamp p)))].

Definition dump_given (p : given_entry) : json :=
  JObj [("to_user", to_user p); ("message", g_message p);
        ("timestamp", JStr (isoformat (g_timestamp p)))].

Definition dump_user (kv : string * user_data) : string * json :=
  (kv.1, JObj [("received", JArr (dump_received <$> received kv.2));
               ("given", JArr (dump_given <$> given kv.2))]).

(** The dict comprehension of [save_data]: the users with data.  The
    members come in the order of [map_to_list], not in the insertion order of
    the Python dict; reading the document back does not depend on it. *)
Definition dump_ledger (d : ledger) : json :=
  JObj (dump_user <$> filter (fun kv => has_data kv.2 = true) (map_to_list d)).

(** [with open(DATA_FILE, 'w') as f: json.dump(data, f)]. *)
Definition write_file (doc : json) : M unit := fun w =>
  match disk (tick w) with
  | WriteOk => (inr tt, step (with_file (FileJson doc) w))
  | WriteRefused => (raise OSError, step w)
  | WriteTorn => (raise OSError, step (with_file FileGarbled w))
  end.

(** [PraiseData.save_data]. *)
Definition save_data : M unit :=
  try_except (d ← get_data; write_file (dump_ledger d)) (fun _ => mret tt).

(** [datetime.now()]. *)
Definition now : M datetime := fun w => (inr (clock (tick w)), step w).

(** Monday 00:00:00 of the week of [t], as the method computes it. *)
Definition week_start (t : datetime) : datetime :=
  at_midnight (minus_days t (weekday t)).

(** [sum(1 for praise in given if praise['timestamp'] >= week_start)]. *)
Fixpoint weekly_sum (ws : datetime) (gs : list given_entry) : Z :=
  match gs with
  | [] => 0
  | p :: gs' => (if dt_geb (g_timestamp p) ws then 1 else 0) + weekly_sum ws gs'
  end.

(** [PraiseData.get_user_weekly_praises]. *)
Definition get_user_weekly_praises (user_id : string) : M Z :=
  load_data;;
  d ← get_data;
  match d !! user_id with
  | None => mret 0
  | Some ud =>
      current_time ← now;
      mret (weekly_sum (week_start current_time) (given ud))
  end.

(** [self.data[uid]['received'].append(p)], on a defaultdict. *)
Definition append_received (uid : string) (p : received_entry) (d : ledger) : ledger :=
  <[uid := {| received := received (at_user d uid) ++ [p]; given := given (at_user d uid) |}]> d.

(** [self.data[uid]['given'].append(p)], on a defaultdict. *)
Definition append_given (uid : string) (p : given_entry) (d : ledger) : ledger :=
  <[uid := {| received := received (at_user d uid); given := given (at_user d uid) ++ [p] |}]> d.

(** [PraiseData.add_praise]. *)
Definition add_praise (from to message : string) : M unit :=
  load_data;;
  current_time ← now;
  modify_data (append_received to (Received (JStr from) (JStr message) current_time));;
  modify_data (append_given from (Given (JStr to) (JStr message) current_time));;
  save_data.

(** [PraiseData.get_praise_count]. *)
Definition get_praise_count (user_id : string) : M Z :=
  load_data;;
  d ← get_data;
  mret (Z.of_nat (length (received (at_user d user_id)))).

(** *** The ranking *)

(** The order in which Python iterates over a set is not specified: it is a
    parameter. *)
Variable set_iter : gset pykey → list pykey.

(** [for praise in ps: all_users.add(praise[key])]. *)
Fixpoint add_all {A} (key : A → json) (ps : list A) (all_users : gset pykey)
  : result (gset pykey) :=
  match ps with
  | [] => inr all_users
  | p :: ps' => k ← py_hash (key p); add_all key ps' ({[k]} ∪ all_users)
  end.

(** The body of [for user_id, data in self.data.items()]. *)
Definition collect_user (kv : string * user_data) (all_users : gset pykey)
  : result (gset pykey) :=
  s ← add_all to_user (given kv.2)
        (if has_data kv.2 then {[KStr kv.1]} ∪ all_users else all_users);
  add_all from_user (received kv.2) s.

Fixpoint collect_users (items : list (string * user_data)) (all_users : gset pykey)
  : result (gset pykey) :=
  match items with
  | [] => inr all_users
  | kv :: items' => s ← collect_user kv all_users; collect_users items' s
  end.

(** [received[uid]] after the counting loop: the length of the list of a
    key of [self.data], 0 (the [defaultdict(int)]) for any other value. *)
Definition received_of (d : ledger) (k : pykey) : Z :=
  match k with
  | KStr s =>
      match d !! s with
      | Some ud => Z.of_nat (length (received ud))
      | None => 0
      end
  | _ => 0
  end.

(** [given[uid]] after the counting loop. *)
Definition given_of (d : ledger) (k : pykey) : Z :=
  match k with
  | KStr s =>
      match d !! s with
      | Some ud => Z.of_nat (length (given ud))
      | None => 0
      end
  | _ => 0
  end.

(** [(uid, received[uid], given[uid], received[uid] + given[uid])]. *)
Definition user_stats (d : ledger) (k : pykey) : stats :=
  {| uid := k;
     received_count := received_of d k;
     given_count := given_of d k;
     total_score := received_of d k + given_of d k |}.

(** [sorted(xs, key=lambda x: x[3], reverse=True)]: stable, so that among
    equal totals the earlier element stays first. *)
Fixpoint insert_desc (x : stats) (l : list stats) : list stats :=
  match l with
  | [] => [x]
  | y :: l' =>
      if total_score x <? total_score y then y :: insert_desc x l'
      else x :: y :: l'
  end.

Fixpoint sorted_desc (l : list stats) : list stats :=
  match l with
  | [] => []
  | x :: l' => insert_desc x (sorted_desc l')
  end.

(** [get_sorted_users] after the reload. *)
Definition sorted_users_of (d : ledger) : result (list stats) :=
  all_users ← collect_users (map_to_list d) ∅;
  mret (sorted_desc (user_stats d <$> set_iter all_users)).

(** [PraiseData.get_sorted_users]. *)
Definition get_sorted_users : M (list stats) :=
  load_data;;
  d ← get_data;
  lift (sorted_users_of d).

(** *** The command orchestrator

    The chat platform is a parameter.  [_verify_user] and
    [_find_user_by_name] wrap their directory calls in [try] and answer with
    a bool and with a user id or [None]: they are functions of their
    argument.  [users_info] answers with a response, here the [real_name] it
    carries if it carries one, or raises; [chat_postMessage] returns or
    raises; both as functions of the number of interactions so far.  [say]
    itself does not fail. *)
Variable _verify_user : string → bool.
Variable _find_user_by_name : string → option string.
Variable users_info : nat → string → result (option string).
Variable chat_postMessage : nat → result unit.

(** [HloppyBot._parse_single_mention]. *)
Definition _parse_single_mention (text : string) (start : nat) : option mention :=
  let converted :=
    if (0 <? start)%nat && String.eqb (slice (start - 1) (start + 1) text) "<@"
    then
      match py_find ">" start text with
      | Some end_bracket =>
          let user_id := py_strip (slice (start + 1) end_bracket text) in
          if _verify_user user_id
          then Some {| m_id := user_id;
                       m_mention := slice (start - 1) (end_bracket + 1) text;
                       m_end := end_bracket + 1 |}
          else None
      | None => None
      end
    else None in
  match converted with
  | Some m => Some m
  | None =>
      match py_find " " start text with
      | Some next_space =>
          let username := py_strip (slice (start + 1) next_space text) in
          match _find_user_by_name username with
          | Some user_id =>
              if String.eqb user_id "" then None
              else Some {| m_id := user_id;
                           m_mention := "<@" +:+ user_id +:+ ">";
                           m_end := next_space |}
          | None => None
          end
      | None => None
      end
  end.

(** The [while "@" in text[pos:]] loop of [_parse_mentions], from position
    [pos], for at most [fuel] turns. *)
Fixpoint parse_mentions_from (fuel : nat) (text : string) (pos : nat) : list mention :=
  match fuel with
  | O => []
  | S fuel' =>
      match py_find "@" pos text with
      | None => []
      | Some mention_start =>
          match _parse_single_mention text mention_start with
          | Some m => m :: parse_mentions_from fuel' text (m_end m)
          | None => parse_mentions_from fuel' text (mention_start + 1)
          end
      end
  end.

(** [HloppyBot._parse_mentions]: every turn moves [pos] forward, so the
    length of the text bounds the number of turns. *)
Definition _parse_mentions (text : string) : list mention :=
  parse_mentions_from (S (String.length text)) text 0.

Definition call_users_info (user : string) : M (option string) :=
  fun w => (users_info (tick w) user, step w).

(** [info['user']['real_name']]. *)
Definition real_name (info : option string) : result string :=
  match info with
  | Some name => inr name
  | None => raise KeyError
  end.

Definition call_chat_postMessage (m : outmsg) : M unit := fun w =>
  match chat_postMessage (tick w) with
  | inl e => (inl e, step w)
  | inr _ => (inr tt, step (send m w))
  end.

(** [HloppyBot._extract_praise_message]. *)
Definition _extract_praise_message (text : string) (last_mention_end : nat) : string :=
  py_strip (slice_from last_mention_end text).

(** The [for mention in mentions] loop of [_process_praises], from the
    current value of [praises_given]. *)
Fixpoint praise_loop (user_id praise_message channel_id : string)
    (user_info : option string) (remaining_praises : Z)
    (mentions : list mention) (praises_given : Z) : M unit :=
  match mentions with
  | [] => mret tt
  | mention :: rest =>
      let target_user := m_id mention in
      if String.eqb target_user user_id
      then praise_loop user_id praise_message channel_id user_info
             remaining_praises rest praises_given
      else if remaining_praises <=? praises_given
      then say SayLimitReached
      else
        add_praise user_id target_user praise_message;;
        praise_count ← get_praise_count target_user;
        target_info ← call_users_info target_user;
        sender_name ← lift (real_name user_info);
        target_name ← lift (real_name target_info);
        call_chat_postMessage
          (PostPraise channel_id user_id (m_mention mention) praise_message
             praise_count (remaining_praises - (praises_given + 1))
             sender_name target_name);;
        praise_loop user_id praise_message channel_id user_info
          remaining_praises rest (praises_given + 1)
  end.

(** [HloppyBot._process_praises]: the handler logs and raises again. *)
Definition _process_praises (user_id : string) (mentions : list mention)
    (praise_message channel_id : string) (remaining_praises : Z) : M unit :=
  try_except
    (user_info ← call_users_info user_id;
     praise_loop user_id praise_message channel_id user_info
       remaining_praises mentions 0)
    (fun e => lift (raise e)).

(** [HloppyBot.handle_hloppy_command], after [ack()]. *)
Definition handle_hloppy_command (user_id channel_id text : string) : M unit :=
  let command_text := py_strip text in
  if String.eqb command_text ""
  then say SayUsage
  else
    try_except
      (let mentions := _parse_mentions command_text in
       if bool_decide (mentions = [])
       then say SayNoValidUsers
       else
         weekly_count ← get_user_weekly_praises user_id;
         let remaining_praises := WEEKLY_PRAISE_LIMIT - weekly_count in
         if WEEKLY_PRAISE_LIMIT <=? weekly_count
         then say (SayWeeklyLimit weekly_count)
         else if remaining_praises <? Z.of_nat (length mentions)
         then say (SayOnlyRemaining remaining_praises)
         else
           let praise_message :=
             _extract_praise_message command_text
               (default 0%nat (m_end <$> last mentions)) in
           if String.eqb praise_message ""
           then say SayNoMessage
           else _process_praises user_id mentions praise_message channel_id
                  remaining_praises)
      (fun _ => say SayError).

End Store.

(** ** What a file holds

    The ledger that a snapshot file stands for, as a function of the file
    alone.  [load_data] is proved below to compute it. *)

Section Snapshot.

Variable fromisoformat : string → option datetime.

Definition decode_user (d : ledger) (kv : string * json) : result ledger :=
  rs ← load_list (load_received fromisoformat) kv.2 "received";
  gs ← load_list (load_given fromisoformat) kv.2 "given";
  mret (<[kv.1 := {| received := rs; given := gs |}]> d).

Fixpoint decode_users (items : list (string * json)) (d : ledger) : result ledger :=
  match items with
  | [] => inr d
  | kv :: items' => d' ← decode_user d kv; decode_users items' d'
  end.

Definition decode_doc (doc : json) : result ledger :=
  if py_truthy doc
  then items ← py_items doc; decode_users items ∅
  else inr ∅.

(** Reading the file: what the [try] block of [load_data] ends with. *)
Definition read_file (f : file_state) : result ledger :=
  match f with
  | FileAbsent => inr ∅
  | FileUnreadable => raise OSError
  | FileGarbled => raise JSONDecodeError
  | FileJson doc => decode_doc doc
  end.

(** The ledger in memory after [load_data]. *)
Definition snapshot (f : file_state) : ledger :=
  match read_file f with
  | inr d => d
  | inl _ => ∅
  end.

End Snapshot.

(** *** The document shape of the specification

    The specification describes the stored document as a mapping from user
    ids to objects with a ['received'] and a ['given'] list, whose entries are
    objects with [from_user] or [to_user], [message], and an ISO-8601
    [timestamp].  These checks follow those words, not the code. *)

Section Shape.

Variable fromisoformat : string → option datetime.

Definition entry_shaped (who : string) (p : json) : bool :=
  match p with
  | JObj m =>
      match assoc who m, assoc "message" m, assoc "timestamp" m with
      | Some (JStr _), Some (JStr _), Some (JStr ts) =>
          bool_decide (is_Some (fromisoformat ts))
      | _, _, _ => false
      end
  | _ => false
  end.

Definition user_shaped (v : json) : bool :=
  match v with
  | JObj m =>
      match assoc "received" m, assoc "given" m with
      | Some (JArr rs), Some (JArr gs) =>
          forallb (entry_shaped "from_user") rs
          && forallb (entry_shaped "to_user") gs
      | _, _ => false
      end
  | _ => false
  end.

Definition document_shaped (doc : json) : bool :=
  match doc with
  | JObj m => forallb (fun kv => user_shaped kv.2) m
  | _ => false
  end.

End Shape.

(** The weekly count of a user in a ledger at time [t]. *)
Definition weekly_of (d : ledger) (user_id : string) (t : datetime) : Z :=
  match d !! user_id with
  | None => 0
  | Some ud => weekly_sum (week_start t) (given ud)
  end.

(** Two ledgers with the same events: a user without entry counts as a user
    with two empty lists. *)
Definition ledger_equiv (d1 d2 : ledger) : Prop :=
  ∀ u, at_user d1 u = at_user d2 u.

(** The users that [save_data] keeps. *)
Definition prune (d : ledger) : ledger :=
  filter (fun kv => has_data kv.2 = true) d.

(** ** The vocabulary of the properties *)

(** Two worlds that differ at most in [self.data]. *)
Definition same_outside (w w' : world) : Prop :=
  file w' = file w ∧ tick w' = tick w ∧ outbox w' = outbox w.

(** [a] is at or before [b]: an earlier day, or the same day and not a
    later time. *)
Definition dt_le (a b : datetime) : Prop :=
  ordinal a < ordinal b ∨ (ordinal a = ordinal b ∧ (tod a ≤ tod b)%N).

(** A Monday, 00:00:00. *)
Definition is_monday_midnight (m : datetime) : Prop :=
  weekday m = 0 ∧ tod m = 0%N.

(** [m] is the latest Monday 00:00:00 that is not after [t]. *)
Definition most_recent_monday_midnight (t m : datetime) : Prop :=
  is_monday_midnight m ∧ dt_le m t ∧
  ∀ m', is_monday_midnight m' → dt_le m' t → dt_le m' m.

(** The file that a write leaves. *)
Definition file_after_write (r : write_result) (doc : json) (f : file_state)
  : file_state :=
  match r with
  | WriteOk => FileJson doc
  | WriteRefused => f
  | WriteTorn => FileGarbled
  end.

(** The ledger in memory when [add_praise] reaches [save_data]. *)
Definition ledger_after_praise (d : ledger) (from to message : string)
    (t : datetime) : ledger :=
  append_given from (Given (JStr to) (JStr message) t)
    (append_received to (Received (JStr from) (JStr message) t) d).

(** The file exists, can be opened, and does not yield a ledger: either
    [json.load] rejects its bytes or the walk over the document raises. *)
Definition is_malformed (fromisoformat : string → option datetime)
    (f : file_state) : bool :=
  match f with
  | FileGarbled => true
  | FileJson doc =>
      match decode_doc fromisoformat doc with
      | inl _ => true
      | inr _ => false
      end
  | FileAbsent | FileUnreadable => false
  end.

(** Descending by total: every element is followed by totals not above
    its own. *)
Definition total_ge (a b : stats) : Prop := total_score b ≤ total_score a.

(** What one item of [self.data] adds to [all_users]. *)
Definition contributes (kv : string * user_data) (k : pykey) : Prop :=
  (has_data kv.2 = true ∧ k = KStr kv.1)
  ∨ (∃ g, g ∈ given kv.2 ∧ py_hash (to_user g) = inr k)
  ∨ (∃ r, r ∈ received kv.2 ∧ py_hash (from_user r) = inr k).

(** Every user id that the item mentions can be put in a set. *)
Definition item_hashable (kv : string * user_data) : Prop :=
  (∀ g, g ∈ given kv.2 → ∃ k, py_hash (to_user g) = inr k)
  ∧ (∀ r, r ∈ received kv.2 → ∃ k, py_hash (from_user r) = inr k).

(** The users of a ranking: the owners of a non-empty entry and every
    [from_user] and [to_user] of an entry. *)
Definition in_universe (d : ledger) (k : pykey) : Prop :=
  ∃ u ud, d !! u = Some ud ∧ contributes (u, ud) k.

(** Every user id in the ledger can be put in a set; so it is when they are
    strings. *)
Definition ids_hashable (d : ledger) : Prop :=
  ∀ u ud, d !! u = Some ud → item_hashable (u, ud).

(** The ['received'] entry that mirrors an entry of the given list of [u]. *)
Definition mirror_received (u : string) (g : given_entry) : received_entry :=
  {| from_user := JStr u; r_message := g_message g; r_timestamp := g_timestamp g |}.

(** The ['given'] entry that mirrors an entry of the received list of [v]. *)
Definition mirror_given (v : string) (r : received_entry) : given_entry :=
  {| to_user := JStr v; g_message := r_message r; g_timestamp := r_timestamp r |}.

(** I1: every given entry has its mirror in the received list of its
    recipient, and every received entry has its mirror in the given list of
    its sender. *)
Definition I1 (d : ledger) : Prop :=
  (∀ u g, g ∈ given (at_user d u) →
     ∃ v, to_user g = JStr v ∧ mirror_received u g ∈ received (at_user d v))
  ∧
  (∀ v r, r ∈ received (at_user d v) →
     ∃ u, from_user r = JStr u ∧ mirror_given v r ∈ given (at_user d u)).

(** The public operations of the store. *)
Inductive store_op : Type :=
| OpLoad
| OpSave
| OpWeekly (user_id : string)
| OpAdd (from to message : string)
| OpCount (user_id : string)
| OpRanking.

(** A praise notification, as opposed to a reply of [say]. *)
Definition is_post (m : outmsg) : Prop :=
  match m with
  | PostPraise _ _ _ _ _ _ _ _ => True
  | _ => False
  end.

Section Operations.

Variable isoformat : datetime → string.
Variable fromisoformat : string → option datetime.
Variable clock : nat → datetime.
Variable disk : nat → write_result.
Variable set_iter : gset pykey → list pykey.

(** The world after one operation, whatever it returned. *)
Definition run_op (op : store_op) (w : world) : world :=
  match op with
  | OpLoad => (load_data fromisoformat w).2
  | OpSave => (save_data isoformat disk w).2
  | OpWeekly u => (get_user_weekly_praises fromisoformat clock u w).2
  | OpAdd from to message =>
      (add_praise isoformat fromisoformat clock disk from to message w).2
  | OpCount u => (get_praise_count fromisoformat u w).2
  | OpRanking => (get_sorted_users fromisoformat set_iter w).2
  end.

(** The world after a sequence of operations. *)
Definition run_ops (ops : list store_op) (w : world) : world :=
  fold_left (fun w op => run_op op w) ops w.

(** I1 in memory and in the file. *)
Definition store_inv (w : world) : Prop :=
  I1 (data w) ∧ I1 (snapshot fromisoformat (file w)).

End Operations.

(** ** A concrete library and outside, for the examples

    A codec for timestamps in the place of [isoformat] and
    [fromisoformat] (day number and microseconds in decimal, separated by
    [T]), a set iteration order, a clock at noon of a Wednesday, a disk that
    works and a directory in which every name is the id of an active
    user. *)

Definition z_to_string (z : Z) : string := DecimalString.NilEmpty.string_of_int (Z.to_int z).

Definition z_of_string (s : string) : option Z :=
  Z.of_int <$> DecimalString.NilEmpty.int_of_string s.

Fixpoint split_T (s : string) : option (string * string) :=
  match s with
  | EmptyString => None
  | String c s' =>
      if Ascii.eqb c "T" then Some (EmptyString, s')
      else '(a, b) ← split_T s'; Some (String c a, b)
  end.

(** No character of the string is the separator. *)
Fixpoint no_T (s : string) : bool :=
  match s with
  | EmptyString => true
  | String c s' => negb (Ascii.eqb c "T") && no_T s'
  end.

Definition sample_isoformat (t : datetime) : string :=
  z_to_string (ordinal t) +:+ String "T" (z_to_string (Z.of_N (tod t))).

Definition sample_fromisoformat (s : string) : option datetime :=
  '(a, b) ← split_T s;
  o ← z_of_string a;
  u ← z_of_string b;
  if 0 <=? u then Some (DateTime o (Z.to_N u)) else None.

(** Wednesday 2024-01-03, 12:00:00. *)
Definition sample_noon : datetime := DateTime 738888 43200000000.

Definition sample_clock (t : nat) : datetime := sample_noon.
Definition sample_disk (t : nat) : write_result := WriteOk.
Definition sample_set_iter (s : gset pykey) : list pykey := elements s.
Definition sample_verify_user (user_id : string) : bool := true.
Definition sample_find_user_by_name (username : string) : option string :=
  Some username.
Definition sample_users_info (t : nat) (user : string) : result (option string) :=
  inr (Some user).
Definition sample_chat_postMessage (t : nat) : result unit := inr tt.

Definition sample_world (f : file_state) : world :=
  {| file := f; data := ∅; tick := 0; outbox := [] |}.

(** Every name is the id of a user. *)
Definition sample_parse_mentions (text : string) : list mention :=
  _parse_mentions sample_verify_user sample_find_user_by_name text.

Definition sample_load_data : M unit := load_data sample_fromisoformat.

Definition sample_add_praise : string → string → string → M unit :=
  add_praise sample_isoformat sample_fromisoformat sample_clock sample_disk.

Definition sample_weekly : string → M Z :=
  get_user_weekly_praises sample_fromisoformat sample_clock.

Definition sample_count : string → M Z := get_praise_count sample_fromisoformat.

Definition sample_ranking : M (list stats) :=
  get_sorted_users sample_fromisoformat sample_set_iter.

Definition sample_process (user_id : string) (mentions : list mention)
    (praise_message channel_id : string) (remaining : Z) : M unit :=
  _process_praises sample_isoformat sample_fromisoformat sample_clock sample_disk
    sample_users_info sample_chat_postMessage
    user_id mentions praise_message channel_id remaining.

Definition sample_handle : string → string → string → M unit :=
  handle_hloppy_command sample_isoformat sample_fromisoformat sample_clock
    sample_disk sample_verify_user sample_find_user_by_name sample_users_info
    sample_chat_postMessage.

(** The world after [U1] praised [U2] on an empty store. *)
Definition one_praise_world : world :=
  (sample_add_praise "U1" "U2" "great work" (sample_world FileAbsent)).2.

(** The world after [U1] praised [U2], [U3] and [U4] in one command. *)
Definition three_praises_world : world :=
  (sample_handle "U1" "C1" "@U2 @U3 @U4 great work" (sample_world FileAbsent)).2.

(** A clock that reads Sunday 2024-01-07 23:59:59.999999 first, then Monday
    2024-01-08 00:00:00 four times, then noon of that Monday. *)
Definition rollover_clock (t : nat) : datetime :=
  match t with
  | O => DateTime 738892 86399999999
  | S (S (S (S (S _)))) => DateTime 738893 43200000000
  | _ => DateTime 738893 0
  end.

(** A file that is JSON but no ledger: a list at top level. *)
Definition list_file : file_state := FileJson (JArr [JNum 1]).

(** ** More vocabulary: reads, failing disks *)

(** The operations of the store that only read. *)
Definition is_query (op : store_op) : Prop :=
  match op with
  | OpLoad | OpWeekly _ | OpCount _ | OpRanking => True
  | OpSave | OpAdd _ _ _ => False
  end.

(** A disk on which [open(DATA_FILE, 'w')] fails. *)
Definition refusing_disk (t : nat) : write_result := WriteRefused.

(** A disk that breaks every write after truncating the file. *)
Definition tearing_disk (t : nat) : write_result := WriteTorn.

(** A list of given praises that is at most [k] entries longer than another
    and counts, for every start of week, at most [k] more. *)
Definition grows_by (k : Z) (l l' : list given_entry) : Prop :=
  Z.of_nat (length l') ≤ Z.of_nat (length l) + k ∧
  ∀ ws, weekly_sum ws l' ≤ weekly_sum ws l + k.

(** The recipient mention shown by a praise notification. *)
Definition post_target (m : outmsg) : string :=
  match m with
  | PostPraise _ _ target_mention _ _ _ _ _ => target_mention
  | _ => ""
  end.

(** The remaining quota shown by a praise notification. *)
Definition post_remaining (m : outmsg) : Z :=
  match m with
  | PostPraise _ _ _ _ _ remaining _ _ => remaining
  | _ => 0
  end.

(** A chat platform where posting fails at every attempt. *)
Definition failing_chat_postMessage (t : nat) : result unit := inl SlackApiError.

(** The mentions that ask for a praise: those of somebody else than the
    requester. *)
Definition others (user_id : string) (mentions : list mention) : list mention :=
  filter (fun m => m_id m ≠ user_id) mentions.

(** A disk that takes every write, a directory that knows every user by a
    name, a chat platform that posts every message. *)
Definition disk_works (disk : nat → write_result) : Prop :=
  ∀ t, disk t = WriteOk.
Definition directory_works (users_info : nat → string → result (option string))
  : Prop :=
  ∀ t u, ∃ name, users_info t u = inr (Some name).
Definition chat_works (chat_postMessage : nat → result unit) : Prop :=
  ∀ t, chat_postMessage t = inr tt.

(** The given entry that praise number [i] of a command leaves, when the
    loop starts at interaction [t0]: every praise takes four interactions
    (clock, write, directory, post). *)
Definition praise_entry (clock : nat → datetime) (t0 : nat) (message : string)
    (i : nat) (m : mention) : given_entry :=
  Given (JStr (m_id m)) (JStr message) (clock (t0 + 4 * i)%nat).

(** What [_parse_single_mention] has checked of a mention it returns, found
    at the [@] at [start]: either it is written as [<@id>] in the text and
    [_verify_user] accepts the id, or it ends at a space and
    [_find_user_by_name] gave a non-empty id for the name before it. *)
Definition mention_checked (_verify_user : string → bool)
    (_find_user_by_name : string → option string) (text : string)
    (m : mention) : Prop :=
  (∃ start, _verify_user (m_id m) = true ∧
            slice (start - 1) (start + 1) text = "<@" ∧
            m_mention m = slice (start - 1) (m_end m) text ∧
            String.get (m_end m - 1) text = Some ">"%char)
  ∨ (∃ username, _find_user_by_name username = Some (m_id m) ∧
                 m_id m ≠ "" ∧
                 m_mention m = "<@" +:+ m_id m +:+ ">" ∧
                 String.get (m_end m) text = Some " "%char).

(** A file with the history of one user and a broken entry for another. *)
Definition half_broken_file : file_state :=
  FileJson (JObj [("U1", JObj [("received", JArr []);
                               ("given", JArr [JObj [("to_user", JStr "U2");
                                                     ("message", JStr "thanks");
                                                     ("timestamp", JStr "738888T0")]])]);
                  ("U2", JNum 5)]).

(** The number of entries that a ledger holds, counted per user with
    [measure] and added up. *)
Definition total_of (measure : user_data → nat) (d : ledger) : nat :=
  map_fold (fun _ ud n => (measure ud + n)%nat) 0%nat d.

(** All received entries, and all given entries, of a ledger. *)
Definition total_received (d : ledger) : nat :=
  total_of (fun ud => length (received ud)) d.
Definition total_given (d : ledger) : nat :=
  total_of (fun ud => length (given ud)) d.

(** As many praises received as given. *)
Definition balanced (d : ledger) : Prop := total_received d = total_given d.

(** ** The search of the user directory by name

    [HloppyBot._find_user_by_name] walks the members that
    [users_list()] answers with.  The members are parsed JSON; what the call
    and [response["members"]] give, or raise, is the first argument.  In the
    sections on the parser the variable of the same name stands for this
    function on the directory of the moment. *)

(** [c.lower()] on the characters below 256: the capital letters of ASCII
    and of Latin-1, which is U+00C0 to U+00DE without the multiplication
    sign. *)
Definition lower_char (c : ascii) : ascii :=
  let n := nat_of_ascii c in
  if (((65 <=? n) && (n <=? 90))
      || ((192 <=? n) && (n <=? 222) && negb (n =? 215)))%nat
  then ascii_of_nat (n + 32)
  else c.

(** [s.lower()]. *)
Fixpoint py_lower (s : string) : string :=
  match s with
  | EmptyString => EmptyString
  | String c s' => String (lower_char c) (py_lower s')
  end.

(** [s.split()]: the maximal runs without whitespace; [word] is the run
    being read. *)
Fixpoint split_words (s : string) (word : string) : list string :=
  match s with
  | EmptyString => if String.eqb word "" then [] else [word]
  | String c s' =>
      if is_space c
      then if String.eqb word "" then split_words s' ""
           else word :: split_words s' ""
      else split_words s' (word +:+ String c EmptyString)
  end.

Definition py_split (s : string) : list string := split_words s "".

(** [v.lower()]: only a string has the method. *)
Definition lower_of (v : json) : result string :=
  match v with
  | JStr s => inr (py_lower s)
  | _ => raise AttributeError
  end.

(** The [any([...])] of the loop body: the list is built first, so all four
    comparisons are evaluated, in order. *)
Definition member_matches (username : string) (user : json) : result bool :=
  name ← py_get user "name" (JStr "");
  name ← lower_of name;
  real_name ← py_get user "real_name" (JStr "");
  real_name ← lower_of real_name;
  profile ← py_get user "profile" (JObj []);
  display_name ← py_get profile "display_name" (JStr "");
  display_name ← lower_of display_name;
  real_name' ← py_get user "real_name" (JStr "");
  real_name' ← lower_of real_name';
  mret (String.eqb name (py_lower username)
        || String.eqb real_name (py_lower username)
        || String.eqb display_name (py_lower username)
        || bool_decide (py_lower username ∈ py_split real_name')).

(** [for user in response["members"]: if any([...]): return user["id"]]. *)
Fixpoint find_member (username : string) (members : list json)
  : result (option json) :=
  match members with
  | [] => inr None
  | user :: rest =>
      hit ← member_matches username user;
      if hit : bool
      then user_id ← py_subscript user "id"; mret (Some user_id)
      else find_member username rest
  end.

(** [HloppyBot._find_user_by_name]: the value of [user["id"]] for the first
    member that matches; [None], here [JNull], when there is none, and when
    anything raises. *)
Definition _find_user_by_name (members : result json) (username : string) : json :=
  match (v ← members; users ← py_iter v; find_member username users) with
  | inr (Some user_id) => user_id
  | inr None => JNull
  | inl _ => JNull
  end.

(** A member as the directory lists it: a dict whose [name] and [real_name]
    are strings where present, and whose [profile], where present, is a dict
    with a string as [display_name], where present. *)
Definition text_field (k : string) (m : list (string * json)) : option string :=
  match assoc k m with
  | None => Some ""
  | Some (JStr s) => Some s
  | Some _ => None
  end.

Definition display_name_of (m : list (string * json)) : option string :=
  match assoc "profile" m with
  | None => Some ""
  | Some (JObj p) => text_field "display_name" p
  | Some _ => None
  end.

(** ** The standings text

    [PraiseData.format_standings_message] returns a text: the one without
    standings, or the header followed by one line per user; a line shows the
    user, the two counts and the total, here the [stats] it is formatted
    from.  The directory is asked about every user of the ranking;
    [users_info_ok] is the truth value of [user_info["ok"]], or the
    exception of the call, by the number of interactions so far. *)

Inductive standings : Type :=
| EmptyStandings
| Standings (lines : list stats).

Section StandingsText.

Variable fromisoformat : string → option datetime.
Variable set_iter : gset pykey → list pykey.
Variable users_info_ok : nat → pykey → result bool.

Definition call_users_info_ok (user : pykey) : M bool :=
  fun w => (users_info_ok (tick w) user, step w).

(** The loop of [_format_standings_output]: a user whose lookup raises is
    passed over. *)
Fixpoint _format_standings_output (sorted_users : list stats) (message : list stats)
  : M (list stats) :=
  match sorted_users with
  | [] => mret message
  | x :: rest =>
      message' ← try_except
                   (ok ← call_users_info_ok (uid x);
                    mret (if ok : bool then message ++ [x] else message))
                   (fun _ => mret message);
      _format_standings_output rest message'
  end.

(** [PraiseData.format_standings_message]; [app_instance] tells whether
    [app or self.app] is an app.  The users are collected, counted and put in
    order by the statements that [get_sorted_users] repeats. *)
Definition format_standings_message (app_instance : bool) : M standings :=
  if negb app_instance
  then mret EmptyStandings
  else
    load_data fromisoformat;;
    d ← get_data;
    sorted_users ← lift (sorted_users_of set_iter d);
    if bool_decide (sorted_users = [])
    then mret EmptyStandings
    else
      lines ← _format_standings_output sorted_users [];
      mret (Standings lines).

End StandingsText.

(** A directory that confirms only the user [U2]. *)
Definition only_U2_ok (t : nat) (user : pykey) : result bool :=
  if decide (user = KStr "U2") then inr true else inl SlackApiError.

(** ** The standings reports

    [handle_stats_command] and [post_leaderboard] send the standings: the
    text of [format_standings_message] and a list of blocks, by [say] or by
    [chat_postMessage] to a channel.  A [desk] is the world of the store
    together with the reports sent so far. *)

Inductive block : Type :=
| IntroBlock
| HeadingBlock
| LineBlock (line : stats)
| NoPraisesBlock.

Record report : Type := Report {
  to_channel : option json;     (* [None]: the reply of [say] *)
  report_text : standings;
  report_blocks : list block
}.

Record desk : Type := Desk {
  store : world;
  reports : list report
}.

Definition R (A : Type) : Type := desk → result A * desk.

#[global] Instance R_ret : MRet R := fun _ a k => (inr a, k).
#[global] Instance R_bind : MBind R := fun _ _ f m k =>
  match m k with
  | (inl e, k') => (inl e, k')
  | (inr a, k') => f a k'
  end.

(** A method of the store, run at the desk. *)
Definition in_store {A} (m : M A) : R A := fun k =>
  ((m (store k)).1, {| store := (m (store k)).2; reports := reports k |}).

Definition lift_R {A} (r : result A) : R A := fun k => (r, k).

Definition try_except_R {A} (body : R A) (handler : exn → R A) : R A := fun k =>
  match body k with
  | (inl e, k') => handler e k'
  | (inr a, k') => (inr a, k')
  end.

(** The blocks that both functions build: two headers, one block per line
    of the ranking, and the notice when there is none. *)
Definition standings_blocks (sorted_users : list stats) : list block :=
  [IntroBlock; HeadingBlock] ++ (LineBlock <$> sorted_users)
  ++ (if bool_decide (sorted_users = []) then [NoPraisesBlock] else []).

(** [channel["name"] == "general"]. *)
Definition is_general (name : json) : bool :=
  match name with
  | JStr s => String.eqb s "general"
  | _ => false
  end.

(** [next((channel for channel in channels if channel["name"] == "general"),
    None)]. *)
Fixpoint find_general (channels : list json) : result (option json) :=
  match channels with
  | [] => inr None
  | channel :: rest =>
      name ← py_subscript channel "name";
      if is_general name then inr (Some channel) else find_general rest
  end.

Section Reports.

Variable fromisoformat : string → option datetime.
Variable set_iter : gset pykey → list pykey.
Variable users_info_ok : nat → pykey → result bool.

(** [conversations_list(types="public_channel")]: what the call raises, or
    the values of [response["ok"]] and [response["channels"]], [JNull] for
    one that the response does not have. *)
Variable conversations_list : nat → result (json * json).
Variable chat_postMessage : nat → result unit.

(** [say(blocks=blocks, text=message)]. *)
Definition say_report (r : report) : R unit := fun k =>
  (inr tt, {| store := store k; reports := reports k ++ [r] |}).

Definition call_conversations_list : R (json * json) := fun k =>
  (conversations_list (tick (store k)),
   {| store := step (store k); reports := reports k |}).

Definition post_report (r : report) : R unit := fun k =>
  match chat_postMessage (tick (store k)) with
  | inl e => (inl e, {| store := step (store k); reports := reports k |})
  | inr _ => (inr tt, {| store := step (store k); reports := reports k ++ [r] |})
  end.

(** [HloppyBot.handle_stats_command], after [ack()]. *)
Definition handle_stats_command : R unit :=
  message ← in_store (format_standings_message fromisoformat set_iter
                        users_info_ok true);
  sorted_users ← in_store (get_sorted_users fromisoformat set_iter);
  say_report (Report None message (standings_blocks sorted_users)).

(** [HloppyBot.post_leaderboard]. *)
Definition post_leaderboard : R unit :=
  try_except_R
    (response ← call_conversations_list;
     if py_truthy response.1
     then
       channels ← lift_R (py_iter response.2);
       general_channel ← lift_R (find_general channels);
       match general_channel with
       | Some channel =>
           if py_truthy channel
           then
             message ← in_store (format_standings_message fromisoformat set_iter
                                   users_info_ok true);
             sorted_users ← in_store (get_sorted_users fromisoformat set_iter);
             channel_id ← lift_R (py_subscript channel "id");
             post_report (Report (Some channel_id) message
                            (standings_blocks sorted_users))
           else mret tt
       | None => mret tt
       end
     else mret tt)
    (fun _ => mret tt).

End Reports.

(** The text that goes with a ranking: the text without standings for an
    empty ranking; otherwise the header with lines of the ranking in its
    order, all of them when the directory confirms every user. *)
Definition text_of_ranking (users_info_ok : nat → pykey → result bool)
    (text : standings) (sorted_users : list stats) : Prop :=
  match sorted_users with
  | [] => text = EmptyStandings
  | _ :: _ =>
      ∃ lines, text = Standings lines ∧ sublist lines sorted_users ∧
               ((∀ t u, users_info_ok t u = inr true) → lines = sorted_users)
  end.

(** The first channel of a listing that is named [general]. *)
Definition first_general (channels : list json) (channel : json) : Prop :=
  ∃ pre post,
    channels = pre ++ channel :: post ∧
    py_subscript channel "name" = inr (JStr "general") ∧
    Forall (fun c => ∃ name, py_subscript c "name" = inr name
                             ∧ name ≠ JStr "general") pre.

(** A directory that confirms everybody, and a workspace with a channel
    named [general] after one that is not. *)
Definition all_ok (t : nat) (user : pykey) : result bool := inr true.

Definition sample_conversations_list (t : nat) : result (json * json) :=
  inr (JBool true,
       JArr [JObj [("name", JStr "random"); ("id", JStr "C0")];
             JObj [("name", JStr "general"); ("id", JStr "C1")]]).

Definition sample_desk (w : world) : desk := {| store := w; reports := [] |}.

(** ** A run of commands *)

Section Commands.

Variable isoformat : datetime → string.
Variable fromisoformat : string → option datetime.
Variable clock : nat → datetime.
Variable disk : nat → write_result.
Variable _verify_user : string → bool.
Variable _find_user_by_name : string → option string.
Variable users_info : nat → string → result (option string).
Variable chat_postMessage : nat → result unit.

(** The world after a sequence of [/hloppy] commands, each given by its
    user, its channel and its text. *)
Definition run_commands (commands : list (string * string * string)) (w : world)
  : world :=
  fold_left
    (fun w c =>
       (handle_hloppy_command isoformat fromisoformat clock disk _verify_user
          _find_user_by_name users_info chat_postMessage c.1.1 c.1.2 c.2 w).2)
    commands w.

End Commands.

(** * Properties *)

(** ** The monad *)

Lemma M_bind_unfold {A B} (m : M A) (f : A → M B) (w : world) :
  (m ≫= f) w = match m w with
               | (inl e, w') => (inl e, w')
               | (inr a, w') => f a w'
               end.
Proof. reflexivity. Qed.

Lemma result_bind_inr {A B} (f : A → result B) (a : A) :
  (inr a ≫= f) = f a.
Proof. reflexivity. Qed.

Lemma result_bind_inl {A B} (f : A → result B) (e : exn) :
  (inl e ≫= f) = inl e.
Proof. reflexivity. Qed.

Lemma same_outside_with_data (w w' : world) :
  same_outside w w' → w' = with_data (data w') w.
Proof.
  destruct w, w'; unfold same_outside, with_data; simpl.
  intros (-> & -> & ->); reflexivity.
Qed.

Section LoadFacts.

Variable fromisoformat : string → option datetime.

Lemma load_user_decode (kv : string * json) (w : world) :
  match load_user fromisoformat kv w with
  | (inr _, w') =>
      same_outside w w' ∧ decode_user fromisoformat (data w) kv = inr (data w')
  | (inl e, w') =>
      same_outside w w' ∧ decode_user fromisoformat (data w) kv = inl e
  end.
Proof.
  unfold load_user, decode_user.
  rewrite M_bind_unfold. unfold lift at 1.
  destruct (load_list (load_received fromisoformat) kv.2 "received") as [e|rs];
    [by rewrite result_bind_inl|].
  rewrite result_bind_inr, M_bind_unfold. unfold modify_data at 1.
  rewrite M_bind_unfold. unfold lift at 1.
  destruct (load_list (load_given fromisoformat) kv.2 "given") as [e|gs];
    [by rewrite result_bind_inl|].
  rewrite result_bind_inr. unfold modify_data, with_data, at_user; simpl.
  split; [done|]. rewrite lookup_insert_eq; simpl.
  by rewrite insert_insert_eq.
Qed.

Lemma load_users_decode (items : list (string * json)) (w : world) :
  match for_each (load_user fromisoformat) items w with
  | (inr _, w') =>
      same_outside w w' ∧ decode_users fromisoformat items (data w) = inr (data w')
  | (inl e, w') =>
      same_outside w w' ∧ decode_users fromisoformat items (data w) = inl e
  end.
Proof.
  revert w. induction items as [|kv items IH]; intros w; simpl.
  - done.
  - rewrite M_bind_unfold.
    pose proof (load_user_decode kv w) as Hkv.
    destruct (load_user fromisoformat kv w) as [[e|[]] w1].
    + destruct Hkv as [Ho ->]. by rewrite result_bind_inl.
    + destruct Hkv as [Ho ->]. rewrite result_bind_inr.
      specialize (IH w1).
      destruct (for_each (load_user fromisoformat) items w1) as [[e|[]] w2];
        destruct IH as [Ho2 IH]; (split; [|done]);
        destruct Ho as (?&?&?), Ho2 as (?&?&?); repeat split; congruence.
Qed.

Lemma load_body_read (w : world) :
  match load_body fromisoformat w with
  | (inr _, w') => same_outside w w' ∧ read_file fromisoformat (file w) = inr (data w')
  | (inl e, w') => same_outside w w' ∧ read_file fromisoformat (file w) = inl e
  end.
Proof.
  unfold load_body, read_file. destruct (file w) as [| | |doc] eqn:Hf; simpl; try done.
  unfold decode_doc. rewrite M_bind_unfold. unfold set_data at 1.
  destruct (py_truthy doc); [|done].
  rewrite M_bind_unfold. unfold lift.
  destruct (py_items doc) as [e|items]; [done|].
  rewrite result_bind_inr.
  pose proof (load_users_decode items (with_data ∅ w)) as H.
  destruct (for_each (load_user fromisoformat) items (with_data ∅ w)) as [[e|[]] w'];
    destruct H as [(?&?&?) H]; done.
Qed.

(** [load_data] returns, touches nothing but [self.data], and leaves there
    the ledger that the file stands for. *)
Lemma load_data_spec (w : world) :
  load_data fromisoformat w = (inr tt, with_data (snapshot fromisoformat (file w)) w).
Proof.
  unfold load_data, try_except, snapshot.
  pose proof (load_body_read w) as H.
  destruct (load_body fromisoformat w) as [[e|[]] w']; destruct H as [Ho ->].
  - unfold set_data. f_equal. destruct Ho as (?&?&?).
    destruct w, w'; unfold with_data; simpl in *; congruence.
  - f_equal. by apply same_outside_with_data.
Qed.

End LoadFacts.

(** ** Time *)

Lemma dt_leb_le (a b : datetime) : dt_leb a b = true ↔ dt_le a b.
Proof.
  unfold dt_leb, dt_le.
  rewrite orb_true_iff, andb_true_iff, Z.ltb_lt, Z.eqb_eq, N.leb_le. tauto.
Qed.

Lemma weekday_range (t : datetime) : 0 ≤ weekday t < 7.
Proof. unfold weekday. apply Z.mod_pos_bound. lia. Qed.

Lemma week_start_monday (t : datetime) : weekday (week_start t) = 0.
Proof. unfold week_start, weekday; simpl. Z.div_mod_to_equations. lia. Qed.

Lemma week_start_most_recent (t : datetime) :
  most_recent_monday_midnight t (week_start t).
Proof.
  split; [split; [apply week_start_monday | reflexivity]|]. split.
  - unfold dt_le, week_start, weekday; simpl.
    Z.div_mod_to_equations. lia.
  - intros m' [Hm' Htod]. unfold dt_le, week_start, weekday in *; simpl.
    rewrite Htod. Z.div_mod_to_equations. lia.
Qed.

Lemma weekly_sum_length (ws : datetime) (gs : list given_entry) :
  weekly_sum ws gs
  = Z.of_nat (length (filter (fun p => dt_le ws (g_timestamp p)) gs)).
Proof.
  induction gs as [|p gs IH]; simpl; [done|].
  rewrite IH. unfold dt_geb.
  destruct (dt_leb ws (g_timestamp p)) eqn:Hp.
  - apply dt_leb_le in Hp. rewrite filter_cons_True by done. simpl length. lia.
  - rewrite filter_cons_False; [lia|].
    intros H%dt_leb_le. congruence.
Qed.

(** ** The methods of the store, as equations *)

Section StoreFacts.

Variable isoformat : datetime → string.
Variable fromisoformat : string → option datetime.
Variable clock : nat → datetime.
Variable disk : nat → write_result.
Variable set_iter : gset pykey → list pykey.

Lemma get_user_weekly_praises_spec (user_id : string) (w : world) :
  let d := snapshot fromisoformat (file w) in
  get_user_weekly_praises fromisoformat clock user_id w
  = (inr (weekly_of d user_id (clock (tick w))),
     match d !! user_id with
     | Some _ => step (with_data d w)
     | None => with_data d w
     end).
Proof.
  unfold get_user_weekly_praises, weekly_of.
  rewrite M_bind_unfold, load_data_spec, M_bind_unfold.
  unfold get_data; simpl.
  destruct (snapshot fromisoformat (file w) !! user_id); reflexivity.
Qed.

Lemma get_praise_count_spec (user_id : string) (w : world) :
  let d := snapshot fromisoformat (file w) in
  get_praise_count fromisoformat user_id w
  = (inr (Z.of_nat (length (received (at_user d user_id)))), with_data d w).
Proof.
  unfold get_praise_count.
  rewrite M_bind_unfold, load_data_spec. reflexivity.
Qed.

Lemma get_sorted_users_spec (w : world) :
  let d := snapshot fromisoformat (file w) in
  get_sorted_users fromisoformat set_iter w
  = (sorted_users_of set_iter d, with_data d w).
Proof.
  unfold get_sorted_users.
  rewrite M_bind_unfold, load_data_spec. reflexivity.
Qed.

Lemma save_data_spec (w : world) :
  save_data isoformat disk w
  = (inr tt,
     step (with_file
             (file_after_write (disk (tick w)) (dump_ledger isoformat (data w)) (file w))
             w)).
Proof.
  unfold save_data, try_except. rewrite M_bind_unfold.
  unfold get_data, write_file, file_after_write; simpl.
  destruct (disk (tick w)); reflexivity.
Qed.

Lemma add_praise_spec (from to message : string) (w : world) :
  let d := ledger_after_praise (snapshot fromisoformat (file w)) from to message
             (clock (tick w)) in
  add_praise isoformat fromisoformat clock disk from to message w
  = (inr tt,
     step (with_file
             (file_after_write (disk (S (tick w))) (dump_ledger isoformat d) (file w))
             (step (with_data d w)))).
Proof.
  unfold add_praise.
  rewrite M_bind_unfold, load_data_spec.
  rewrite M_bind_unfold. unfold now at 1.
  rewrite !M_bind_unfold. unfold modify_data.
  rewrite M_bind_unfold; cbv beta. rewrite save_data_spec.
  reflexivity.
Qed.

End StoreFacts.

(** ** The weekly count *)

Section WeeklyCount.

Variable fromisoformat : string → option datetime.
Variable clock : nat → datetime.


End WeeklyCount.

(** ** Loading a file that cannot be used *)

Lemma snapshot_malformed fromisoformat (f : file_state) :
  is_malformed fromisoformat f = true → snapshot fromisoformat f = ∅.
Proof.
  unfold snapshot, is_malformed. destruct f as [| | |doc]; simpl; try done.
  by destruct (decode_doc fromisoformat doc).
Qed.

Section ShapeFacts.

Variable fromisoformat : string → option datetime.

Lemma shaped_entries_load {A} (who : string) (load : json → result A)
    (ps : list json) :
  (∀ p, entry_shaped fromisoformat who p = true → ∃ x, load p = inr x) →
  forallb (entry_shaped fromisoformat who) ps = true →
  ∃ xs, mapM load ps = inr xs.
Proof.
  intros Hload. induction ps as [|p ps IH]; simpl; [by eexists|].
  intros [Hp Hps]%andb_true_iff.
  destruct (Hload p Hp) as [x Hx], (IH Hps) as [xs Hxs].
  exists (x :: xs).
  change (mapM load (p :: ps)) with (y ← load p; k ← mapM load ps; mret (y :: k)).
  by rewrite Hx, Hxs.
Qed.

Lemma shaped_received_loads (p : json) :
  entry_shaped fromisoformat "from_user" p = true →
  ∃ x, load_received fromisoformat p = inr x.
Proof.
  destruct p as [| | | |?|m]; simpl; try done. unfold load_received; simpl.
  destruct (assoc "from_user" m) as [[| | |f| |]|]; try done.
  destruct (assoc "message" m) as [[| | |msg| |]|]; try done.
  destruct (assoc "timestamp" m) as [[| | |ts| |]|]; try done. simpl.
  intros [t Ht]%bool_decide_eq_true. rewrite Ht. by eexists.
Qed.

Lemma shaped_given_loads (p : json) :
  entry_shaped fromisoformat "to_user" p = true →
  ∃ x, load_given fromisoformat p = inr x.
Proof.
  destruct p as [| | | |?|m]; simpl; try done. unfold load_given; simpl.
  destruct (assoc "to_user" m) as [[| | |f| |]|]; try done.
  destruct (assoc "message" m) as [[| | |msg| |]|]; try done.
  destruct (assoc "timestamp" m) as [[| | |ts| |]|]; try done. simpl.
  intros [t Ht]%bool_decide_eq_true. rewrite Ht. by eexists.
Qed.

Lemma shaped_user_loads (d : ledger) (kv : string * json) :
  user_shaped fromisoformat kv.2 = true → ∃ d', decode_user fromisoformat d kv = inr d'.
Proof.
  destruct kv as [u v]; simpl. destruct v as [| | | |?|m]; simpl; try done.
  unfold decode_user, load_list; simpl.
  destruct (assoc "received" m) as [[| | | |rs|]|]; try done.
  destruct (assoc "given" m) as [[| | | |gs|]|]; try done. simpl.
  intros [Hrs Hgs]%andb_true_iff.
  destruct (shaped_entries_load _ _ rs shaped_received_loads Hrs) as [xs ->].
  destruct (shaped_entries_load _ _ gs shaped_given_loads Hgs) as [ys ->].
  by eexists.
Qed.

Lemma shaped_users_load (items : list (string * json)) (d : ledger) :
  forallb (fun kv => user_shaped fromisoformat kv.2) items = true →
  ∃ d', decode_users fromisoformat items d = inr d'.
Proof.
  revert d. induction items as [|kv items IH]; intros d; simpl; [by eexists|].
  intros [Hkv Hitems]%andb_true_iff.
  destruct (shaped_user_loads d kv Hkv) as [d1 ->]. simpl. by apply IH.
Qed.

(** A document of the shape that the specification describes is read
    without an exception: a file on which [load_data] meets one is malformed
    in the sense of the specification too. *)
Lemma shaped_document_loads (doc : json) :
  document_shaped fromisoformat doc = true → is_malformed fromisoformat (FileJson doc) = false.
Proof.
  destruct doc as [| | | |?|m]; simpl; try done. intros Hm.
  unfold decode_doc. destruct (py_truthy (JObj m)); [|done]. simpl.
  by destruct (shaped_users_load m ∅ Hm) as [d ->].
Qed.

End ShapeFacts.

Section FailOpen.

Variable fromisoformat : string → option datetime.
Variable clock : nat → datetime.
Variable set_iter : gset pykey → list pykey.
Hypothesis set_iter_perm : ∀ s, set_iter s ≡ₚ elements s.

Lemma set_iter_empty : set_iter ∅ = [].
Proof.
  apply Permutation_nil_r. rewrite set_iter_perm, elements_empty. done.
Qed.

Lemma sorted_users_of_empty : sorted_users_of set_iter ∅ = inr [].
Proof.
  unfold sorted_users_of. rewrite map_to_list_empty; simpl.
  rewrite ?result_bind_inr, set_iter_empty. reflexivity.
Qed.


(** C7: with a missing, unreadable or corrupt file, [load_data]
    returns normally with an empty ledger, and every query of the store
    answers as on an empty ledger, without raising: weekly count 0, received
    count 0, empty ranking. *)
Theorem unusable_file_is_empty_store (user_id : string) (w : world) :
  file w = FileAbsent ∨ file w = FileUnreadable
    ∨ is_malformed fromisoformat (file w) = true →
  load_data fromisoformat w = (inr tt, with_data ∅ w) ∧
  get_user_weekly_praises fromisoformat clock user_id w = (inr 0, with_data ∅ w) ∧
  get_praise_count fromisoformat user_id w = (inr 0, with_data ∅ w) ∧
  get_sorted_users fromisoformat set_iter w = (inr [], with_data ∅ w).
Proof.
  intros H.
  assert (Hs : snapshot fromisoformat (file w) = ∅).
  { destruct H as [-> | [-> | H]]; [done | done | by apply snapshot_malformed]. }
  rewrite load_data_spec, get_user_weekly_praises_spec, get_praise_count_spec,
    get_sorted_users_spec, Hs.
  unfold weekly_of, at_user. rewrite lookup_empty; simpl.
  by rewrite sorted_users_of_empty.
Qed.

End FailOpen.

(** ** Saving and loading again *)

Lemma at_user_lookup (d : ledger) (u : string) (ud : user_data) :
  d !! u = Some ud → at_user d u = ud.
Proof. unfold at_user. by intros ->. Qed.

Lemma has_data_false (ud : user_data) :
  has_data ud = false ↔ ud = create_user_data.
Proof.
  unfold has_data, create_user_data. destruct ud as [rs gs]; simpl.
  rewrite orb_false_iff, !negb_false_iff, !bool_decide_eq_true.
  split; [intros [-> ->]; done | by inversion 1].
Qed.

Lemma at_user_prune (d : ledger) (u : string) :
  at_user (prune d) u = at_user d u.
Proof.
  unfold at_user, prune. rewrite map_lookup_filter.
  destruct (d !! u) as [ud|] eqn:Hu; simpl; [|done].
  case_guard as Hd; simpl in *; [done|].
  apply not_true_is_false, has_data_false in Hd. by subst.
Qed.

Lemma prune_equiv (d : ledger) : ledger_equiv (prune d) d.
Proof. intros u. apply at_user_prune. Qed.

Lemma fold_insert_list_to_map (l : list (string * user_data)) (d : ledger) :
  NoDup (l.*1) →
  fold_left (fun d kv => <[kv.1 := kv.2]> d) l d = list_to_map l ∪ d.
Proof.
  revert d. induction l as [|[k v] l IH]; intros d Hnd; simpl.
  - by rewrite (left_id_L ∅ (∪)).
  - apply NoDup_cons in Hnd as [Hk Hnd]. rewrite IH by done.
    rewrite <- insert_union_l. symmetry. apply insert_union_r.
    by apply not_elem_of_list_to_map_1.
Qed.

Section RoundTrip.

Variable isoformat : datetime → string.
Variable fromisoformat : string → option datetime.

(** The contract of the library: [fromisoformat] reads back what
    [isoformat] writes. *)
Hypothesis iso_roundtrip : ∀ t, fromisoformat (isoformat t) = Some t.

Lemma load_dump_received (p : received_entry) :
  load_received fromisoformat (dump_received isoformat p) = inr p.
Proof.
  destruct p as [f m t]. unfold load_received, dump_received; simpl.
  rewrite iso_roundtrip. reflexivity.
Qed.

Lemma load_dump_given (p : given_entry) :
  load_given fromisoformat (dump_given isoformat p) = inr p.
Proof.
  destruct p as [f m t]. unfold load_given, dump_given; simpl.
  rewrite iso_roundtrip. reflexivity.
Qed.

Lemma mapM_load_dump {A} (load : json → result A) (dump : A → json) (l : list A) :
  (∀ p, load (dump p) = inr p) → mapM load (dump <$> l) = inr l.
Proof.
  intros H. induction l as [|p l IH]; [done|].
  rewrite fmap_cons.
  change (mapM load (dump p :: (dump <$> l)))
    with (y ← load (dump p); k ← mapM load (dump <$> l); mret (y :: k)).
  rewrite H, IH. reflexivity.
Qed.

Lemma decode_dump_user (d : ledger) (kv : string * user_data) :
  decode_user fromisoformat d (dump_user isoformat kv) = inr (<[kv.1 := kv.2]> d).
Proof.
  destruct kv as [u [rs gs]]. unfold decode_user, dump_user, load_list; simpl.
  rewrite (mapM_load_dump _ _ rs load_dump_received); simpl.
  rewrite (mapM_load_dump _ _ gs load_dump_given); simpl.
  reflexivity.
Qed.

Lemma decode_dump_users (l : list (string * user_data)) (d : ledger) :
  decode_users fromisoformat (dump_user isoformat <$> l) d
  = inr (fold_left (fun d kv => <[kv.1 := kv.2]> d) l d).
Proof.
  revert d. induction l as [|kv l IH]; intros d; simpl; [done|].
  rewrite decode_dump_user. simpl. apply IH.
Qed.

(** Reading a document that [save_data] wrote gives back the users with
    data, list for list. *)
Lemma decode_dump_ledger (d : ledger) :
  decode_doc fromisoformat (dump_ledger isoformat d) = inr (prune d).
Proof.
  unfold decode_doc, dump_ledger, prune. rewrite map_filter_alt.
  set (l := filter _ (map_to_list d)).
  assert (Hnd : NoDup (l.*1)).
  { apply (sublist_NoDup _ ((map_to_list d).*1)); [apply NoDup_fst_map_to_list|].
    apply fmap_sublist, sublist_filter. }
  destruct l as [|kv l]; simpl; [done|].
  rewrite decode_dump_user. simpl. rewrite decode_dump_users.
  f_equal. destruct kv as [k v]. simpl in *.
  apply NoDup_cons in Hnd as [Hk Hnd].
  rewrite fold_insert_list_to_map by done.
  rewrite <- insert_union_r by by apply not_elem_of_list_to_map_1.
  by rewrite (right_id_L ∅ (∪)).
Qed.

Lemma snapshot_dump_ledger (d : ledger) :
  snapshot fromisoformat (FileJson (dump_ledger isoformat d)) = prune d.
Proof. unfold snapshot, read_file. by rewrite decode_dump_ledger. Qed.

End RoundTrip.

(** ** The ranking *)

Lemma insert_desc_perm (x : stats) (l : list stats) : insert_desc x l ≡ₚ x :: l.
Proof.
  induction l as [|y l IH]; simpl; [done|].
  destruct (total_score x <? total_score y); [|done].
  rewrite IH. apply Permutation_swap.
Qed.

Lemma sorted_desc_perm (l : list stats) : sorted_desc l ≡ₚ l.
Proof.
  induction l as [|x l IH]; simpl; [done|].
  by rewrite insert_desc_perm, IH.
Qed.

Lemma insert_desc_sorted (x : stats) (l : list stats) :
  StronglySorted total_ge l → StronglySorted total_ge (insert_desc x l).
Proof.
  induction 1 as [|y l Hs IH Hy]; simpl.
  - repeat constructor.
  - destruct (total_score x <? total_score y) eqn:Hxy.
    + apply Z.ltb_lt in Hxy. constructor; [exact IH|].
      rewrite insert_desc_perm. constructor; [unfold total_ge; lia | exact Hy].
    + apply Z.ltb_ge in Hxy. constructor; [by constructor|].
      constructor; [exact Hxy|].
      eapply Forall_impl; [exact Hy|]. unfold total_ge. intros z Hz; simpl in *. lia.
Qed.

Lemma sorted_desc_sorted (l : list stats) : StronglySorted total_ge (sorted_desc l).
Proof.
  induction l as [|x l IH]; simpl; [constructor | by apply insert_desc_sorted].
Qed.

Lemma py_hash_error (j : json) (e : exn) : py_hash j = inl e → e = TypeError.
Proof. destruct j; simpl; unfold raise; congruence. Qed.

Lemma add_all_cases {A} (key : A → json) (ps : list A) (s : gset pykey) :
  match add_all key ps s with
  | inr s' =>
      (∀ p, p ∈ ps → ∃ k, py_hash (key p) = inr k) ∧
      (∀ k, k ∈ s' ↔ k ∈ s ∨ ∃ p, p ∈ ps ∧ py_hash (key p) = inr k)
  | inl e => e = TypeError ∧ ∃ p, p ∈ ps ∧ ¬ ∃ k, py_hash (key p) = inr k
  end.
Proof.
  revert s. induction ps as [|p ps IH]; intros s; simpl.
  - split; [by intros p ?%elem_of_nil|].
    intros k. split; [by left|]. intros [?|(p & ?%elem_of_nil & _)]; done.
  - destruct (py_hash (key p)) as [e|k0] eqn:Hp; simpl.
    + split; [by eapply py_hash_error|].
      exists p. split; [by left|]. intros [k Hk]. congruence.
    + specialize (IH ({[k0]} ∪ s)).
      destruct (add_all key ps ({[k0]} ∪ s)) as [e|s'].
      * destruct IH as [-> (q & Hq & Hbad)]. split; [done|].
        exists q. split; [by right | done].
      * destruct IH as [Hall Hmem]. split.
        { intros q [->|Hq]%elem_of_cons; [by exists k0 | by apply Hall]. }
        intros k. rewrite Hmem, elem_of_union, elem_of_singleton. split.
        { intros [[->|?]|(q & Hq & Hk)]; [right; exists p | by left | right; exists q].
          - split; [by left | done].
          - split; [by right | done]. }
        { intros [?|(q & [->|Hq]%elem_of_cons & Hk)].
          - left; by right.
          - left; left. congruence.
          - right. by exists q. }
Qed.

Lemma collect_user_cases (kv : string * user_data) (s : gset pykey) :
  match collect_user kv s with
  | inr s' => item_hashable kv ∧ (∀ k, k ∈ s' ↔ k ∈ s ∨ contributes kv k)
  | inl e => e = TypeError ∧ ¬ item_hashable kv
  end.
Proof.
  unfold collect_user, item_hashable, contributes.
  set (s0 := if has_data kv.2 then {[KStr kv.1]} ∪ s else s).
  assert (Hs0 : ∀ k, k ∈ s0 ↔ k ∈ s ∨ (has_data kv.2 = true ∧ k = KStr kv.1)).
  { intros k. unfold s0. destruct (has_data kv.2).
    - rewrite elem_of_union, elem_of_singleton. split.
      + intros [->|?]; [by right | by left].
      + intros [?|[_ ->]]; [by right | by left].
    - split; [by left | by intros [?|[? _]]]. }
  pose proof (add_all_cases to_user (given kv.2) s0) as Hg.
  destruct (add_all to_user (given kv.2) s0) as [e|s1]; simpl.
  { destruct Hg as [-> (g & Hg & Hbad)]. split; [done|]. intros [H _]. eauto. }
  destruct Hg as [Hgall Hgmem].
  pose proof (add_all_cases from_user (received kv.2) s1) as Hr.
  destruct (add_all from_user (received kv.2) s1) as [e|s2].
  { destruct Hr as [-> (r & Hr & Hbad)]. split; [done|]. intros [_ H]. eauto. }
  destruct Hr as [Hrall Hrmem]. split; [done|].
  intros k. rewrite Hrmem, Hgmem, Hs0. tauto.
Qed.

Lemma collect_users_cases (items : list (string * user_data)) (s : gset pykey) :
  match collect_users items s with
  | inr s' =>
      (∀ kv, kv ∈ items → item_hashable kv) ∧
      (∀ k, k ∈ s' ↔ k ∈ s ∨ ∃ kv, kv ∈ items ∧ contributes kv k)
  | inl e => e = TypeError ∧ ∃ kv, kv ∈ items ∧ ¬ item_hashable kv
  end.
Proof.
  revert s. induction items as [|kv items IH]; intros s; simpl.
  - split; [by intros ? ?%elem_of_nil|].
    intros k. split; [by left|]. intros [?|(? & ?%elem_of_nil & _)]; done.
  - pose proof (collect_user_cases kv s) as Hkv.
    destruct (collect_user kv s) as [e|s1]; simpl.
    { destruct Hkv as [-> Hbad]. split; [done|]. exists kv. split; [by left | done]. }
    destruct Hkv as [Hh Hmem]. specialize (IH s1).
    destruct (collect_users items s1) as [e|s2].
    { destruct IH as [-> (kv' & Hin & Hbad)]. split; [done|].
      exists kv'. split; [by right | done]. }
    destruct IH as [Hall Hmem2]. split.
    { intros kv' [->|Hin]%elem_of_cons; [done | by apply Hall]. }
    intros k. rewrite Hmem2, Hmem. split.
    + intros [[?|?]|(kv' & Hin & Hc)]; [by left | right; exists kv | right; exists kv'].
      * split; [by left | done].
      * split; [by right | done].
    + intros [?|(kv' & [->|Hin]%elem_of_cons & Hc)].
      * left; by left.
      * left; by right.
      * right. by exists kv'.
Qed.

(** [all_users] for a ledger: an error exactly when some id is unhashable,
    else the universe. *)
Lemma collect_ledger_cases (d : ledger) :
  match collect_users (map_to_list d) ∅ with
  | inr s => ids_hashable d ∧ (∀ k, k ∈ s ↔ in_universe d k)
  | inl e => e = TypeError ∧ ¬ ids_hashable d
  end.
Proof.
  pose proof (collect_users_cases (map_to_list d) ∅) as H.
  destruct (collect_users (map_to_list d) ∅) as [e|s].
  - destruct H as [-> ([u ud] & Hin%elem_of_map_to_list & Hbad)].
    split; [done|]. intros Hh. apply Hbad. by apply Hh.
  - destruct H as [Hall Hmem]. split.
    + intros u ud Hu. apply Hall. by apply elem_of_map_to_list.
    + intros k. rewrite Hmem. unfold in_universe. split.
      * intros [?%not_elem_of_empty|([u ud] & Hin%elem_of_map_to_list & Hc)]; [done|].
        by exists u, ud.
      * intros (u & ud & Hu & Hc). right. exists (u, ud).
        split; [by apply elem_of_map_to_list | done].
Qed.

Lemma received_of_at_user (d : ledger) (u : string) :
  received_of d (KStr u) = Z.of_nat (length (received (at_user d u))).
Proof. unfold received_of, at_user. by destruct (d !! u). Qed.

Lemma given_of_at_user (d : ledger) (u : string) :
  given_of d (KStr u) = Z.of_nat (length (given (at_user d u))).
Proof. unfold given_of, at_user. by destruct (d !! u). Qed.

Lemma user_stats_equiv (d1 d2 : ledger) (k : pykey) :
  ledger_equiv d1 d2 → user_stats d1 k = user_stats d2 k.
Proof.
  intros H. unfold user_stats. destruct k as [|n|u]; try done.
  by rewrite !received_of_at_user, !given_of_at_user, H.
Qed.

Lemma contributes_has_data (u : string) (ud : user_data) (k : pykey) :
  contributes (u, ud) k → has_data ud = true.
Proof.
  unfold contributes, has_data; simpl. intros [[H _]|[(g & Hg & _)|(r & Hr & _)]].
  - exact H.
  - destruct (given ud); [by apply elem_of_nil in Hg|]. apply orb_true_r.
  - destruct (received ud); [by apply elem_of_nil in Hr|]. done.
Qed.

Lemma lookup_of_at_user (d : ledger) (u : string) (ud : user_data) :
  at_user d u = ud → has_data ud = true → d !! u = Some ud.
Proof.
  unfold at_user. destruct (d !! u); simpl; intros <-; [done|]. discriminate.
Qed.

Lemma in_universe_equiv (d1 d2 : ledger) (k : pykey) :
  ledger_equiv d1 d2 → in_universe d1 k → in_universe d2 k.
Proof.
  intros He (u & ud & Hu & Hc). exists u, ud. split; [|done].
  apply lookup_of_at_user; [|by eapply contributes_has_data].
  rewrite <- He. by apply at_user_lookup.
Qed.

Lemma ids_hashable_equiv (d1 d2 : ledger) :
  ledger_equiv d1 d2 → ids_hashable d1 → ids_hashable d2.
Proof.
  intros He Hh u ud Hu.
  destruct (has_data ud) eqn:Hd.
  - apply (Hh u). apply lookup_of_at_user; [|done].
    rewrite He. by apply at_user_lookup.
  - apply has_data_false in Hd as ->.
    split; simpl; by intros ? ?%elem_of_nil.
Qed.

Lemma ids_hashable_empty : ids_hashable ∅.
Proof. intros u ud Hu. by rewrite lookup_empty in Hu. Qed.

Lemma ledger_equiv_sym (d1 d2 : ledger) : ledger_equiv d1 d2 → ledger_equiv d2 d1.
Proof. intros H u. by rewrite H. Qed.

Section RankingFacts.

Variable set_iter : gset pykey → list pykey.
Hypothesis set_iter_perm : ∀ s, set_iter s ≡ₚ elements s.

(** The ranking does not see entries with two empty lists. *)
Lemma sorted_users_of_equiv (d1 d2 : ledger) :
  ledger_equiv d1 d2 → sorted_users_of set_iter d1 = sorted_users_of set_iter d2.
Proof.
  intros He. unfold sorted_users_of.
  pose proof (collect_ledger_cases d1) as H1.
  pose proof (collect_ledger_cases d2) as H2.
  destruct (collect_users (map_to_list d1) ∅) as [e1|s1],
           (collect_users (map_to_list d2) ∅) as [e2|s2]; simpl.
  - destruct H1 as [-> _], H2 as [-> _]. done.
  - destruct H1 as [_ []], H2 as [? _].
    by apply (ids_hashable_equiv d2 d1); [apply ledger_equiv_sym|].
  - destruct H2 as [_ []], H1 as [? _]. by apply (ids_hashable_equiv d1 d2).
  - destruct H1 as [_ H1], H2 as [_ H2].
    assert (s1 = s2) as ->.
    { apply set_eq. intros k. rewrite H1, H2.
      split; apply in_universe_equiv; [done | by apply ledger_equiv_sym]. }
    do 2 f_equal. apply list_fmap_ext. intros _ k _. by apply user_stats_equiv.
Qed.

Lemma uid_user_stats (d : ledger) (l : list pykey) :
  uid <$> (user_stats d <$> l) = l.
Proof. induction l as [|k l IH]; [done|]. rewrite !fmap_cons. by rewrite IH. Qed.

(** The ranking of a ledger whose user ids can be put in a set. *)
Lemma sorted_users_of_spec (d : ledger) :
  ids_hashable d →
  ∃ r,
    sorted_users_of set_iter d = inr r ∧
    NoDup (uid <$> r) ∧
    (∀ k, k ∈ uid <$> r ↔ in_universe d k) ∧
    (∀ x, x ∈ r → x = user_stats d (uid x)) ∧
    StronglySorted total_ge r.
Proof.
  intros Hh. unfold sorted_users_of.
  pose proof (collect_ledger_cases d) as Hc.
  destruct (collect_users (map_to_list d) ∅) as [e|s]; [by destruct Hc as [_ []]|].
  destruct Hc as [_ Hmem]. simpl.
  set (r := sorted_desc (user_stats d <$> set_iter s)).
  assert (Hperm : r ≡ₚ user_stats d <$> elements s).
  { unfold r. by rewrite sorted_desc_perm, set_iter_perm. }
  exists r. split; [done|].
  assert (Hids : uid <$> r ≡ₚ elements s).
  { by rewrite Hperm, uid_user_stats. }
  split; [rewrite Hids; apply NoDup_elements|].
  split; [intros k; by rewrite Hids, elem_of_elements, Hmem|].
  split; [|apply sorted_desc_sorted].
  intros x. rewrite Hperm. intros (k & -> & _)%list_elem_of_fmap. done.
Qed.


End RankingFacts.

(** ** The mirror invariant *)

Lemma at_user_empty (u : string) : at_user ∅ u = create_user_data.
Proof. unfold at_user. by rewrite lookup_empty. Qed.

Lemma I1_empty : I1 ∅.
Proof.
  split; intros u x; rewrite at_user_empty; simpl; by intros ?%elem_of_nil.
Qed.

Lemma I1_equiv (d1 d2 : ledger) : ledger_equiv d1 d2 → I1 d1 → I1 d2.
Proof.
  intros He [Hg Hr]. split.
  - intros u g. rewrite <- He. intros (v & ? & ?)%Hg. exists v. by rewrite <- He.
  - intros v r. rewrite <- He. intros (u & ? & ?)%Hr. exists u. by rewrite <- He.
Qed.

Lemma I1_prune (d : ledger) : I1 d → I1 (prune d).
Proof. apply I1_equiv, ledger_equiv_sym, prune_equiv. Qed.

Lemma at_user_append_received (d : ledger) (to u : string) (p : received_entry) :
  at_user (append_received to p d) u
  = if decide (to = u)
    then {| received := received (at_user d u) ++ [p]; given := given (at_user d u) |}
    else at_user d u.
Proof.
  unfold append_received. unfold at_user at 1. rewrite lookup_insert.
  case_decide; by subst.
Qed.

Lemma at_user_append_given (d : ledger) (from u : string) (p : given_entry) :
  at_user (append_given from p d) u
  = if decide (from = u)
    then {| received := received (at_user d u); given := given (at_user d u) ++ [p] |}
    else at_user d u.
Proof.
  unfold append_given. unfold at_user at 1. rewrite lookup_insert.
  case_decide; by subst.
Qed.

Lemma received_after_praise (d : ledger) (from to message : string) (t : datetime)
    (u : string) :
  received (at_user (ledger_after_praise d from to message t) u)
  = received (at_user d u)
    ++ (if decide (to = u) then [Received (JStr from) (JStr message) t] else []).
Proof.
  unfold ledger_after_praise.
  rewrite at_user_append_given, at_user_append_received.
  repeat case_decide; simpl; by rewrite ?app_nil_r.
Qed.

Lemma given_after_praise (d : ledger) (from to message : string) (t : datetime)
    (u : string) :
  given (at_user (ledger_after_praise d from to message t) u)
  = given (at_user d u)
    ++ (if decide (from = u) then [Given (JStr to) (JStr message) t] else []).
Proof.
  unfold ledger_after_praise.
  rewrite at_user_append_given, at_user_append_received.
  repeat case_decide; simpl; by rewrite ?app_nil_r.
Qed.

(** Appending the two mirrored entries keeps I1. *)
Lemma I1_after_praise (d : ledger) (from to message : string) (t : datetime) :
  I1 d → I1 (ledger_after_praise d from to message t).
Proof.
  intros [Hg Hr]. split.
  - intros u g. rewrite given_after_praise.
    intros [Hold|Hnew]%elem_of_app.
    + destruct (Hg u g Hold) as (v & Hv & Hm). exists v. split; [done|].
      rewrite received_after_praise. apply elem_of_app. by left.
    + case_decide as Hu; [|by apply elem_of_nil in Hnew].
      apply list_elem_of_singleton in Hnew as ->. subst u.
      exists to. split; [done|].
      rewrite received_after_praise, decide_True by done.
      apply elem_of_app. right. by apply list_elem_of_singleton.
  - intros v r. rewrite received_after_praise.
    intros [Hold|Hnew]%elem_of_app.
    + destruct (Hr v r Hold) as (u & Hu & Hm). exists u. split; [done|].
      rewrite given_after_praise. apply elem_of_app. by left.
    + case_decide as Hv; [|by apply elem_of_nil in Hnew].
      apply list_elem_of_singleton in Hnew as ->. subst v.
      exists from. split; [done|].
      rewrite given_after_praise, decide_True by done.
      apply elem_of_app. right. by apply list_elem_of_singleton.
Qed.

Lemma item_hashable_after_praise (d : ledger) (from to message : string)
    (t : datetime) :
  ids_hashable d → ids_hashable (ledger_after_praise d from to message t).
Proof.
  intros Hh u ud Hu.
  assert (Hold : item_hashable (u, at_user d u)).
  { unfold at_user. destruct (d !! u) as [ud0|] eqn:Hd; simpl; [by apply Hh|].
    split; simpl; by intros ? ?%elem_of_nil. }
  apply at_user_lookup in Hu. subst ud. destruct Hold as [Hg Hr].
  split; simpl.
  - intros g. rewrite given_after_praise. intros [?|Hnew]%elem_of_app; [by apply Hg|].
    case_decide; [|by apply elem_of_nil in Hnew].
    apply list_elem_of_singleton in Hnew as ->. by eexists.
  - intros r. rewrite received_after_praise. intros [?|Hnew]%elem_of_app; [by apply Hr|].
    case_decide; [|by apply elem_of_nil in Hnew].
    apply list_elem_of_singleton in Hnew as ->. by eexists.
Qed.

Section Persistence.

Variable isoformat : datetime → string.
Variable fromisoformat : string → option datetime.
Variable clock : nat → datetime.
Variable disk : nat → write_result.
Variable set_iter : gset pykey → list pykey.

Local Abbreviation run_op' := (run_op isoformat fromisoformat clock disk set_iter).
Local Abbreviation run_ops' := (run_ops isoformat fromisoformat clock disk set_iter).
Local Abbreviation store_inv' := (store_inv fromisoformat).

Hypothesis iso_roundtrip : ∀ t, fromisoformat (isoformat t) = Some t.
Hypothesis set_iter_perm : ∀ s, set_iter s ≡ₚ elements s.

Lemma snapshot_after_write (r : write_result) (d : ledger) (f : file_state) :
  snapshot fromisoformat (file_after_write r (dump_ledger isoformat d) f)
  = match r with
    | WriteOk => prune d
    | WriteRefused => snapshot fromisoformat f
    | WriteTorn => ∅
    end.
Proof. destruct r; simpl; [by apply snapshot_dump_ledger | done | done]. Qed.

Lemma I1_after_write (r : write_result) (d : ledger) (f : file_state) :
  I1 d → I1 (snapshot fromisoformat f) →
  I1 (snapshot fromisoformat (file_after_write r (dump_ledger isoformat d) f)).
Proof.
  intros Hd Hf. rewrite snapshot_after_write.
  destruct r; [by apply I1_prune | done | apply I1_empty].
Qed.

Lemma run_op_inv (op : store_op) (w : world) :
  store_inv' w → store_inv' (run_op' op w).
Proof.
  intros [Hd Hf]. unfold store_inv.
  destruct op as [| |u|from to message|u|]; simpl.
  - rewrite load_data_spec. done.
  - rewrite save_data_spec. simpl. split; [done | by apply I1_after_write].
  - rewrite get_user_weekly_praises_spec. simpl.
    by destruct (snapshot fromisoformat (file w) !! u).
  - rewrite add_praise_spec. simpl.
    assert (I1 (ledger_after_praise (snapshot fromisoformat (file w)) from to
                  message (clock (tick w)))) by by apply I1_after_praise.
    split; [done | by apply I1_after_write].
  - rewrite get_praise_count_spec. done.
  - rewrite get_sorted_users_spec. done.
Qed.

Lemma run_ops_inv (ops : list store_op) (w : world) :
  store_inv' w → store_inv' (run_ops' ops w).
Proof.
  revert w. induction ops as [|op ops IH]; intros w Hw; simpl; [done|].
  apply IH. by apply run_op_inv.
Qed.

(** The user ids of a store that started empty stay hashable: the ranking
    of such a store never meets an unhashable id. *)
Lemma run_ops_ids_hashable (ops : list store_op) (w : world) :
  ids_hashable (data w) → ids_hashable (snapshot fromisoformat (file w)) →
  ids_hashable (data (run_ops' ops w))
  ∧ ids_hashable (snapshot fromisoformat (file (run_ops' ops w))).
Proof.
  revert w. induction ops as [|op ops IH]; intros w Hd Hf; simpl; [done|].
  assert (Hwrite : ∀ r d, ids_hashable d →
            ids_hashable (snapshot fromisoformat
                            (file_after_write r (dump_ledger isoformat d) (file w)))).
  { intros r d Hh. rewrite snapshot_after_write.
    destruct r; [|done|apply ids_hashable_empty].
    by apply (ids_hashable_equiv d); [apply ledger_equiv_sym, prune_equiv|]. }
  destruct op as [| |u|from to message|u|]; simpl.
  - rewrite load_data_spec. by apply IH.
  - rewrite save_data_spec. apply IH; simpl; [done | by apply Hwrite].
  - rewrite get_user_weekly_praises_spec. simpl.
    destruct (snapshot fromisoformat (file w) !! u); by apply IH.
  - rewrite add_praise_spec. simpl.
    apply IH; simpl; [|apply Hwrite]; by apply item_hashable_after_praise.
  - rewrite get_praise_count_spec. by apply IH.
  - rewrite get_sorted_users_spec. by apply IH.
Qed.

(** C2: from a store where I1 holds in memory and in the file,
    I1 holds after every sequence of store operations; and [add_praise] run
    then reads the clock once and leaves in memory the reloaded ledger with
    the two mirrored entries, stamped with that one reading, appended to the
    recipient's received list and to the sender's given list. *)
Theorem mirror_invariant_kept (ops : list store_op) (from to message : string)
    (w : world) :
  store_inv' w →
  let w0 := run_ops' ops w in
  let d0 := snapshot fromisoformat (file w0) in
  let t := clock (tick w0) in
  let w1 := (add_praise isoformat fromisoformat clock disk from to message w0).2 in
  store_inv' w0 ∧
  add_praise isoformat fromisoformat clock disk from to message w0 = (inr tt, w1) ∧
  data w1
  = append_given from (Given (JStr to) (JStr message) t)
      (append_received to (Received (JStr from) (JStr message) t) d0) ∧
  (∀ u, received (at_user (data w1) u)
        = received (at_user d0 u)
          ++ (if decide (to = u) then [Received (JStr from) (JStr message) t] else [])) ∧
  (∀ u, given (at_user (data w1) u)
        = given (at_user d0 u)
          ++ (if decide (from = u) then [Given (JStr to) (JStr message) t] else [])) ∧
  mirror_received from (Given (JStr to) (JStr message) t)
  = Received (JStr from) (JStr message) t ∧
  store_inv' w1.
Proof.
  intros Hw w0 d0 t w1.
  assert (Hw0 : store_inv' w0) by by apply run_ops_inv.
  split; [done|]. unfold w1. rewrite add_praise_spec. simpl. fold d0 t.
  split; [done|]. split; [done|].
  split; [intros u; apply received_after_praise|].
  split; [intros u; apply given_after_praise|].
  split; [done|].
  pose proof (run_op_inv (OpAdd from to message) w0 Hw0) as H.
  simpl in H. by rewrite add_praise_spec in H.
Qed.

End Persistence.

(** ** Entries with two empty lists *)

Lemma weekly_of_at_user (d : ledger) (u : string) (t : datetime) :
  weekly_of d u t = weekly_sum (week_start t) (given (at_user d u)).
Proof. unfold weekly_of, at_user. by destruct (d !! u). Qed.

Lemma prune_lookup (d : ledger) (u : string) :
  prune d !! u = if has_data (at_user d u) then Some (at_user d u) else None.
Proof.
  unfold prune, at_user. rewrite map_lookup_filter.
  destruct (d !! u) as [ud|]; simpl; [|done].
  case_guard as H; simpl in H; [by rewrite H|].
  by apply not_true_is_false in H as ->.
Qed.

Lemma prune_of_equiv (d1 d2 : ledger) : ledger_equiv d1 d2 → prune d1 = prune d2.
Proof. intros H. apply map_eq. intros u. by rewrite !prune_lookup, H. Qed.

Lemma delete_empty_equiv (d : ledger) (u : string) :
  d !! u = Some create_user_data → ledger_equiv d (delete u d).
Proof.
  intros Hu v. unfold at_user. rewrite lookup_delete. case_decide; [|done].
  subst v. by rewrite Hu.
Qed.

Section RoundTripTheorem.

Variable isoformat : datetime → string.
Variable fromisoformat : string → option datetime.
Variable disk : nat → write_result.
Variable set_iter : gset pykey → list pykey.
Hypothesis iso_roundtrip : ∀ t, fromisoformat (isoformat t) = Some t.
Hypothesis set_iter_perm : ∀ s, set_iter s ≡ₚ elements s.

(** C4: when the write succeeds, [save_data] followed by
    [load_data] leaves in memory the same events in the same order, user by
    user (also when no user has any), and exactly the users with two empty
    lists are dropped; and an entry with two empty lists that sits in a loaded
    ledger behaves as an absent user: same weekly count, same received count,
    same ranking, same document saved. *)
Theorem save_load_round_trip (w : world) :
  disk (tick w) = WriteOk →
  (∃ w',
     (save_data isoformat disk ≫= fun _ => load_data fromisoformat) w = (inr tt, w') ∧
     file w' = FileJson (dump_ledger isoformat (data w)) ∧
     (∀ u, received (at_user (data w') u) = received (at_user (data w) u) ∧
           given (at_user (data w') u) = given (at_user (data w) u)) ∧
     (∀ u, data w' !! u = None ↔ at_user (data w) u = create_user_data))
  ∧
  (∀ (d : ledger) (u : string),
     d !! u = Some create_user_data →
     (∀ v t, weekly_of d v t = weekly_of (delete u d) v t) ∧
     (∀ v, length (received (at_user d v)) = length (received (at_user (delete u d) v))) ∧
     sorted_users_of set_iter d = sorted_users_of set_iter (delete u d) ∧
     prune d = prune (delete u d)).
Proof.
  intros Hdisk. split.
  - eexists. rewrite M_bind_unfold, save_data_spec, load_data_spec, Hdisk. simpl.
    split; [reflexivity|]. split; [reflexivity|].
    rewrite (snapshot_dump_ledger _ _ iso_roundtrip).
    change (data (with_data (prune (data w)) _)) with (prune (data w)). split.
    + intros u. by rewrite at_user_prune.
    + intros u. rewrite prune_lookup, <- has_data_false.
      destruct (has_data (at_user (data w) u)); split; congruence.
  - intros d u Hu. pose proof (delete_empty_equiv d u Hu) as He.
    split; [intros v t; by rewrite !weekly_of_at_user, He|].
    split; [intros v; by rewrite He|].
    split; [by apply sorted_users_of_equiv | by apply prune_of_equiv].
Qed.

End RoundTripTheorem.

(** ** Self-praise in the store *)

Lemma weekly_sum_app (ws : datetime) (l1 l2 : list given_entry) :
  weekly_sum ws (l1 ++ l2) = weekly_sum ws l1 + weekly_sum ws l2.
Proof. induction l1 as [|p l1 IH]; simpl; [done|]. rewrite IH. lia. Qed.

Lemma week_start_le (t : datetime) : dt_geb t (week_start t) = true.
Proof. apply dt_leb_le, week_start_most_recent. Qed.

Section SelfPraise.

Variable isoformat : datetime → string.
Variable fromisoformat : string → option datetime.
Variable clock : nat → datetime.
Variable disk : nat → write_result.
Variable set_iter : gset pykey → list pykey.
Hypothesis iso_roundtrip : ∀ t, fromisoformat (isoformat t) = Some t.
Hypothesis set_iter_perm : ∀ s, set_iter s ≡ₚ elements s.


End SelfPraise.

(** ** The mention parser needs no more turns *)

Lemma find_from_bounds (c : ascii) (s : string) (i start k : nat) :
  find_from c s i start = Some k →
  (start ≤ k ∧ i ≤ k ∧ k < i + String.length s)%nat.
Proof.
  revert i. induction s as [|a s IH]; intros i; simpl; [done|].
  destruct ((start <=? i)%nat && Ascii.eqb a c) eqn:Hhit.
  - intros [= <-]. apply andb_true_iff in Hhit as [Hle%Nat.leb_le _]. lia.
  - intros H%IH. lia.
Qed.

Lemma find_from_get (c : ascii) (s : string) (i start k : nat) :
  find_from c s i start = Some k → String.get (k - i) s = Some c.
Proof.
  revert i. induction s as [|a s IH]; intros i; simpl; [done|].
  destruct ((start <=? i)%nat && Ascii.eqb a c) eqn:Hhit.
  - intros [= <-]. apply andb_true_iff in Hhit as [_ Ha%Ascii.eqb_eq].
    rewrite Nat.sub_diag. by subst.
  - intros H. pose proof (find_from_bounds _ _ _ _ _ H) as (_ & Hik & _).
    apply IH in H. replace (k - i)%nat with (S (k - S i)) by lia. done.
Qed.

Section ParserFuel.

Variable _verify_user : string → bool.
Variable _find_user_by_name : string → option string.

(** A mention found at an [@] ends after the [@]. *)
Lemma parse_single_mention_end (text : string) (start : nat) (m : mention) :
  py_find "@" start text = Some start →
  _parse_single_mention _verify_user _find_user_by_name text start = Some m →
  (start < m_end m)%nat.
Proof.
  intros Hat. unfold _parse_single_mention.
  destruct ((0 <? start)%nat && _) eqn:Hconv.
  - destruct (py_find ">" start text) as [end_bracket|] eqn:Hb.
    + apply find_from_bounds in Hb as (Hb & _).
      destruct (_verify_user _); [intros [= <-]; simpl; lia|].
      destruct (py_find " " start text) as [next_space|] eqn:Hs; [|done].
      destruct (_find_user_by_name _) as [user_id|]; [|done].
      destruct (String.eqb user_id ""); [done|]. intros [= <-]. simpl.
      pose proof (find_from_bounds _ _ _ _ _ Hs) as (Hle & _).
      apply find_from_get in Hs, Hat. rewrite Nat.sub_0_r in Hs, Hat.
      destruct (decide (next_space = start)) as [->|]; [congruence | lia].
    + destruct (py_find " " start text) as [next_space|] eqn:Hs; [|done].
      destruct (_find_user_by_name _) as [user_id|]; [|done].
      destruct (String.eqb user_id ""); [done|]. intros [= <-]. simpl.
      pose proof (find_from_bounds _ _ _ _ _ Hs) as (Hle & _).
      apply find_from_get in Hs, Hat. rewrite Nat.sub_0_r in Hs, Hat.
      destruct (decide (next_space = start)) as [->|]; [congruence | lia].
  - destruct (py_find " " start text) as [next_space|] eqn:Hs; [|done].
    destruct (_find_user_by_name _) as [user_id|]; [|done].
    destruct (String.eqb user_id ""); [done|]. intros [= <-]. simpl.
    pose proof (find_from_bounds _ _ _ _ _ Hs) as (Hle & _).
    apply find_from_get in Hs, Hat. rewrite Nat.sub_0_r in Hs, Hat.
    destruct (decide (next_space = start)) as [->|]; [congruence | lia].
Qed.

Lemma py_find_fixed (c : ascii) (start k : nat) (text : string) :
  py_find c start text = Some k → py_find c k text = Some k.
Proof.
  unfold py_find. generalize 0%nat.
  induction text as [|a s IH]; intros i; simpl; [done|].
  destruct ((start <=? i)%nat && Ascii.eqb a c) eqn:Hhit.
  - intros [= <-]. apply andb_true_iff in Hhit as [_ Ha].
    by rewrite Nat.leb_refl, Ha.
  - intros H. pose proof (find_from_bounds _ _ _ _ _ H) as (_ & Hik & _).
    replace (k <=? i)%nat with false by (symmetry; apply Nat.leb_gt; lia).
    simpl. by apply IH.
Qed.

(** Once the turns left exceed the characters left, more turns change
    nothing: the bound in [_parse_mentions] is enough. *)
Lemma parse_mentions_from_fuel (text : string) (fuel fuel' pos : nat) :
  (String.length text < pos + fuel)%nat →
  (String.length text < pos + fuel')%nat →
  parse_mentions_from _verify_user _find_user_by_name fuel text pos
  = parse_mentions_from _verify_user _find_user_by_name fuel' text pos.
Proof.
  revert fuel' pos. induction fuel as [|fuel IH]; intros fuel' pos Hf Hf'.
  - destruct fuel' as [|fuel']; [done|]. simpl.
    destruct (py_find "@" pos text) as [k|] eqn:Hk; [|done].
    apply find_from_bounds in Hk. lia.
  - destruct fuel' as [|fuel'].
    { simpl. destruct (py_find "@" pos text) as [k|] eqn:Hk; [|done].
      apply find_from_bounds in Hk. lia. }
    simpl. destruct (py_find "@" pos text) as [k|] eqn:Hk; [|done].
    pose proof (find_from_bounds _ _ _ _ _ Hk) as (Hpos & _ & Hlen).
    destruct (_parse_single_mention _ _ text k) as [m|] eqn:Hm.
    + apply parse_single_mention_end in Hm; [|by eapply py_find_fixed].
      f_equal. apply IH; lia.
    + apply IH; lia.
Qed.

Lemma parse_mentions_enough_fuel (text : string) (fuel : nat) :
  (String.length text < fuel)%nat →
  parse_mentions_from _verify_user _find_user_by_name fuel text 0
  = _parse_mentions _verify_user _find_user_by_name text.
Proof.
  intros H. unfold _parse_mentions. apply parse_mentions_from_fuel; simpl; lia.
Qed.

End ParserFuel.

(** ** The orchestrator *)

Section Orchestrator.

Variable isoformat : datetime → string.
Variable fromisoformat : string → option datetime.
Variable clock : nat → datetime.
Variable disk : nat → write_result.
Variable _verify_user : string → bool.
Variable _find_user_by_name : string → option string.
Variable users_info : nat → string → result (option string).
Variable chat_postMessage : nat → result unit.

Local Abbreviation praise_loop' :=
  (praise_loop isoformat fromisoformat clock disk users_info chat_postMessage).
Local Abbreviation _process_praises' :=
  (_process_praises isoformat fromisoformat clock disk users_info chat_postMessage).
Local Abbreviation handle_hloppy_command' :=
  (handle_hloppy_command isoformat fromisoformat clock disk _verify_user
     _find_user_by_name users_info chat_postMessage).
Local Abbreviation _parse_mentions' :=
  (_parse_mentions _verify_user _find_user_by_name).
Local Abbreviation add_praise' := (add_praise isoformat fromisoformat clock disk).

(** One turn of the loop on a mention of somebody else, below the limit. *)
Lemma praise_loop_other (user_id praise_message channel_id : string)
    (user_info : option string) (remaining : Z) (m : mention)
    (rest : list mention) (g : Z) (w : world) :
  m_id m ≠ user_id → g < remaining →
  praise_loop' user_id praise_message channel_id user_info remaining (m :: rest) g w
  = let w1 := (add_praise' user_id (m_id m) praise_message w).2 in
    let d1 := snapshot fromisoformat (file w1) in
    let w2 := with_data d1 w1 in
    match users_info (tick w2) (m_id m) with
    | inl e => (inl e, step w2)
    | inr target_info =>
        match real_name user_info with
        | inl e => (inl e, step w2)
        | inr sender_name =>
            match real_name target_info with
            | inl e => (inl e, step w2)
            | inr target_name =>
                match chat_postMessage (S (tick w2)) with
                | inl e => (inl e, step (step w2))
                | inr _ =>
                    praise_loop' user_id praise_message channel_id user_info
                      remaining rest (g + 1)
                      (step (send
                         (PostPraise channel_id user_id (m_mention m) praise_message
                            (Z.of_nat (length (received (at_user d1 (m_id m)))))
                            (remaining - (g + 1)) sender_name target_name)
                         (step w2)))
                end
            end
        end
    end.
Proof.
  intros Hne Hlt. simpl.
  apply String.eqb_neq in Hne. rewrite Hne.
  apply Z.leb_gt in Hlt. rewrite Hlt.
  rewrite M_bind_unfold, add_praise_spec. cbv zeta.
  rewrite M_bind_unfold, get_praise_count_spec. cbv zeta.
  rewrite M_bind_unfold. unfold call_users_info at 1.
  cbn [fst snd].
  destruct (users_info _ (m_id m)) as [e|target_info]; [reflexivity|].
  rewrite M_bind_unfold. unfold lift at 1.
  destruct (real_name user_info) as [e|sender_name]; [reflexivity|].
  rewrite M_bind_unfold. unfold lift at 1.
  destruct (real_name target_info) as [e|target_name]; [reflexivity|].
  rewrite M_bind_unfold. unfold call_chat_postMessage.
  cbn [tick step with_data with_file].
  destruct (chat_postMessage _) as [e|[]]; reflexivity.
Qed.

Lemma praise_loop_self (user_id praise_message channel_id : string)
    (user_info : option string) (remaining : Z) (m : mention)
    (rest : list mention) (g : Z) (w : world) :
  m_id m = user_id →
  praise_loop' user_id praise_message channel_id user_info remaining (m :: rest) g w
  = praise_loop' user_id praise_message channel_id user_info remaining rest g w.
Proof. intros H. simpl. by rewrite H, String.eqb_refl. Qed.

Lemma praise_loop_limit (user_id praise_message channel_id : string)
    (user_info : option string) (remaining : Z) (m : mention)
    (rest : list mention) (g : Z) (w : world) :
  m_id m ≠ user_id → remaining ≤ g →
  praise_loop' user_id praise_message channel_id user_info remaining (m :: rest) g w
  = (inr tt, send SayLimitReached w).
Proof.
  intros Hne Hle. simpl.
  apply String.eqb_neq in Hne. rewrite Hne.
  apply Z.leb_le in Hle. by rewrite Hle.
Qed.

(** C8: in the per-mention loop a mention of the requester is
    passed over: the loop goes on with the same world (nothing recorded,
    nothing sent, nothing raised) and the same [praises_given]; so the loop
    does on a list of mentions what it does on the list without the
    self-mentions, and on self-mentions alone it does nothing. *)
Theorem self_mentions_are_skipped
    (user_id praise_message channel_id : string) (user_info : option string)
    (remaining : Z) (mentions : list mention) (praises_given : Z) (w : world) :
  (∀ m rest,
     m_id m = user_id →
     praise_loop' user_id praise_message channel_id user_info remaining
       (m :: rest) praises_given w
     = praise_loop' user_id praise_message channel_id user_info remaining
         rest praises_given w)
  ∧
  praise_loop' user_id praise_message channel_id user_info remaining
    mentions praises_given w
  = praise_loop' user_id praise_message channel_id user_info remaining
      (filter (fun m => m_id m ≠ user_id) mentions) praises_given w
  ∧
  ((∀ m, m ∈ mentions → m_id m = user_id) →
   praise_loop' user_id praise_message channel_id user_info remaining
     mentions praises_given w
   = (inr tt, w)).
Proof.
  split; [intros m rest Hm; by apply praise_loop_self|].
  assert (Hfilter : ∀ ms g w0,
    praise_loop' user_id praise_message channel_id user_info remaining ms g w0
    = praise_loop' user_id praise_message channel_id user_info remaining
        (filter (fun m => m_id m ≠ user_id) ms) g w0).
  { induction ms as [|m ms IH]; intros g w0; [done|].
    destruct (decide (m_id m = user_id)) as [Hself|Hother].
    - rewrite praise_loop_self by done.
      rewrite filter_cons_False by (intros H; by apply H). apply IH.
    - rewrite filter_cons_True by done.
      destruct (decide (g < remaining)) as [Hlt|Hge].
      + rewrite !praise_loop_other by done. cbv zeta.
        destruct (users_info _ (m_id m)) as [?|target_info]; [done|].
        destruct (real_name user_info); [done|].
        destruct (real_name target_info); [done|].
        destruct (chat_postMessage _); [done|]. apply IH.
      + rewrite !praise_loop_limit by (done || lia). done. }
  split; [apply Hfilter|].
  intros Hall. rewrite Hfilter.
  replace (filter _ mentions) with (@nil mention); [done|].
  symmetry. apply elem_of_nil_inv.
  intros m [Hm Hin]%list_elem_of_filter. by apply Hm, Hall.
Qed.

Lemma add_praise_outbox (from to message : string) (w : world) :
  outbox (add_praise' from to message w).2 = outbox w.
Proof. by rewrite add_praise_spec. Qed.

(** Below the bound of the gate, the loop only posts notifications. *)
Lemma praise_loop_posts (user_id praise_message channel_id : string)
    (user_info : option string) (remaining : Z) (mentions : list mention)
    (g : Z) (w : world) :
  g + Z.of_nat (length mentions) ≤ remaining →
  ∃ posts,
    outbox (praise_loop' user_id praise_message channel_id user_info remaining
              mentions g w).2
    = outbox w ++ posts ∧ Forall is_post posts.
Proof.
  revert g w. induction mentions as [|m ms IH]; intros g w Hle.
  - exists []. by rewrite app_nil_r.
  - simpl length in Hle.
    destruct (decide (m_id m = user_id)) as [Hself|Hother].
    + rewrite praise_loop_self by done. apply IH. lia.
    + rewrite praise_loop_other by (done || lia). cbv zeta.
      destruct (users_info _ (m_id m)) as [e|target_info].
      { exists []. simpl. by rewrite add_praise_outbox, app_nil_r. }
      destruct (real_name user_info) as [e|sender_name].
      { exists []. simpl. by rewrite add_praise_outbox, app_nil_r. }
      destruct (real_name target_info) as [e|target_name].
      { exists []. simpl. by rewrite add_praise_outbox, app_nil_r. }
      destruct (chat_postMessage _) as [e|[]].
      { exists []. simpl. by rewrite add_praise_outbox, app_nil_r. }
      match goal with
      | |- context [praise_loop' _ _ _ _ _ ms (g + 1) ?w1] =>
          destruct (IH (g + 1) w1) as (posts & -> & Hposts); [lia|]
      end.
      simpl. rewrite add_praise_outbox, <- app_assoc.
      eexists. split; [reflexivity|]. by constructor.
Qed.

Lemma process_praises_posts (user_id praise_message channel_id : string)
    (remaining : Z) (mentions : list mention) (w : world) :
  Z.of_nat (length mentions) ≤ remaining →
  ∃ posts,
    outbox (_process_praises' user_id mentions praise_message channel_id
              remaining w).2
    = outbox w ++ posts ∧ Forall is_post posts.
Proof.
  intros Hle. unfold _process_praises, try_except. rewrite M_bind_unfold.
  unfold call_users_info at 1.
  destruct (users_info (tick w) user_id) as [e|user_info].
  { exists []. simpl. by rewrite app_nil_r. }
  destruct (praise_loop_posts user_id praise_message channel_id user_info
              remaining mentions 0 (step w)) as (posts & Hout & Hposts); [lia|].
  exists posts. split; [|done].
  destruct (praise_loop' _ _ _ _ _ _ _ _) as [[e|[]] w1]; exact Hout.
Qed.

Lemma posts_without_limit_notice (posts : list outmsg) :
  Forall is_post posts → SayLimitReached ∉ posts.
Proof. intros H Hin. by apply (proj1 (Forall_forall _ _) H) in Hin. Qed.

(** C9: when the list of mentions is no longer than
    [remaining_praises], as the gate before the loop has checked, and
    [remaining_praises] is at least 1, [_process_praises] never takes the
    branch that says that the limit is reached: whatever it sends is a praise
    notification. *)
Theorem in_loop_guard_never_fires (user_id praise_message channel_id : string)
    (remaining : Z) (mentions : list mention) (w : world) :
  1 ≤ remaining →
  Z.of_nat (length mentions) ≤ remaining →
  ∃ posts,
    outbox (_process_praises' user_id mentions praise_message channel_id
              remaining w).2
    = outbox w ++ posts ∧
    Forall is_post posts ∧
    SayLimitReached ∉ posts.
Proof.
  intros _ Hle.
  destruct (process_praises_posts user_id praise_message channel_id remaining
              mentions w Hle) as (posts & Hout & Hposts).
  exists posts. split; [done|]. split; [done|].
  by apply posts_without_limit_notice.
Qed.

(** What [handle_hloppy_command] does once there is a text and a mention. *)
Lemma handle_gate (user_id channel_id text : string) (w : world) :
  let command_text := py_strip text in
  let mentions := _parse_mentions' command_text in
  let weekly_count :=
    weekly_of (snapshot fromisoformat (file w)) user_id (clock (tick w)) in
  let remaining := WEEKLY_PRAISE_LIMIT - weekly_count in
  let w0 := (get_user_weekly_praises fromisoformat clock user_id w).2 in
  let praise_message :=
    _extract_praise_message command_text (default 0%nat (m_end <$> last mentions)) in
  command_text ≠ "" → mentions ≠ [] →
  handle_hloppy_command' user_id channel_id text w
  = if WEEKLY_PRAISE_LIMIT <=? weekly_count
    then (inr tt, send (SayWeeklyLimit weekly_count) w0)
    else if remaining <? Z.of_nat (length mentions)
    then (inr tt, send (SayOnlyRemaining remaining) w0)
    else if String.eqb praise_message ""
    then (inr tt, send SayNoMessage w0)
    else
      match _process_praises' user_id mentions praise_message channel_id
              remaining w0 with
      | (inl _, w1) => (inr tt, send SayError w1)
      | (inr a, w1) => (inr a, w1)
      end.
Proof.
  intros command_text mentions weekly_count remaining w0 praise_message Htext Hm.
  unfold handle_hloppy_command. fold command_text mentions.
  apply String.eqb_neq in Htext. rewrite Htext.
  unfold try_except. rewrite bool_decide_eq_false_2 by done.
  rewrite M_bind_unfold. unfold w0.
  rewrite get_user_weekly_praises_spec. cbv zeta. fold weekly_count remaining.
  cbn [snd].
  destruct (WEEKLY_PRAISE_LIMIT <=? weekly_count); [done|].
  destruct (remaining <? Z.of_nat (length mentions)); [done|].
  fold praise_message.
  destruct (String.eqb praise_message ""); done.
Qed.

Lemma weekly_world (user_id : string) (w : world) :
  let w0 := (get_user_weekly_praises fromisoformat clock user_id w).2 in
  file w0 = file w ∧ data w0 = snapshot fromisoformat (file w) ∧
  outbox w0 = outbox w ∧
  (weekly_of (snapshot fromisoformat (file w)) user_id (clock (tick w)) ≠ 0 →
   w0 = step (with_data (snapshot fromisoformat (file w)) w)).
Proof.
  cbv zeta. rewrite get_user_weekly_praises_spec. cbv zeta. cbn [snd].
  unfold weekly_of.
  destruct (snapshot fromisoformat (file w) !! user_id); done.
Qed.

(** The gate does establish that bound: no run of
    [handle_hloppy_command] says that the limit is reached. *)
Lemma handle_never_says_limit_reached (user_id channel_id text : string)
    (w : world) :
  ∃ msgs,
    outbox (handle_hloppy_command' user_id channel_id text w).2
    = outbox w ++ msgs ∧ SayLimitReached ∉ msgs.
Proof.
  pose proof (handle_gate user_id channel_id text w) as Hgate. cbv zeta in Hgate.
  destruct (weekly_world user_id w) as (_ & _ & Hout0 & _). cbv zeta in Hout0.
  set (command_text := py_strip text) in *.
  set (mentions := _parse_mentions' command_text) in *.
  assert (Hone : ∀ m, m ≠ SayLimitReached → SayLimitReached ∉ [m]).
  { intros m Hm Hin. apply list_elem_of_singleton in Hin. congruence. }
  destruct (decide (command_text = "")) as [Ht|Ht].
  { exists [SayUsage]. split; [|by apply Hone].
    unfold handle_hloppy_command. fold command_text. by rewrite Ht. }
  destruct (decide (mentions = [])) as [Hm|Hm].
  { exists [SayNoValidUsers]. split; [|by apply Hone].
    unfold handle_hloppy_command. fold command_text mentions.
    apply String.eqb_neq in Ht. by rewrite Ht, Hm. }
  rewrite Hgate by done.
  destruct (WEEKLY_PRAISE_LIMIT <=? _) eqn:Hover.
  { eexists [_]. split; [simpl; by rewrite Hout0|]. by apply Hone. }
  destruct (_ <? Z.of_nat (length mentions)) eqn:Hmany.
  { eexists [_]. split; [simpl; by rewrite Hout0|]. by apply Hone. }
  destruct (String.eqb _ "").
  { eexists [_]. split; [simpl; by rewrite Hout0|]. by apply Hone. }
  apply Z.ltb_ge in Hmany.
  match goal with
  | |- context [_process_praises' ?u ?ms ?msg ?c ?r ?w0] =>
      destruct (process_praises_posts u msg c r ms w0 Hmany)
        as (posts & Hout & Hposts);
      destruct (_process_praises' u ms msg c r w0) as [[e|a] w1]
  end; simpl in *; rewrite Hout, Hout0.
  - exists (posts ++ [SayError]). split; [by rewrite app_assoc|].
    intros [Hin|Hin]%elem_of_app.
    + by apply posts_without_limit_notice in Hin.
    + apply list_elem_of_singleton in Hin. congruence.
  - exists posts. split; [done|]. by apply posts_without_limit_notice.
Qed.


End Orchestrator.

(** ** The concrete library and outside meet the contracts *)

Lemma z_of_to_string (z : Z) : z_of_string (z_to_string z) = Some z.
Proof.
  unfold z_of_string, z_to_string. rewrite DecimalString.NilEmpty.isi. simpl.
  by rewrite DecimalZ.of_to.
Qed.

Lemma no_T_uint (u : Decimal.uint) : no_T (DecimalString.NilEmpty.string_of_uint u) = true.
Proof. induction u; simpl; done. Qed.

Lemma no_T_z (z : Z) : no_T (z_to_string z) = true.
Proof.
  unfold z_to_string, DecimalString.NilEmpty.string_of_int.
  destruct (Z.to_int z); simpl; apply no_T_uint.
Qed.

Lemma split_T_app (a b : string) :
  no_T a = true → split_T (a +:+ String "T" b) = Some (a, b).
Proof.
  induction a as [|c a IH]; simpl; [done|].
  intros [Hc Ha]%andb_true_iff. apply negb_true_iff in Hc. rewrite Hc.
  by rewrite IH.
Qed.

Lemma sample_iso_roundtrip (t : datetime) :
  sample_fromisoformat (sample_isoformat t) = Some t.
Proof.
  destruct t as [o u]. unfold sample_fromisoformat, sample_isoformat; simpl.
  rewrite split_T_app by apply no_T_z. simpl.
  rewrite !z_of_to_string. simpl.
  destruct (0 <=? Z.of_N u) eqn:Hu; [by rewrite N2Z.id|].
  apply Z.leb_gt in Hu. lia.
Qed.

Lemma sample_set_iter_perm (s : gset pykey) : sample_set_iter s ≡ₚ elements s.
Proof. reflexivity. Qed.


(** ** The scenarios of the specification, run *)

Example scenario_one_praise :
  (sample_weekly "U1" one_praise_world).1 = inr 1 ∧
  (sample_count "U2" one_praise_world).1 = inr 1 ∧
  (sample_ranking one_praise_world).1
  = inr [Stats (KStr "U1") 0 1 1; Stats (KStr "U2") 1 0 1].
Proof. vm_compute. done. Qed.

Example scenario_three_mentions :
  (sample_weekly "U1" three_praises_world).1 = inr 3 ∧
  outbox three_praises_world
  = [PostPraise "C1" "U1" "<@U2>" "great work" 1 2 "U1" "U2";
     PostPraise "C1" "U1" "<@U3>" "great work" 1 1 "U1" "U3";
     PostPraise "C1" "U1" "<@U4>" "great work" 1 0 "U1" "U4"].
Proof. vm_compute. done. Qed.

Example scenario_four_mentions :
  sample_handle "U1" "C1" "@U2 @U3 @U4 @U5 great work" (sample_world FileAbsent)
  = (inr tt, send (SayOnlyRemaining 3) (sample_world FileAbsent)).
Proof. vm_compute. done. Qed.

Example scenario_limit_reached :
  file (sample_handle "U1" "C1" "@U5 one more" three_praises_world).2
  = file three_praises_world ∧
  last (outbox (sample_handle "U1" "C1" "@U5 one more" three_praises_world).2)
  = Some (SayWeeklyLimit 3).
Proof. vm_compute. done. Qed.

(** Two given this week: one more goes through, two are refused. *)
Example scenario_one_left :
  let w2 := (sample_handle "U1" "C1" "@U2 @U3 nice" (sample_world FileAbsent)).2 in
  (sample_weekly "U1" w2).1 = inr 2 ∧
  last (outbox (sample_handle "U1" "C1" "@U4 @U5 nice" w2).2)
  = Some (SayOnlyRemaining 1) ∧
  file (sample_handle "U1" "C1" "@U4 @U5 nice" w2).2 = file w2 ∧
  (sample_weekly "U1" (sample_handle "U1" "C1" "@U4 nice" w2).2).1 = inr 3.
Proof. vm_compute. done. Qed.

(** A praise of Sunday night is not in the count of Monday 00:00:00; a
    praise of Monday 00:00:00 is. *)
Example scenario_week_rollover :
  let add := add_praise sample_isoformat sample_fromisoformat rollover_clock
               sample_disk in
  let weekly := get_user_weekly_praises sample_fromisoformat rollover_clock in
  let w1 := (add "U1" "U2" "late" (sample_world FileAbsent)).2 in
  let w2 := (weekly "U1" w1).2 in
  let w3 := (add "U1" "U3" "early" w2).2 in
  (weekly "U1" w1).1 = inr 0 ∧ (weekly "U1" w3).1 = inr 1 ∧
  (sample_count "U2" w3).1 = inr 1.
Proof. vm_compute. done. Qed.

(** The two forms of a mention. *)
Example scenario_mention_forms :
  sample_parse_mentions "<@U2> @bob thanks"
  = [Mention "U2" "<@U2>" 5; Mention "bob" "<@bob>" 10] ∧
  sample_parse_mentions "mail a@b.c" = [].
Proof. vm_compute. done. Qed.

Example scenario_self_mention :
  outbox (sample_handle "U1" "C1" "@U1 @U2 great work" (sample_world FileAbsent)).2
  = [PostPraise "C1" "U1" "<@U2>" "great work" 1 2 "U1" "U2"].
Proof. vm_compute. done. Qed.

(** Documents that make the walk of [load_data] raise, and two odd ones
    that it accepts. *)
Example malformed_documents :
  decode_doc sample_fromisoformat (JArr [JNum 1]) = inl AttributeError ∧
  decode_doc sample_fromisoformat (JObj [("U1", JNum 5)]) = inl AttributeError ∧
  decode_doc sample_fromisoformat (JObj [("U1", JObj [("received", JNum 5)])])
  = inl TypeError ∧
  decode_doc sample_fromisoformat
    (JObj [("U1", JObj [("received", JArr [JObj [("from_user", JStr "U2")]])])])
  = inl KeyError ∧
  decode_doc sample_fromisoformat
    (JObj [("U1", JObj [("received",
       JArr [JObj [("from_user", JStr "U2"); ("message", JStr "m");
                   ("timestamp", JStr "yesterday")]])])])
  = inl ValueError ∧
  decode_doc sample_fromisoformat (JArr []) = inr ∅ ∧
  decode_doc sample_fromisoformat (JObj [("U1", JObj [("received", JStr "")])])
  = inr {["U1" := create_user_data]}.
Proof. vm_compute. done. Qed.

(** ** The theorems at concrete inputs *)



Lemma unusable_file_is_empty_store_witness :
  (file (sample_world FileUnreadable) = FileAbsent
   ∨ file (sample_world FileUnreadable) = FileUnreadable
   ∨ is_malformed sample_fromisoformat (file (sample_world FileUnreadable)) = true) ∧
  sample_load_data (sample_world FileUnreadable)
  = (inr tt, with_data ∅ (sample_world FileUnreadable)) ∧
  sample_ranking (sample_world FileUnreadable)
  = (inr [], with_data ∅ (sample_world FileUnreadable)).
Proof.
  assert (H : file (sample_world FileUnreadable) = FileAbsent
              ∨ file (sample_world FileUnreadable) = FileUnreadable
              ∨ is_malformed sample_fromisoformat
                  (file (sample_world FileUnreadable)) = true)
    by (right; left; reflexivity).
  split; [exact H|].
  destruct (unusable_file_is_empty_store sample_fromisoformat sample_clock
              sample_set_iter sample_set_iter_perm "U1"
              (sample_world FileUnreadable) H) as (Hl & _ & _ & Hr).
  split; [exact Hl | exact Hr].
Defined.

Lemma mirror_invariant_kept_witness :
  store_inv sample_fromisoformat (sample_world FileAbsent) ∧
  store_inv sample_fromisoformat
    (run_ops sample_isoformat sample_fromisoformat sample_clock sample_disk
       sample_set_iter
       [OpAdd "U1" "U2" "great work"; OpWeekly "U1"; OpAdd "U2" "U1" "thanks";
        OpRanking]
       (sample_world FileAbsent)).
Proof.
  assert (H0 : store_inv sample_fromisoformat (sample_world FileAbsent))
    by (split; apply I1_empty).
  split; [exact H0|].
  exact (proj1 (mirror_invariant_kept sample_isoformat sample_fromisoformat
                  sample_clock sample_disk sample_set_iter sample_iso_roundtrip
                  [OpAdd "U1" "U2" "great work"; OpWeekly "U1";
                   OpAdd "U2" "U1" "thanks"; OpRanking]
                  "U3" "U1" "again" (sample_world FileAbsent) H0)).
Defined.

Lemma save_load_round_trip_witness :
  sample_disk (tick (with_data (data one_praise_world) (sample_world FileAbsent)))
  = WriteOk ∧
  ∃ w',
    (save_data sample_isoformat sample_disk ≫= fun _ => sample_load_data)
      (with_data (data one_praise_world) (sample_world FileAbsent))
    = (inr tt, w') ∧
    received (at_user (data w') "U2")
    = received (at_user (data one_praise_world) "U2").
Proof.
  split; [reflexivity|].
  destruct (save_load_round_trip sample_isoformat sample_fromisoformat sample_disk
              sample_set_iter sample_iso_roundtrip
              (with_data (data one_praise_world) (sample_world FileAbsent))
              eq_refl) as [(w' & Hrun & _ & Hsame & _) _].
  exists w'. split; [exact Hrun | exact (proj1 (Hsame "U2"))].
Defined.

Lemma one_praise_file :
  file one_praise_world
  = FileJson (dump_ledger sample_isoformat
                (ledger_after_praise ∅ "U1" "U2" "great work" sample_noon)).
Proof. reflexivity. Qed.

Lemma one_praise_ids_hashable :
  ids_hashable (snapshot sample_fromisoformat (file one_praise_world)).
Proof.
  rewrite one_praise_file, (snapshot_dump_ledger _ _ sample_iso_roundtrip).
  apply (ids_hashable_equiv (ledger_after_praise ∅ "U1" "U2" "great work" sample_noon)).
  - apply ledger_equiv_sym, prune_equiv.
  - apply item_hashable_after_praise, ids_hashable_empty.
Qed.


Lemma in_loop_guard_never_fires_witness :
  1 ≤ 3 ∧
  Z.of_nat (length (sample_parse_mentions "@U2 @U1 @U3 great work")) ≤ 3 ∧
  ∃ posts,
    outbox (sample_process "U1" (sample_parse_mentions "@U2 @U1 @U3 great work")
              "great work" "C1" 3 (sample_world FileAbsent)).2
    = outbox (sample_world FileAbsent) ++ posts ∧
    SayLimitReached ∉ posts.
Proof.
  assert (H1 : 1 ≤ 3) by lia.
  assert (H2 : Z.of_nat (length (sample_parse_mentions "@U2 @U1 @U3 great work")) ≤ 3)
    by (vm_compute; discriminate).
  split; [exact H1|]. split; [exact H2|].
  destruct (in_loop_guard_never_fires sample_isoformat sample_fromisoformat
              sample_clock sample_disk sample_users_info sample_chat_postMessage
              "U1" "great work" "C1" 3
              (sample_parse_mentions "@U2 @U1 @U3 great work")
              (sample_world FileAbsent) H1 H2) as (posts & Hout & _ & Hno).
  exists posts. split; [exact Hout | exact Hno].
Defined.


Example self_praise_counts :
  let w1 := (sample_add_praise "U1" "U1" "me" (sample_world FileAbsent)).2 in
  (sample_count "U1" (sample_world FileAbsent)).1 = inr 0 ∧
  (sample_count "U1" w1).1 = inr 1 ∧
  (sample_weekly "U1" w1).1 = inr 1 ∧
  (sample_ranking w1).1 = inr [Stats (KStr "U1") 1 1 2].
Proof. vm_compute. done. Qed.

(** * Further properties of the code *)

(** ** Writes that fail, reads that do not write *)

Section StoreMore.

Variable isoformat : datetime → string.
Variable fromisoformat : string → option datetime.
Variable clock : nat → datetime.
Variable disk : nat → write_result.
Variable set_iter : gset pykey → list pykey.

Local Abbreviation add_praise' := (add_praise isoformat fromisoformat clock disk).
Local Abbreviation run_ops' := (run_ops isoformat fromisoformat clock disk set_iter).
Local Abbreviation run_op' := (run_op isoformat fromisoformat clock disk set_iter).

(** X1: [save_data] swallows a failed write, so [add_praise]
    returns normally with the praise in memory only; the next count, which
    reloads the file, answers as before the praise when the file could not be
    opened for writing, and 0 for everybody when the write broke off. *)
Theorem failed_write_loses_praise (from to message v : string) (w : world) :
  disk (S (tick w)) ≠ WriteOk →
  let d0 := snapshot fromisoformat (file w) in
  let w1 := (add_praise' from to message w).2 in
  add_praise' from to message w = (inr tt, w1) ∧
  received (at_user (data w1) to)
  = received (at_user d0 to)
    ++ [Received (JStr from) (JStr message) (clock (tick w))] ∧
  file w1 = match disk (S (tick w)) with
            | WriteTorn => FileGarbled
            | _ => file w
            end ∧
  (get_praise_count fromisoformat v w1).1
  = match disk (S (tick w)) with
    | WriteTorn => inr 0
    | _ => (get_praise_count fromisoformat v w).1
    end.
Proof.
  intros Hdisk d0 w1. unfold w1. rewrite add_praise_spec. fold d0. simpl.
  split; [done|].
  split; [by rewrite received_after_praise, decide_True|].
  rewrite !get_praise_count_spec. simpl.
  destruct (disk (S (tick w))); [done | done |].
  split; [done|]. unfold snapshot; simpl. by rewrite at_user_empty.
Qed.

Lemma run_query_spec (op : store_op) (w : world) :
  is_query op →
  file (run_op' op w) = file w ∧ outbox (run_op' op w) = outbox w ∧
  data (run_op' op w) = snapshot fromisoformat (file w).
Proof.
  destruct op as [| |u|from to message|u|]; simpl; try done; intros _.
  - by rewrite load_data_spec.
  - rewrite get_user_weekly_praises_spec. simpl.
    by destruct (snapshot fromisoformat (file w) !! u).
  - by rewrite get_praise_count_spec.
  - by rewrite get_sorted_users_spec.
Qed.

(** X3: the reads of the store ([load_data], the weekly count,
    the received count, the ranking) never write: after any sequence of them
    the file and the messages sent are as before, the ledger in memory is the
    one the file holds, and a count or a ranking asked afterwards answers
    what it would have answered before. *)
Theorem queries_do_not_write (ops : list store_op) (v : string) (w : world) :
  Forall is_query ops →
  file (run_ops' ops w) = file w ∧
  outbox (run_ops' ops w) = outbox w ∧
  (ops ≠ [] → data (run_ops' ops w) = snapshot fromisoformat (file w)) ∧
  (get_praise_count fromisoformat v (run_ops' ops w)).1
  = (get_praise_count fromisoformat v w).1 ∧
  (get_sorted_users fromisoformat set_iter (run_ops' ops w)).1
  = (get_sorted_users fromisoformat set_iter w).1.
Proof.
  intros Hq.
  assert (H : file (run_ops' ops w) = file w ∧ outbox (run_ops' ops w) = outbox w ∧
              (ops ≠ [] → data (run_ops' ops w) = snapshot fromisoformat (file w))).
  { revert w. induction Hq as [|op ops Hop Hops IH]; intros w; [done|]. simpl.
    destruct (run_query_spec op w Hop) as (Hf & Ho & Hd).
    destruct (IH (run_op' op w)) as (Hf' & Ho' & Hd').
    split; [congruence|]. split; [congruence|]. intros _.
    destruct ops as [|op' ops']; [exact Hd|].
    rewrite Hd' by done. by rewrite Hf. }
  destruct H as (Hf & Ho & Hd). split; [done|]. split; [done|]. split; [done|].
  by rewrite !get_praise_count_spec, !get_sorted_users_spec, Hf.
Qed.

Hypothesis iso_roundtrip : ∀ t, fromisoformat (isoformat t) = Some t.


End StoreMore.

(** ** The week and the counts *)

Lemma dt_le_trans (a b c : datetime) : dt_le a b → dt_le b c → dt_le a c.
Proof. unfold dt_le. intros [?|[? ?]] [?|[? ?]]; [left; lia..|right; split; lia]. Qed.

Lemma weekly_sum_bounds (ws : datetime) (gs : list given_entry) :
  0 ≤ weekly_sum ws gs ≤ Z.of_nat (length gs).
Proof.
  induction gs as [|p gs IH]; simpl; [lia|].
  destruct (dt_geb (g_timestamp p) ws); lia.
Qed.

Lemma weekly_sum_antitone (a b : datetime) (gs : list given_entry) :
  dt_le a b → weekly_sum b gs ≤ weekly_sum a gs.
Proof.
  intros Hab. induction gs as [|p gs IH]; simpl; [lia|].
  unfold dt_geb. destruct (dt_leb b (g_timestamp p)) eqn:Hb.
  - apply dt_leb_le in Hb.
    replace (dt_leb a (g_timestamp p)) with true; [lia|].
    symmetry. apply dt_leb_le. by eapply dt_le_trans.
  - destruct (dt_leb a (g_timestamp p)); lia.
Qed.

(** X5: the week that [get_user_weekly_praises] computes starts
    at most six days before now and is its own week start; it is the same for
    every later instant before the next Monday, and it never moves back as
    time passes, so that, on the same list of given praises, a later query
    never counts more than an earlier one. *)
Theorem week_window (t t' : datetime) (gs : list given_entry) :
  dt_le t t' →
  week_start (week_start t) = week_start t ∧
  ordinal t - 6 ≤ ordinal (week_start t) ≤ ordinal t ∧
  (ordinal t' < ordinal (week_start t) + 7 → week_start t' = week_start t) ∧
  (ordinal (week_start t) + 7 ≤ ordinal t' →
   ordinal (week_start t) + 7 ≤ ordinal (week_start t')) ∧
  dt_le (week_start t) (week_start t') ∧
  weekly_sum (week_start t') gs ≤ weekly_sum (week_start t) gs.
Proof.
  intros Hle.
  assert (Hmono : dt_le (week_start t) (week_start t')).
  { unfold dt_le, week_start, weekday in *; simpl.
    Z.div_mod_to_equations. lia. }
  split.
  { unfold week_start, weekday, at_midnight, minus_days; simpl. f_equal.
    Z.div_mod_to_equations. lia. }
  split.
  { unfold week_start, weekday; simpl. Z.div_mod_to_equations. lia. }
  split.
  { intros Hnext. unfold week_start, weekday, at_midnight, minus_days in *.
    simpl in *. f_equal. unfold dt_le in Hle. Z.div_mod_to_equations. lia. }
  split.
  { unfold week_start, weekday; simpl. Z.div_mod_to_equations. lia. }
  split; [exact Hmono | by apply weekly_sum_antitone].
Qed.

Lemma sorted_users_of_lines (set_iter : gset pykey → list pykey) (d : ledger)
    (r : list stats) (x : stats) :
  sorted_users_of set_iter d = inr r → x ∈ r → x = user_stats d (uid x).
Proof.
  unfold sorted_users_of.
  destruct (collect_users (map_to_list d) ∅) as [e|s]; simpl; [done|].
  intros [= <-]. rewrite sorted_desc_perm.
  intros (k & -> & _)%list_elem_of_fmap. done.
Qed.


(** ** What one command can record *)

Lemma grows_by_refl (k : Z) (l : list given_entry) : 0 ≤ k → grows_by k l l.
Proof. intros Hk. split; [lia|]. intros ws. lia. Qed.

Lemma grows_by_nil (k : Z) (l : list given_entry) : 0 ≤ k → grows_by k l [].
Proof.
  intros Hk. split; [simpl; lia|]. intros ws. simpl.
  pose proof (weekly_sum_bounds ws l). lia.
Qed.

Lemma grows_by_snoc (l : list given_entry) (g : given_entry) :
  grows_by 1 l (l ++ [g]).
Proof.
  split; [rewrite length_app; simpl; lia|].
  intros ws. rewrite weekly_sum_app. simpl.
  destruct (dt_geb (g_timestamp g) ws); lia.
Qed.

Lemma grows_by_trans (k1 k2 k : Z) (l1 l2 l3 : list given_entry) :
  grows_by k1 l1 l2 → grows_by k2 l2 l3 → k1 + k2 ≤ k → grows_by k l1 l3.
Proof.
  intros [Hl1 Hw1] [Hl2 Hw2] Hk. split; [lia|].
  intros ws. specialize (Hw1 ws). specialize (Hw2 ws). lia.
Qed.

Section QuotaKept.

Variable isoformat : datetime → string.
Variable fromisoformat : string → option datetime.
Variable clock : nat → datetime.
Variable disk : nat → write_result.
Variable _verify_user : string → bool.
Variable _find_user_by_name : string → option string.
Variable users_info : nat → string → result (option string).
Variable chat_postMessage : nat → result unit.
Hypothesis iso_roundtrip : ∀ t, fromisoformat (isoformat t) = Some t.

Local Abbreviation praise_loop' :=
  (praise_loop isoformat fromisoformat clock disk users_info chat_postMessage).
Local Abbreviation _process_praises' :=
  (_process_praises isoformat fromisoformat clock disk users_info chat_postMessage).
Local Abbreviation handle_hloppy_command' :=
  (handle_hloppy_command isoformat fromisoformat clock disk _verify_user
     _find_user_by_name users_info chat_postMessage).
Local Abbreviation add_praise' := (add_praise isoformat fromisoformat clock disk).

(** The given list of [user_id] that the file holds. *)
Local Abbreviation given_in_file user_id w :=
  (given (at_user (snapshot fromisoformat (file w)) user_id)).

Lemma add_praise_grows (user_id to message : string) (w : world) :
  grows_by 1 (given_in_file user_id w)
    (given_in_file user_id (add_praise' user_id to message w).2).
Proof.
  rewrite add_praise_spec. simpl.
  rewrite (snapshot_after_write _ _ iso_roundtrip).
  destruct (disk (S (tick w))).
  - rewrite at_user_prune, given_after_praise, decide_True by done.
    apply grows_by_snoc.
  - by apply grows_by_refl.
  - rewrite at_user_empty. by apply grows_by_nil.
Qed.

Lemma praise_loop_grows (user_id praise_message channel_id : string)
    (user_info : option string) (remaining : Z) (mentions : list mention)
    (g : Z) (w : world) :
  grows_by (Z.max 0 (remaining - g)) (given_in_file user_id w)
    (given_in_file user_id
       (praise_loop' user_id praise_message channel_id user_info remaining
          mentions g w).2).
Proof.
  revert g w. induction mentions as [|m ms IH]; intros g w.
  - simpl. apply grows_by_refl. lia.
  - destruct (decide (m_id m = user_id)) as [Hself|Hother].
    { rewrite praise_loop_self by done. apply IH. }
    destruct (decide (g < remaining)) as [Hlt|Hge].
    2: { rewrite praise_loop_limit by (done || lia). simpl.
         apply grows_by_refl. lia. }
    rewrite praise_loop_other by done. cbv zeta.
    pose proof (add_praise_grows user_id (m_id m) praise_message w) as Hadd.
    set (w1 := (add_praise' user_id (m_id m) praise_message w).2) in *.
    assert (Hone : grows_by (Z.max 0 (remaining - g)) (given_in_file user_id w)
                     (given_in_file user_id w1)).
    { eapply grows_by_trans; [exact Hadd | apply (grows_by_refl 0); lia | lia]. }
    destruct (users_info _ (m_id m)) as [e|target_info]; [exact Hone|].
    destruct (real_name user_info) as [e|sender_name]; [exact Hone|].
    destruct (real_name target_info) as [e|target_name]; [exact Hone|].
    destruct (chat_postMessage _) as [e|[]]; [exact Hone|].
    eapply grows_by_trans; [exact Hadd | |].
    + match goal with
      | |- grows_by _ _ (given_in_file _ (praise_loop' _ _ _ _ _ _ _ ?w3).2) =>
          change (given_in_file user_id w1) with (given_in_file user_id w3)
      end.
      apply (IH (g + 1)).
    + lia.
Qed.

Lemma process_praises_grows (user_id praise_message channel_id : string)
    (remaining : Z) (mentions : list mention) (w : world) :
  grows_by (Z.max 0 remaining) (given_in_file user_id w)
    (given_in_file user_id
       (_process_praises' user_id mentions praise_message channel_id
          remaining w).2).
Proof.
  unfold _process_praises, try_except. rewrite M_bind_unfold.
  unfold call_users_info at 1.
  destruct (users_info (tick w) user_id) as [e|user_info].
  { simpl. apply grows_by_refl. lia. }
  pose proof (praise_loop_grows user_id praise_message channel_id user_info
                remaining mentions 0 (step w)) as H.
  rewrite Z.sub_0_r in H.
  destruct (praise_loop' _ _ _ _ _ _ _ _) as [[e|[]] w1]; exact H.
Qed.

(** X6: whatever the list of mentions, also one longer than the
    quota left, [_process_praises] adds to the requester's given list in the
    file at most [remaining_praises] entries (none when that is not
    positive), and raises the count for any start of week by no more than
    that: the check inside the loop holds the line on its own. *)
Theorem process_praises_respects_remaining
    (user_id praise_message channel_id : string) (remaining : Z)
    (mentions : list mention) (w : world) :
  let w' := (_process_praises' user_id mentions praise_message channel_id
               remaining w).2 in
  Z.of_nat (length (given_in_file user_id w'))
  ≤ Z.of_nat (length (given_in_file user_id w)) + Z.max 0 remaining ∧
  ∀ ws, weekly_sum ws (given_in_file user_id w')
        ≤ weekly_sum ws (given_in_file user_id w) + Z.max 0 remaining.
Proof. apply process_praises_grows. Qed.

Lemma handle_grows (user_id channel_id text : string) (w : world) :
  let weekly_count :=
    weekly_of (snapshot fromisoformat (file w)) user_id (clock (tick w)) in
  grows_by (Z.max 0 (WEEKLY_PRAISE_LIMIT - weekly_count))
    (given_in_file user_id w)
    (given_in_file user_id (handle_hloppy_command' user_id channel_id text w).2).
Proof.
  intros weekly_count.
  pose proof (handle_gate isoformat fromisoformat clock disk _verify_user
                _find_user_by_name users_info chat_postMessage
                user_id channel_id text w) as Hgate.
  cbv zeta in Hgate. fold weekly_count in Hgate.
  destruct (weekly_world fromisoformat clock user_id w) as (Hf0 & _).
  cbv zeta in Hf0.
  set (command_text := py_strip text) in *.
  set (mentions := _parse_mentions _verify_user _find_user_by_name command_text) in *.
  assert (Hsame : grows_by (Z.max 0 (WEEKLY_PRAISE_LIMIT - weekly_count))
                    (given_in_file user_id w) (given_in_file user_id w))
    by (apply grows_by_refl; lia).
  destruct (decide (command_text = "")) as [Ht|Ht].
  { unfold handle_hloppy_command. fold command_text. by rewrite Ht. }
  destruct (decide (mentions = [])) as [Hm|Hm].
  { unfold handle_hloppy_command. fold command_text mentions.
    apply String.eqb_neq in Ht. by rewrite Ht, Hm. }
  rewrite Hgate by done.
  destruct (WEEKLY_PRAISE_LIMIT <=? weekly_count); [simpl; by rewrite Hf0|].
  destruct (_ <? Z.of_nat (length mentions)); [simpl; by rewrite Hf0|].
  destruct (String.eqb _ ""); [simpl; by rewrite Hf0|].
  match goal with
  | |- context [_process_praises' ?u ?ms ?msg ?c ?r ?w0] =>
      pose proof (process_praises_grows u msg c r ms w0) as Hp;
      destruct (_process_praises' u ms msg c r w0) as [[e|a] w1]
  end; simpl in *; by rewrite Hf0 in Hp.
Qed.

(** X7: a command never takes the requester over the weekly
    limit: counted from the Monday of the command, the given praises that
    the file holds for the requester afterwards are at most 3, or at most
    what they were if that was already more; and the given list grows by at
    most the quota that was left. *)
Theorem handle_keeps_weekly_limit (user_id channel_id text : string) (w : world) :
  let monday := week_start (clock (tick w)) in
  let w' := (handle_hloppy_command' user_id channel_id text w).2 in
  let before := weekly_sum monday (given_in_file user_id w) in
  weekly_sum monday (given_in_file user_id w') ≤ Z.max WEEKLY_PRAISE_LIMIT before ∧
  Z.of_nat (length (given_in_file user_id w'))
  ≤ Z.of_nat (length (given_in_file user_id w))
    + Z.max 0 (WEEKLY_PRAISE_LIMIT - before).
Proof.
  intros monday w' before.
  destruct (handle_grows user_id channel_id text w) as [Hlen Hweek].
  rewrite weekly_of_at_user in Hlen, Hweek. fold monday before in Hlen, Hweek.
  split; [|exact Hlen]. specialize (Hweek monday). fold before in Hweek.
  unfold w'. lia.
Qed.

End QuotaKept.

(** ** What a command answers *)

Section CommandOutcomes.

Variable isoformat : datetime → string.
Variable fromisoformat : string → option datetime.
Variable clock : nat → datetime.
Variable disk : nat → write_result.
Variable _verify_user : string → bool.
Variable _find_user_by_name : string → option string.
Variable users_info : nat → string → result (option string).
Variable chat_postMessage : nat → result unit.
Hypothesis iso_roundtrip : ∀ t, fromisoformat (isoformat t) = Some t.

Local Abbreviation praise_loop' :=
  (praise_loop isoformat fromisoformat clock disk users_info chat_postMessage).
Local Abbreviation _process_praises' :=
  (_process_praises isoformat fromisoformat clock disk users_info chat_postMessage).
Local Abbreviation handle_hloppy_command' :=
  (handle_hloppy_command isoformat fromisoformat clock disk _verify_user
     _find_user_by_name users_info chat_postMessage).
Local Abbreviation _parse_mentions' :=
  (_parse_mentions _verify_user _find_user_by_name).
Local Abbreviation add_praise' := (add_praise isoformat fromisoformat clock disk).
Local Abbreviation given_in_file user_id w :=
  (given (at_user (snapshot fromisoformat (file w)) user_id)).

Lemma add_praise_given_ok (user_id to message : string) (w : world) :
  disk (S (tick w)) = WriteOk →
  given_in_file user_id (add_praise' user_id to message w).2
  = given_in_file user_id w ++ [Given (JStr to) (JStr message) (clock (tick w))].
Proof.
  intros Hok. rewrite add_praise_spec. simpl.
  rewrite (snapshot_after_write _ _ iso_roundtrip), Hok.
  by rewrite at_user_prune, given_after_praise, decide_True.
Qed.

Lemma add_praise_file_refused (from to message : string) (w : world) :
  disk (S (tick w)) = WriteRefused →
  file (add_praise' from to message w).2 = file w.
Proof. intros H. rewrite add_praise_spec. simpl. by rewrite H. Qed.

Lemma add_praise_tick (from to message : string) (w : world) :
  tick (add_praise' from to message w).2 = S (S (tick w)).
Proof. by rewrite add_praise_spec. Qed.

(** The loop with a directory and a chat platform that work, on mentions
    that fit in the quota. *)
Lemma praise_loop_delivers (user_id praise_message channel_id : string)
    (user_info : option string) (sender_name : string) (remaining : Z)
    (mentions : list mention) (g : Z) (w : world) :
  directory_works users_info → chat_works chat_postMessage →
  real_name user_info = inr sender_name →
  g + Z.of_nat (length (others user_id mentions)) ≤ remaining →
  ∃ w' posts,
    praise_loop' user_id praise_message channel_id user_info remaining
      mentions g w = (inr tt, w') ∧
    tick w' = (tick w + 4 * length (others user_id mentions))%nat ∧
    outbox w' = outbox w ++ posts ∧
    Forall is_post posts ∧
    post_target <$> posts = m_mention <$> others user_id mentions ∧
    (∀ i p, posts !! i = Some p →
            post_remaining p = remaining - g - Z.of_nat (S i)) ∧
    (disk_works disk →
     given_in_file user_id w'
     = given_in_file user_id w
       ++ imap (praise_entry clock (tick w) praise_message)
               (others user_id mentions)) ∧
    ((∀ t, disk t = WriteRefused) → file w' = file w).
Proof.
  intros Hdir Hchat Hname.
  revert g w. induction mentions as [|m ms IH]; intros g w Hle.
  { exists w, []. simpl. rewrite !app_nil_r, Nat.add_0_r.
    repeat split; try done. }
  unfold others in *.
  destruct (decide (m_id m = user_id)) as [Hself|Hother].
  { rewrite praise_loop_self by done.
    rewrite filter_cons_False in * by (intros H; by apply H). by apply IH. }
  rewrite filter_cons_True in * by done. simpl length in *.
  rewrite praise_loop_other by (done || lia). cbv zeta.
  pose proof (add_praise_tick user_id (m_id m) praise_message w) as Htick.
  pose proof (add_praise_outbox isoformat fromisoformat clock disk
                user_id (m_id m) praise_message w) as Hout1.
  pose proof (add_praise_given_ok user_id (m_id m) praise_message w) as Hgiven.
  pose proof (add_praise_file_refused user_id (m_id m) praise_message w) as Hfile.
  set (w1 := (add_praise' user_id (m_id m) praise_message w).2) in *.
  destruct (Hdir (tick (with_data (snapshot fromisoformat (file w1)) w1)) (m_id m))
    as [target_name ->].
  rewrite Hname. simpl real_name. cbv iota. rewrite Hchat.
  match goal with
  | |- context [praise_loop' _ _ _ _ _ ms (g + 1) ?w3] =>
      destruct (IH (g + 1) w3) as
        (w' & posts & -> & Htick' & Hout & Hposts & Htargets & Hrem & Hok & Hrefused);
      [lia|]
  end.
  eexists w', (_ :: posts). split; [reflexivity|].
  cbn [tick outbox file step send with_data] in *.
  split; [rewrite Htick', Htick; lia|].
  split; [by rewrite Hout, Hout1, <- app_assoc|].
  split; [by constructor|].
  split; [by rewrite !fmap_cons, Htargets|].
  split.
  { intros [|i] p; simpl.
    - intros [= <-]. simpl. lia.
    - intros Hp%Hrem. lia. }
  split.
  - intros Hdisk. rewrite (Hok Hdisk), (Hgiven (Hdisk _)), <- app_assoc.
    f_equal. rewrite imap_cons. unfold praise_entry at 2.
    rewrite Nat.mul_0_r, Nat.add_0_r. simpl. f_equal.
    apply imap_ext. intros i x _. unfold praise_entry. simpl.
    rewrite Htick. do 2 f_equal. lia.
  - intros Hdisk. rewrite (Hrefused Hdisk). by apply Hfile.
Qed.

(** X8: with a disk, a directory and a chat platform that work, and
    no more mentions of others than the quota left, [_process_praises]
    returns normally; it posts one notification per mention of somebody else,
    in the order of the command, each for the recipient it mentions and with
    the quota counting down from [remaining_praises - 1]; and the requester's
    given list in the file grows by exactly one entry per such mention, in the
    same order, with the message and the clock reading of its turn. *)
Theorem process_praises_delivers (user_id praise_message channel_id : string)
    (remaining : Z) (mentions : list mention) (w : world) :
  disk_works disk → directory_works users_info → chat_works chat_postMessage →
  Z.of_nat (length (others user_id mentions)) ≤ remaining →
  ∃ w' posts,
    _process_praises' user_id mentions praise_message channel_id remaining w
    = (inr tt, w') ∧
    outbox w' = outbox w ++ posts ∧
    Forall is_post posts ∧
    post_target <$> posts = m_mention <$> others user_id mentions ∧
    (∀ i p, posts !! i = Some p → post_remaining p = remaining - Z.of_nat (S i)) ∧
    given_in_file user_id w'
    = given_in_file user_id w
      ++ imap (praise_entry clock (S (tick w)) praise_message)
              (others user_id mentions).
Proof.
  intros Hdisk Hdir Hchat Hle.
  unfold _process_praises, try_except. rewrite M_bind_unfold.
  unfold call_users_info at 1.
  destruct (Hdir (tick w) user_id) as [sender_name ->].
  destruct (praise_loop_delivers user_id praise_message channel_id
              (Some sender_name) sender_name remaining mentions 0 (step w))
    as (w' & posts & -> & _ & Hout & Hposts & Htargets & Hrem & Hok & _);
    [done | done | done | lia |].
  exists w', posts. split; [done|]. split; [done|]. split; [done|].
  split; [done|]. split.
  - intros i p Hp. rewrite (Hrem i p Hp). lia.
  - by rewrite (Hok Hdisk).
Qed.

(** X9: the notifications do not wait for the store: when every
    write is refused, a directory and a chat platform that work still get one
    notification per mention of somebody else posted, [_process_praises]
    returns normally, and the file is the one from before, so none of the
    praises announced is kept. *)
Theorem refused_writes_still_notify (user_id praise_message channel_id : string)
    (remaining : Z) (mentions : list mention) (w : world) :
  (∀ t, disk t = WriteRefused) →
  directory_works users_info → chat_works chat_postMessage →
  Z.of_nat (length (others user_id mentions)) ≤ remaining →
  ∃ w' posts,
    _process_praises' user_id mentions praise_message channel_id remaining w
    = (inr tt, w') ∧
    file w' = file w ∧
    outbox w' = outbox w ++ posts ∧
    Forall is_post posts ∧
    post_target <$> posts = m_mention <$> others user_id mentions.
Proof.
  intros Hdisk Hdir Hchat Hle.
  unfold _process_praises, try_except. rewrite M_bind_unfold.
  unfold call_users_info at 1.
  destruct (Hdir (tick w) user_id) as [sender_name ->].
  destruct (praise_loop_delivers user_id praise_message channel_id
              (Some sender_name) sender_name remaining mentions 0 (step w))
    as (w' & posts & -> & _ & Hout & Hposts & Htargets & _ & _ & Hrefused);
    [done | done | done | lia |].
  exists w', posts. split; [done|]. split; [by rewrite (Hrefused Hdisk)|].
  done.
Qed.

(** Every turn of the loop records before it notifies. *)
Lemma praise_loop_accounts (user_id praise_message channel_id : string)
    (user_info : option string) (remaining : Z) (mentions : list mention)
    (g : Z) (w : world) :
  disk_works disk →
  ∃ posts notice,
    outbox (praise_loop' user_id praise_message channel_id user_info remaining
              mentions g w).2
    = outbox w ++ posts ++ notice ∧
    Forall is_post posts ∧
    (notice = [] ∨ notice = [SayLimitReached]) ∧
    length (given_in_file user_id
              (praise_loop' user_id praise_message channel_id user_info remaining
                 mentions g w).2)
    = (length (given_in_file user_id w) + length posts
       + match (praise_loop' user_id praise_message channel_id user_info
                  remaining mentions g w).1 with
         | inl _ => 1
         | inr _ => 0
         end)%nat.
Proof.
  intros Hdisk. revert g w. induction mentions as [|m ms IH]; intros g w.
  { exists [], []. simpl. rewrite app_nil_r. repeat split; try done.
    - by left.
    - lia. }
  destruct (decide (m_id m = user_id)) as [Hself|Hother].
  { rewrite praise_loop_self by done. apply IH. }
  destruct (decide (g < remaining)) as [Hlt|Hge].
  2: { rewrite praise_loop_limit by (done || lia).
       exists [], [SayLimitReached]. simpl. repeat split; try done.
       - by right.
       - lia. }
  rewrite praise_loop_other by done. cbv zeta.
  pose proof (add_praise_outbox isoformat fromisoformat clock disk
                user_id (m_id m) praise_message w) as Hout1.
  pose proof (add_praise_given_ok user_id (m_id m) praise_message w (Hdisk _))
    as Hgiven.
  set (w1 := (add_praise' user_id (m_id m) praise_message w).2) in *.
  assert (Hraise : ∀ e : exn,
    ∃ posts notice,
      outbox (@inl exn unit e, step (with_data (snapshot fromisoformat (file w1)) w1)).2
      = outbox w ++ posts ++ notice ∧
      Forall is_post posts ∧
      (notice = [] ∨ notice = [SayLimitReached]) ∧
      length (given_in_file user_id
                (@inl exn unit e,
                 step (with_data (snapshot fromisoformat (file w1)) w1)).2)
      = (length (given_in_file user_id w) + length posts
         + match (@inl exn unit e,
                  step (with_data (snapshot fromisoformat (file w1)) w1)).1 with
           | inl _ => 1
           | inr _ => 0
           end)%nat).
  { intros e. exists [], []. cbn [fst snd outbox file step with_data].
    rewrite Hout1, Hgiven, length_app, !app_nil_r. simpl.
    repeat split; try done; [by left | lia]. }
  destruct (users_info _ (m_id m)) as [e|target_info]; [apply Hraise|].
  destruct (real_name user_info) as [e|sender_name]; [apply Hraise|].
  destruct (real_name target_info) as [e|target_name]; [apply Hraise|].
  destruct (chat_postMessage _) as [e|[]]; [apply Hraise|].
  match goal with
  | |- context [praise_loop' _ _ _ _ _ ms (g + 1) ?w3] =>
      destruct (IH (g + 1) w3) as (posts & notice & Hout & Hposts & Hnotice & Hlen)
  end.
  eexists (_ :: posts), notice.
  rewrite Hout, Hlen. cbn [outbox file step send with_data].
  rewrite Hout1, Hgiven, length_app, <- !app_assoc. simpl.
  repeat split; try done; [by constructor | lia].
Qed.

(** X10: with a disk that works, what [_process_praises] has put
    in the requester's given list is what it has announced, when it returns
    normally; when it raises after the requester was looked up, one praise
    more is in the file than was announced: every turn records first and
    notifies afterwards, and an exception ends the loop.  The only other
    message is the notice that the limit is reached, at the end. *)
Theorem records_run_ahead_of_notices
    (user_id praise_message channel_id : string) (remaining : Z)
    (mentions : list mention) (w : world) :
  disk_works disk →
  let r := _process_praises' user_id mentions praise_message channel_id
             remaining w in
  ∃ posts notice,
    outbox r.2 = outbox w ++ posts ++ notice ∧
    Forall is_post posts ∧
    (notice = [] ∨ notice = [SayLimitReached]) ∧
    length (given_in_file user_id r.2)
    = (length (given_in_file user_id w) + length posts
       + match r.1, users_info (tick w) user_id with
         | inl _, inr _ => 1
         | _, _ => 0
         end)%nat.
Proof.
  intros Hdisk. cbv zeta.
  unfold _process_praises, try_except. rewrite M_bind_unfold.
  unfold call_users_info.
  destruct (users_info (tick w) user_id) as [e|user_info].
  { exists [], []. simpl. rewrite app_nil_r.
    repeat split; try done; [by left | lia]. }
  destruct (praise_loop_accounts user_id praise_message channel_id user_info
              remaining mentions 0 (step w) Hdisk)
    as (posts & notice & Hout & Hposts & Hnotice & Hlen).
  exists posts, notice.
  destruct (praise_loop' _ _ _ _ _ _ _ _) as [[e|[]] w1]; simpl in *; done.
Qed.

Lemma praise_loop_outbox (user_id praise_message channel_id : string)
    (user_info : option string) (remaining : Z) (mentions : list mention)
    (g : Z) (w : world) :
  ∃ msgs,
    outbox (praise_loop' user_id praise_message channel_id user_info remaining
              mentions g w).2
    = outbox w ++ msgs.
Proof.
  revert g w. induction mentions as [|m ms IH]; intros g w.
  { exists []. simpl. by rewrite app_nil_r. }
  destruct (decide (m_id m = user_id)) as [Hself|Hother].
  { rewrite praise_loop_self by done. apply IH. }
  destruct (decide (g < remaining)) as [Hlt|Hge].
  2: { rewrite praise_loop_limit by (done || lia). by eexists [_]. }
  rewrite praise_loop_other by done. cbv zeta.
  pose proof (add_praise_outbox isoformat fromisoformat clock disk
                user_id (m_id m) praise_message w) as Hout1.
  set (w1 := (add_praise' user_id (m_id m) praise_message w).2) in *.
  destruct (users_info _ (m_id m)) as [e|target_info].
  { exists []. simpl. by rewrite Hout1, app_nil_r. }
  destruct (real_name user_info) as [e|sender_name].
  { exists []. simpl. by rewrite Hout1, app_nil_r. }
  destruct (real_name target_info) as [e|target_name].
  { exists []. simpl. by rewrite Hout1, app_nil_r. }
  destruct (chat_postMessage _) as [e|[]].
  { exists []. simpl. by rewrite Hout1, app_nil_r. }
  match goal with
  | |- context [praise_loop' _ _ _ _ _ ms (g + 1) ?w3] =>
      destruct (IH (g + 1) w3) as (msgs & ->)
  end.
  eexists (_ :: msgs). simpl. by rewrite Hout1, <- app_assoc.
Qed.

(** A mention of somebody else makes the loop raise or send something. *)
Lemma praise_loop_answers (user_id praise_message channel_id : string)
    (user_info : option string) (remaining : Z) (mentions : list mention)
    (g : Z) (w : world) :
  Exists (fun m => m_id m ≠ user_id) mentions →
  (∃ e w', praise_loop' user_id praise_message channel_id user_info remaining
             mentions g w = (inl e, w') ∧ ∃ msgs, outbox w' = outbox w ++ msgs) ∨
  (∃ m msgs,
     outbox (praise_loop' user_id praise_message channel_id user_info remaining
               mentions g w).2
     = outbox w ++ m :: msgs).
Proof.
  revert g w. induction mentions as [|m ms IH]; intros g w Hex.
  { by apply Exists_nil in Hex. }
  destruct (decide (m_id m = user_id)) as [Hself|Hother].
  { rewrite praise_loop_self by done. apply IH.
    apply Exists_cons in Hex as [Hm|Hms]; done. }
  destruct (decide (g < remaining)) as [Hlt|Hge].
  2: { rewrite praise_loop_limit by (done || lia). right. by exists SayLimitReached, []. }
  rewrite praise_loop_other by done. cbv zeta.
  pose proof (add_praise_outbox isoformat fromisoformat clock disk
                user_id (m_id m) praise_message w) as Hout1.
  set (w1 := (add_praise' user_id (m_id m) praise_message w).2) in *.
  assert (Hraise : ∀ (e : exn) (w2 : world),
    outbox w2 = outbox w1 →
    ∃ e' w', (@inl exn unit e, w2) = (inl e', w') ∧
             ∃ msgs, outbox w' = outbox w ++ msgs).
  { intros e w2 Hw2. eexists _, _. split; [reflexivity|]. exists [].
    by rewrite Hw2, Hout1, app_nil_r. }
  destruct (users_info _ (m_id m)) as [e|target_info]; [left; by apply Hraise|].
  destruct (real_name user_info) as [e|sender_name]; [left; by apply Hraise|].
  destruct (real_name target_info) as [e|target_name]; [left; by apply Hraise|].
  destruct (chat_postMessage _) as [e|[]]; [left; by apply Hraise|].
  right.
  match goal with
  | |- context [praise_loop' ?a ?b ?c ?d ?r ms (g + 1) ?w3] =>
      destruct (praise_loop_outbox a b c d r ms (g + 1) w3) as (msgs & ->)
  end.
  eexists _, msgs. simpl. by rewrite Hout1, <- app_assoc.
Qed.

Lemma praise_loop_all_self (user_id praise_message channel_id : string)
    (user_info : option string) (remaining : Z) (mentions : list mention)
    (g : Z) (w : world) :
  Forall (fun m => m_id m = user_id) mentions →
  praise_loop' user_id praise_message channel_id user_info remaining mentions g w
  = (inr tt, w).
Proof.
  induction 1 as [|m ms Hm _ IH]; [done|]. by rewrite praise_loop_self.
Qed.

Lemma parse_mentions_empty : _parse_mentions' "" = [].
Proof. reflexivity. Qed.



End CommandOutcomes.

(** ** The mention parser *)

Section ParserSound.

Variable _verify_user : string → bool.
Variable _find_user_by_name : string → option string.

Local Abbreviation _parse_single_mention' :=
  (_parse_single_mention _verify_user _find_user_by_name).
Local Abbreviation parse_mentions_from' :=
  (parse_mentions_from _verify_user _find_user_by_name).
Local Abbreviation mention_checked' :=
  (mention_checked _verify_user _find_user_by_name).

Lemma parse_single_mention_checked (text : string) (start : nat) (m : mention) :
  _parse_single_mention' text start = Some m →
  (m_end m ≤ String.length text)%nat ∧ mention_checked' text m.
Proof.
  unfold _parse_single_mention.
  assert (Hraw :
    match py_find " " start text with
    | Some next_space =>
        match _find_user_by_name (py_strip (slice (start + 1) next_space text)) with
        | Some user_id =>
            if String.eqb user_id "" then None
            else Some {| m_id := user_id;
                         m_mention := "<@" +:+ user_id +:+ ">";
                         m_end := next_space |}
        | None => None
        end
    | None => None
    end = Some m →
    (m_end m ≤ String.length text)%nat ∧ mention_checked' text m).
  { destruct (py_find " " start text) as [next_space|] eqn:Hs; [|done].
    destruct (_find_user_by_name _) as [user_id|] eqn:Hu; [|done].
    destruct (String.eqb user_id "") eqn:He; [done|]. intros [= <-]. simpl.
    pose proof (find_from_bounds _ _ _ _ _ Hs) as (_ & _ & Hlen).
    apply find_from_get in Hs. rewrite Nat.sub_0_r in Hs.
    split; [lia|]. right. eexists. simpl.
    split; [exact Hu|]. split; [by apply String.eqb_neq|]. done. }
  destruct ((0 <? start)%nat && _) eqn:Hconv; [|exact Hraw].
  apply andb_true_iff in Hconv as [_ Hconv%String.eqb_eq].
  destruct (py_find ">" start text) as [end_bracket|] eqn:Hb; [|exact Hraw].
  destruct (_verify_user _) eqn:Hv; [|exact Hraw].
  intros [= <-]. simpl.
  pose proof (find_from_bounds _ _ _ _ _ Hb) as (_ & _ & Hlen).
  apply find_from_get in Hb. rewrite Nat.sub_0_r in Hb.
  split; [lia|]. left. exists start. simpl.
  split; [exact Hv|]. split; [exact Hconv|]. split; [done|].
  by replace (end_bracket + 1 - 1)%nat with end_bracket by lia.
Qed.

Lemma parse_mentions_from_sound (text : string) (fuel pos : nat) :
  let ms := parse_mentions_from' fuel text pos in
  Forall (fun m => (pos < m_end m ≤ String.length text)%nat
                   ∧ mention_checked' text m) ms ∧
  StronglySorted (fun a b => (m_end a < m_end b)%nat) ms ∧
  (length ms ≤ String.length text - pos)%nat.
Proof.
  revert pos. induction fuel as [|fuel IH]; intros pos; simpl.
  { split; [constructor|]. split; [constructor | lia]. }
  destruct (py_find "@" pos text) as [k|] eqn:Hk.
  2: { split; [constructor|]. split; [constructor | simpl; lia]. }
  pose proof (find_from_bounds _ _ _ _ _ Hk) as (Hpos & _ & Hlen).
  destruct (_parse_single_mention' text k) as [m|] eqn:Hm.
  - pose proof (parse_single_mention_end _ _ _ _ _
                  (py_find_fixed _ _ _ _ Hk) Hm) as Hend.
    apply parse_single_mention_checked in Hm as [Hbound Hchecked].
    destruct (IH (m_end m)) as (Hall & Hsorted & Hcount).
    split.
    { constructor; [split; [lia | done]|].
      eapply Forall_impl; [exact Hall|]. intros x [? ?]. split; [lia | done]. }
    split.
    { constructor; [done|].
      eapply Forall_impl; [exact Hall|]. intros x [? ?]. lia. }
    simpl. lia.
  - destruct (IH (k + 1)%nat) as (Hall & Hsorted & Hcount).
    split.
    { eapply Forall_impl; [exact Hall|]. intros x [? ?]. split; [lia | done]. }
    split; [done | lia].
Qed.


End ParserSound.

(** ** A file that cannot be read, and the next praise *)

Section Overwrite.

Variable isoformat : datetime → string.
Variable fromisoformat : string → option datetime.
Variable clock : nat → datetime.
Variable disk : nat → write_result.
Hypothesis iso_roundtrip : ∀ t, fromisoformat (isoformat t) = Some t.

(** X14: when reading the file raises (it cannot be opened, is no
    JSON, or one entry of one user is broken), the next [add_praise] whose
    write succeeds replaces the file by one that holds that praise and
    nothing else: whatever the old file held is gone, and the file can be
    read again. *)
Theorem unreadable_history_is_overwritten (from to message : string) (e : exn)
    (w : world) :
  read_file fromisoformat (file w) = inl e →
  disk (S (tick w)) = WriteOk →
  let t := clock (tick w) in
  let w1 := (add_praise isoformat fromisoformat clock disk from to message w).2 in
  file w1 = FileJson (dump_ledger isoformat (ledger_after_praise ∅ from to message t)) ∧
  (∃ d, read_file fromisoformat (file w1) = inr d) ∧
  ∀ u,
    received (at_user (snapshot fromisoformat (file w1)) u)
    = (if decide (to = u) then [Received (JStr from) (JStr message) t] else []) ∧
    given (at_user (snapshot fromisoformat (file w1)) u)
    = (if decide (from = u) then [Given (JStr to) (JStr message) t] else []).
Proof.
  intros Hread Hdisk t w1.
  assert (Hsnap : snapshot fromisoformat (file w) = ∅).
  { unfold snapshot. by rewrite Hread. }
  assert (Hfile : file w1
                  = FileJson (dump_ledger isoformat
                                (ledger_after_praise ∅ from to message t))).
  { unfold w1. rewrite add_praise_spec. simpl. by rewrite Hdisk, Hsnap. }
  split; [exact Hfile|]. rewrite Hfile. split.
  { simpl. rewrite (decode_dump_ledger _ _ iso_roundtrip). by eexists. }
  intros u.
  rewrite (snapshot_dump_ledger _ _ iso_roundtrip), at_user_prune.
  rewrite received_after_praise, given_after_praise, at_user_empty. done.
Qed.

End Overwrite.

(** ** Praises are counted twice, never once *)

Lemma total_of_empty (measure : user_data → nat) : total_of measure ∅ = 0%nat.
Proof. unfold total_of. by rewrite map_fold_empty. Qed.

Lemma total_of_insert_fresh (measure : user_data → nat) (d : ledger)
    (u : string) (ud : user_data) :
  d !! u = None →
  total_of measure (<[u := ud]> d) = (measure ud + total_of measure d)%nat.
Proof.
  intros Hu. unfold total_of. rewrite map_fold_insert_L; [done | | done].
  intros. lia.
Qed.

Lemma total_of_insert (measure : user_data → nat) (d : ledger)
    (u : string) (ud : user_data) :
  measure create_user_data = 0%nat →
  (total_of measure (<[u := ud]> d) + measure (at_user d u)
   = measure ud + total_of measure d)%nat.
Proof.
  intros H0. unfold at_user. destruct (d !! u) as [old|] eqn:Hu; simpl.
  - rewrite <- (insert_delete_eq d u ud).
    rewrite <- (insert_delete_id d u old Hu) at 2.
    rewrite !total_of_insert_fresh by apply lookup_delete_eq. lia.
  - rewrite total_of_insert_fresh by done. lia.
Qed.

Lemma total_of_prune (measure : user_data → nat) (d : ledger) :
  (∀ ud, has_data ud = false → measure ud = 0%nat) →
  total_of measure (prune d) = total_of measure d.
Proof.
  intros H0. unfold prune.
  induction d as [|u ud d Hu IH] using map_ind.
  { by rewrite map_filter_empty. }
  destruct (has_data ud) eqn:Hud.
  - rewrite map_filter_insert_True by done.
    rewrite !total_of_insert_fresh; [by rewrite IH | done |].
    by rewrite map_lookup_filter, Hu.
  - rewrite map_filter_insert_False by (simpl; congruence).
    rewrite delete_id by done.
    rewrite total_of_insert_fresh by done. rewrite IH, (H0 ud Hud). done.
Qed.

Lemma balanced_empty : balanced ∅.
Proof. unfold balanced, total_received, total_given. by rewrite !total_of_empty. Qed.

Lemma balanced_prune (d : ledger) : balanced d → balanced (prune d).
Proof.
  unfold balanced, total_received, total_given. intros H.
  rewrite !total_of_prune; [done | |].
  - intros ud Hud. apply has_data_false in Hud as ->. done.
  - intros ud Hud. apply has_data_false in Hud as ->. done.
Qed.

Lemma totals_after_praise (d : ledger) (from to message : string) (t : datetime) :
  total_received (ledger_after_praise d from to message t) = S (total_received d) ∧
  total_given (ledger_after_praise d from to message t) = S (total_given d).
Proof.
  unfold ledger_after_praise, append_given, append_received.
  unfold total_received, total_given.
  set (r := Received (JStr from) (JStr message) t).
  set (g := Given (JStr to) (JStr message) t).
  set (d1 := <[to := {| received := received (at_user d to) ++ [r];
                        given := given (at_user d to) |}]> d).
  pose proof (total_of_insert (fun ud => length (received ud)) d to
                {| received := received (at_user d to) ++ [r];
                   given := given (at_user d to) |} eq_refl) as Hr1.
  pose proof (total_of_insert (fun ud => length (given ud)) d to
                {| received := received (at_user d to) ++ [r];
                   given := given (at_user d to) |} eq_refl) as Hg1.
  pose proof (total_of_insert (fun ud => length (received ud)) d1 from
                {| received := received (at_user d1 from);
                   given := given (at_user d1 from) ++ [g] |} eq_refl) as Hr2.
  pose proof (total_of_insert (fun ud => length (given ud)) d1 from
                {| received := received (at_user d1 from);
                   given := given (at_user d1 from) ++ [g] |} eq_refl) as Hg2.
  fold d1 in Hr1, Hg1. simpl in Hr1, Hg1, Hr2, Hg2.
  rewrite length_app in Hr1, Hg2. simpl in Hr1, Hg2. lia.
Qed.

Lemma balanced_after_praise (d : ledger) (from to message : string) (t : datetime) :
  balanced d → balanced (ledger_after_praise d from to message t).
Proof.
  unfold balanced. intros H.
  destruct (totals_after_praise d from to message t) as [-> ->]. by rewrite H.
Qed.

Section Conservation.

Variable isoformat : datetime → string.
Variable fromisoformat : string → option datetime.
Variable clock : nat → datetime.
Variable disk : nat → write_result.
Variable set_iter : gset pykey → list pykey.
Variable _verify_user : string → bool.
Variable _find_user_by_name : string → option string.
Variable users_info : nat → string → result (option string).
Variable chat_postMessage : nat → result unit.
Hypothesis iso_roundtrip : ∀ t, fromisoformat (isoformat t) = Some t.

Local Abbreviation run_op' := (run_op isoformat fromisoformat clock disk set_iter).
Local Abbreviation run_ops' := (run_ops isoformat fromisoformat clock disk set_iter).
Local Abbreviation add_praise' := (add_praise isoformat fromisoformat clock disk).
Local Abbreviation praise_loop' :=
  (praise_loop isoformat fromisoformat clock disk users_info chat_postMessage).
Local Abbreviation _process_praises' :=
  (_process_praises isoformat fromisoformat clock disk users_info chat_postMessage).
Local Abbreviation handle_hloppy_command' :=
  (handle_hloppy_command isoformat fromisoformat clock disk _verify_user
     _find_user_by_name users_info chat_postMessage).
Local Abbreviation in_file w := (snapshot fromisoformat (file w)).

Lemma balanced_after_write (r : write_result) (d : ledger) (f : file_state) :
  balanced d → balanced (snapshot fromisoformat f) →
  balanced (snapshot fromisoformat (file_after_write r (dump_ledger isoformat d) f)).
Proof.
  intros Hd Hf. rewrite (snapshot_after_write _ _ iso_roundtrip).
  destruct r; [by apply balanced_prune | done | apply balanced_empty].
Qed.

Lemma add_praise_balanced (from to message : string) (w : world) :
  balanced (in_file w) →
  balanced (data (add_praise' from to message w).2) ∧
  balanced (in_file (add_praise' from to message w).2).
Proof.
  intros Hf. rewrite add_praise_spec. simpl.
  assert (balanced (ledger_after_praise (in_file w) from to message (clock (tick w))))
    by by apply balanced_after_praise.
  split; [done | by apply balanced_after_write].
Qed.

Lemma run_op_balanced (op : store_op) (w : world) :
  balanced (data w) → balanced (in_file w) →
  balanced (data (run_op' op w)) ∧ balanced (in_file (run_op' op w)).
Proof.
  intros Hd Hf. destruct op as [| |u|from to message|u|]; simpl.
  - rewrite load_data_spec. done.
  - rewrite save_data_spec. simpl. split; [done | by apply balanced_after_write].
  - rewrite get_user_weekly_praises_spec. simpl.
    by destruct (snapshot fromisoformat (file w) !! u).
  - by apply add_praise_balanced.
  - rewrite get_praise_count_spec. done.
  - rewrite get_sorted_users_spec. done.
Qed.

Lemma run_ops_balanced (ops : list store_op) (w : world) :
  balanced (data w) → balanced (in_file w) →
  balanced (data (run_ops' ops w)) ∧ balanced (in_file (run_ops' ops w)).
Proof.
  revert w. induction ops as [|op ops IH]; intros w Hd Hf; simpl; [done|].
  destruct (run_op_balanced op w Hd Hf). by apply IH.
Qed.

Lemma praise_loop_balanced (user_id praise_message channel_id : string)
    (user_info : option string) (remaining : Z) (mentions : list mention)
    (g : Z) (w : world) :
  balanced (in_file w) →
  balanced (in_file (praise_loop' user_id praise_message channel_id user_info
                       remaining mentions g w).2).
Proof.
  revert g w. induction mentions as [|m ms IH]; intros g w Hf; [done|].
  destruct (decide (m_id m = user_id)) as [Hself|Hother].
  { rewrite praise_loop_self by done. by apply IH. }
  destruct (decide (g < remaining)) as [Hlt|Hge].
  2: { by rewrite praise_loop_limit by (done || lia). }
  rewrite praise_loop_other by done. cbv zeta.
  destruct (add_praise_balanced user_id (m_id m) praise_message w Hf) as [_ Hf1].
  set (w1 := (add_praise' user_id (m_id m) praise_message w).2) in *.
  destruct (users_info _ (m_id m)) as [e|target_info]; [exact Hf1|].
  destruct (real_name user_info) as [e|sender_name]; [exact Hf1|].
  destruct (real_name target_info) as [e|target_name]; [exact Hf1|].
  destruct (chat_postMessage _) as [e|[]]; [exact Hf1|].
  apply IH. exact Hf1.
Qed.

Lemma handle_balanced (user_id channel_id text : string) (w : world) :
  balanced (in_file w) →
  balanced (in_file (handle_hloppy_command' user_id channel_id text w).2).
Proof.
  intros Hf.
  pose proof (handle_gate isoformat fromisoformat clock disk _verify_user
                _find_user_by_name users_info chat_postMessage
                user_id channel_id text w) as Hgate.
  cbv zeta in Hgate.
  destruct (weekly_world fromisoformat clock user_id w) as (Hf0 & _).
  cbv zeta in Hf0.
  set (command_text := py_strip text) in *.
  set (mentions := _parse_mentions _verify_user _find_user_by_name command_text) in *.
  destruct (decide (command_text = "")) as [Ht|Ht].
  { unfold handle_hloppy_command. fold command_text. by rewrite Ht. }
  destruct (decide (mentions = [])) as [Hm|Hm].
  { unfold handle_hloppy_command. fold command_text mentions.
    apply String.eqb_neq in Ht. by rewrite Ht, Hm. }
  rewrite Hgate by done.
  destruct (WEEKLY_PRAISE_LIMIT <=? _); [simpl; by rewrite Hf0|].
  destruct (_ <? Z.of_nat (length mentions)); [simpl; by rewrite Hf0|].
  destruct (String.eqb _ ""); [simpl; by rewrite Hf0|].
  match goal with
  | |- context [_process_praises' ?u ?ms ?msg ?c ?r ?w0] =>
      set (w0' := w0) in *; set (msg' := msg); set (r' := r)
  end.
  unfold _process_praises, try_except. rewrite M_bind_unfold.
  unfold call_users_info.
  destruct (users_info (tick w0') user_id) as [e|user_info].
  { simpl. by rewrite Hf0. }
  pose proof (praise_loop_balanced user_id msg' channel_id user_info r' mentions 0
                (step w0')) as Hloop.
  simpl in Hloop. rewrite Hf0 in Hloop. specialize (Hloop Hf).
  by destruct (praise_loop' _ _ _ _ _ _ _ _) as [[e|[]] w1].
Qed.

(** X15: the file never holds a praise on one side only.  When it
    holds as many received entries as given entries, all users together, so
    it does after every sequence of store operations, whatever the disk does
    on a write, and after every [/hloppy] command, also one that ends in an
    error; a praise recorded by [add_praise] adds one to each side. *)
Theorem praises_are_conserved (ops : list store_op)
    (user_id channel_id text from to message : string) (w : world) :
  balanced (data w) → balanced (in_file w) →
  balanced (data (run_ops' ops w)) ∧
  balanced (in_file (run_ops' ops w)) ∧
  balanced (in_file (handle_hloppy_command' user_id channel_id text w).2) ∧
  (disk (S (tick w)) = WriteOk →
   total_given (in_file (add_praise' from to message w).2)
   = S (total_given (in_file w)) ∧
   total_received (in_file (add_praise' from to message w).2)
   = S (total_received (in_file w))).
Proof.
  intros Hd Hf.
  destruct (run_ops_balanced ops w Hd Hf) as [Hd' Hf'].
  split; [exact Hd'|]. split; [exact Hf'|].
  split; [by apply handle_balanced|].
  intros Hok. rewrite add_praise_spec. simpl.
  rewrite (snapshot_after_write _ _ iso_roundtrip), Hok.
  unfold total_given, total_received.
  rewrite !total_of_prune.
  - destruct (totals_after_praise (in_file w) from to message (clock (tick w)))
      as [Hr Hg]. unfold total_received, total_given in Hr, Hg. by rewrite Hr, Hg.
  - intros ud Hud. apply has_data_false in Hud as ->. done.
  - intros ud Hud. apply has_data_false in Hud as ->. done.
Qed.

End Conservation.

(** ** The search of the directory by name *)

Lemma lower_char_idemp (c : ascii) : lower_char (lower_char c) = lower_char c.
Proof. destruct c as [[] [] [] [] [] [] [] []]; reflexivity. Qed.

Lemma py_lower_idemp (s : string) : py_lower (py_lower s) = py_lower s.
Proof.
  induction s as [|c s IH]; [done|]. simpl. by rewrite lower_char_idemp, IH.
Qed.

Lemma member_matches_lower (username : string) (user : json) :
  member_matches (py_lower username) user = member_matches username user.
Proof. unfold member_matches. by rewrite py_lower_idemp. Qed.

Lemma find_member_lower (username : string) (members : list json) :
  find_member (py_lower username) members = find_member username members.
Proof.
  induction members as [|user rest IH]; [done|]. simpl.
  by rewrite member_matches_lower, IH.
Qed.

Lemma find_member_first (username : string) (pre rest : list json) :
  Forall (fun user => member_matches username user = inr false) pre →
  find_member username (pre ++ rest) = find_member username rest.
Proof.
  induction 1 as [|user pre Hno _ IH]; [done|]. simpl. by rewrite Hno.
Qed.

(** A member with text fields matches on one of its three names, or on a
    word of its real name, whatever the case of the letters. *)
Lemma member_matches_text (username : string) (m : list (string * json))
    (name real_name display_name : string) :
  text_field "name" m = Some name →
  text_field "real_name" m = Some real_name →
  display_name_of m = Some display_name →
  member_matches username (JObj m)
  = inr (String.eqb (py_lower name) (py_lower username)
         || String.eqb (py_lower real_name) (py_lower username)
         || String.eqb (py_lower display_name) (py_lower username)
         || bool_decide (py_lower username ∈ py_split (py_lower real_name))).
Proof.
  unfold text_field, display_name_of, member_matches. simpl.
  destruct (assoc "name" m) as [[| | |n| |]|]; try done; intros [= <-];
    (destruct (assoc "real_name" m) as [[| | |r| |]|]; try done; intros [= <-]);
    (destruct (assoc "profile" m) as [[| | | | |p]|]; try done; simpl;
     [unfold text_field;
      destruct (assoc "display_name" p) as [[| | |d| |]|]; try done|];
     intros [= <-]; reflexivity).
Qed.

(** X16: [_find_user_by_name] returns the id of the first member
    that matches, whatever comes after it, and [None] when no member matches
    or the listing fails; a member before the first match on which the
    comparison raises ends the search with [None]; the case of the letters
    of the name asked for does not matter; and the empty name matches every
    member with text fields that has no display name, so that an [@]
    followed by a space names the first such member. *)
Theorem find_user_by_name_first_match (username : string) (pre post : list json)
    (user : json) :
  Forall (fun u => member_matches username u = inr false) pre →
  (member_matches username user = inr true →
   _find_user_by_name (inr (JArr (pre ++ user :: post))) username
   = match py_subscript user "id" with
     | inr user_id => user_id
     | inl _ => JNull
     end) ∧
  (∀ e, member_matches username user = inl e →
        _find_user_by_name (inr (JArr (pre ++ user :: post))) username = JNull) ∧
  _find_user_by_name (inr (JArr pre)) username = JNull ∧
  (∀ e, _find_user_by_name (inl e) username = JNull) ∧
  (∀ members, _find_user_by_name members (py_lower username)
              = _find_user_by_name members username) ∧
  (∀ m name real_name,
     text_field "name" m = Some name →
     text_field "real_name" m = Some real_name →
     display_name_of m = Some "" →
     member_matches "" (JObj m) = inr true).
Proof.
  intros Hpre. unfold _find_user_by_name. simpl.
  split; [|split; [|split; [|split; [|split]]]].
  - intros Hhit. rewrite find_member_first by done. simpl. rewrite Hhit. simpl.
    by destruct (py_subscript user "id").
  - intros e He. rewrite find_member_first by done. simpl. by rewrite He.
  - rewrite <- (app_nil_r pre), find_member_first by done. done.
  - done.
  - intros [e|v]; simpl; [done|].
    destruct (py_iter v) as [e|users]; simpl; [done|].
    by rewrite find_member_lower.
  - intros m name real_name Hn Hr Hd.
    rewrite (member_matches_text "" m name real_name "" Hn Hr Hd). simpl.
    f_equal. by rewrite !orb_true_r.
Qed.

(** ** The standings text *)

Section StandingsFacts.

Variable fromisoformat : string → option datetime.
Variable set_iter : gset pykey → list pykey.
Variable users_info_ok : nat → pykey → result bool.

Local Abbreviation _format_standings_output' :=
  (_format_standings_output users_info_ok).
Local Abbreviation format_standings_message' :=
  (format_standings_message fromisoformat set_iter users_info_ok).

Lemma format_standings_output_spec (sorted_users message : list stats) (w : world) :
  ∃ lines w',
    _format_standings_output' sorted_users message w = (inr (message ++ lines), w') ∧
    sublist lines sorted_users ∧
    file w' = file w ∧ data w' = data w ∧ outbox w' = outbox w ∧
    tick w' = (tick w + length sorted_users)%nat ∧
    ((∀ t u, users_info_ok t u = inr true) → lines = sorted_users) ∧
    ((∀ t u, users_info_ok t u ≠ inr true) → lines = []).
Proof.
  revert message w. induction sorted_users as [|x rest IH]; intros message w.
  { exists [], w. simpl. rewrite app_nil_r, Nat.add_0_r. repeat split; done. }
  simpl. rewrite M_bind_unfold. unfold try_except. rewrite M_bind_unfold.
  unfold call_users_info_ok at 1.
  destruct (users_info_ok (tick w) (uid x)) as [e|ok] eqn:Hok; simpl.
  - destruct (IH message (step w))
      as (lines & w' & -> & Hsub & Hf & Hd & Ho & Ht & Hall & Hnone).
    exists lines, w'. split; [done|]. split; [by constructor|].
    simpl in *. split; [done|]. split; [done|]. split; [done|]. split; [lia|]. split.
    + intros Hyes. by rewrite Hyes in Hok.
    + intros Hno. by apply Hnone.
  - destruct ok.
    + destruct (IH (message ++ [x]) (step w))
        as (lines & w' & -> & Hsub & Hf & Hd & Ho & Ht & Hall & Hnone).
      exists (x :: lines), w'. rewrite <- app_assoc. split; [done|].
      split; [by constructor|].
      simpl in *. split; [done|]. split; [done|]. split; [done|]. split; [lia|]. split.
      * intros Hyes. by rewrite (Hall Hyes).
      * intros Hno. by destruct (Hno (tick w) (uid x)).
    + destruct (IH message (step w))
        as (lines & w' & -> & Hsub & Hf & Hd & Ho & Ht & Hall & Hnone).
      exists lines, w'. split; [done|]. split; [by constructor|].
      simpl in *. split; [done|]. split; [done|]. split; [done|]. split; [lia|]. split.
      * intros Hyes. by rewrite Hyes in Hok.
      * intros Hno. by apply Hnone.
Qed.

Lemma format_standings_message_app (w : world) :
  let d := snapshot fromisoformat (file w) in
  format_standings_message' true w
  = match sorted_users_of set_iter d with
    | inl e => (inl e, with_data d w)
    | inr sorted_users =>
        if bool_decide (sorted_users = [])
        then (inr EmptyStandings, with_data d w)
        else
          match _format_standings_output' sorted_users [] (with_data d w) with
          | (inl e, w') => (inl e, w')
          | (inr lines, w') => (inr (Standings lines), w')
          end
    end.
Proof.
  intros d. unfold format_standings_message.
  change (negb true) with false. cbv iota.
  rewrite M_bind_unfold, load_data_spec. fold d.
  rewrite M_bind_unfold. unfold get_data at 1. cbn [data with_data].
  rewrite M_bind_unfold. unfold lift at 1.
  destruct (sorted_users_of set_iter d) as [e|sorted_users]; [done|].
  destruct (bool_decide (sorted_users = [])); [done|].
  rewrite M_bind_unfold.
  by destruct (_format_standings_output' sorted_users [] (with_data d w))
    as [[e|lines] w'].
Qed.

(** X17: the standings text follows the ranking of the file.
    Without an app it is the text without standings, and nothing is read.
    With an app, [format_standings_message] raises exactly when the ranking
    of the file raises, for it has no handler of its own; an empty ranking
    gives the text without standings; otherwise the text has the header and
    lines of the ranking, in the order of the ranking, one directory lookup
    per ranked user: all of them when every lookup succeeds, and none, under
    the header, when every lookup fails.  The file is never written. *)
Theorem standings_follow_ranking (app_instance : bool) (w : world) :
  let d := snapshot fromisoformat (file w) in
  (app_instance = false →
   format_standings_message' app_instance w = (inr EmptyStandings, w)) ∧
  (app_instance = true →
   match sorted_users_of set_iter d with
   | inl e =>
       format_standings_message' app_instance w = (inl e, with_data d w)
   | inr [] =>
       format_standings_message' app_instance w
       = (inr EmptyStandings, with_data d w)
   | inr sorted_users =>
       ∃ lines w',
         format_standings_message' app_instance w = (inr (Standings lines), w') ∧
         sublist lines sorted_users ∧
         file w' = file w ∧ data w' = d ∧ outbox w' = outbox w ∧
         tick w' = (tick w + length sorted_users)%nat ∧
         ((∀ t u, users_info_ok t u = inr true) → lines = sorted_users) ∧
         ((∀ t u, users_info_ok t u ≠ inr true) → lines = [])
   end).
Proof.
  intros d. split; [by intros ->|]. intros ->.
  rewrite format_standings_message_app. fold d.
  destruct (sorted_users_of set_iter d) as [e|[|x r]]; [done | done |].
  rewrite bool_decide_eq_false_2 by done.
  destruct (format_standings_output_spec (x :: r) [] (with_data d w))
    as (lines & w' & -> & Hsub & Hf & Hd & Ho & Ht & Hall & Hnone).
  exists lines, w'. simpl in *. repeat split; done.
Qed.

End StandingsFacts.

(** ** The standings reports *)

Lemma R_bind_unfold {A B} (m : R A) (f : A → R B) (k : desk) :
  (m ≫= f) k
  = match m k with
    | (inl e, k') => (inl e, k')
    | (inr a, k') => f a k'
    end.
Proof. reflexivity. Qed.

Lemma is_general_spec (name : json) :
  is_general name = true ↔ name = JStr "general".
Proof.
  destruct name as [| | |s| |]; simpl; try (split; [done | by intros [=]]).
  rewrite String.eqb_eq. split; [by intros -> | by intros [= ->]].
Qed.

Lemma find_general_spec (channels : list json) :
  match find_general channels with
  | inr (Some channel) => first_general channels channel
  | inr None =>
      Forall (fun c => ∃ name, py_subscript c "name" = inr name
                               ∧ name ≠ JStr "general") channels
  | inl _ => True
  end.
Proof.
  induction channels as [|c rest IH]; simpl; [constructor|].
  destruct (py_subscript c "name") as [e|name] eqn:Hname; simpl; [done|].
  destruct (is_general name) eqn:Hg.
  - apply is_general_spec in Hg as ->. exists [], rest. by repeat split.
  - assert (Hc : ∃ n, py_subscript c "name" = inr n ∧ n ≠ JStr "general").
    { exists name. split; [done|]. intros ->. by rewrite (proj2 (is_general_spec _)) in Hg. }
    destruct (find_general rest) as [e|[channel|]]; [done| |by constructor].
    destruct IH as (pre & post & -> & Hn & Hpre).
    exists (c :: pre), post. split; [done|]. split; [done | by constructor].
Qed.

Section ReportFacts.

Variable fromisoformat : string → option datetime.
Variable set_iter : gset pykey → list pykey.
Variable users_info_ok : nat → pykey → result bool.
Variable conversations_list : nat → result (json * json).
Variable chat_postMessage : nat → result unit.

Local Abbreviation format_standings_message' :=
  (format_standings_message fromisoformat set_iter users_info_ok).
Local Abbreviation get_sorted_users' := (get_sorted_users fromisoformat set_iter).
Local Abbreviation handle_stats_command' :=
  (handle_stats_command fromisoformat set_iter users_info_ok).
Local Abbreviation post_leaderboard' :=
  (post_leaderboard fromisoformat set_iter users_info_ok conversations_list
     chat_postMessage).

(** The text, and then the ranking for the blocks: two readings of one
    file. *)
Lemma standings_then_ranking (w : world) (sent : list report) :
  let d := snapshot fromisoformat (file w) in
  match sorted_users_of set_iter d with
  | inl e =>
      in_store (format_standings_message' true) (Desk w sent)
      = (inl e, Desk (with_data d w) sent)
  | inr sorted_users =>
      ∃ text w1,
        in_store (format_standings_message' true) (Desk w sent)
        = (inr text, Desk w1 sent) ∧
        in_store get_sorted_users' (Desk w1 sent)
        = (inr sorted_users, Desk (with_data d w1) sent) ∧
        file w1 = file w ∧ outbox w1 = outbox w ∧
        tick w1 = (tick w + length sorted_users)%nat ∧
        text_of_ranking users_info_ok text sorted_users
  end.
Proof.
  intros d. unfold in_store. cbn [store reports].
  rewrite format_standings_message_app. fold d.
  destruct (sorted_users_of set_iter d) as [e|[|x r]] eqn:Hr; [done| |].
  - rewrite bool_decide_eq_true_2 by done.
    exists EmptyStandings, (with_data d w). split; [done|].
    rewrite get_sorted_users_spec. cbn [file with_data fst snd]. fold d.
    rewrite Hr. simpl. repeat split; try done; lia.
  - rewrite bool_decide_eq_false_2 by done.
    destruct (format_standings_output_spec users_info_ok (x :: r) [] (with_data d w))
      as (lines & w' & -> & Hsub & Hf & Hd & Ho & Ht & Hall & _).
    exists (Standings lines), w'. cbn [fst snd]. split; [done|].
    rewrite get_sorted_users_spec. cbn [fst snd].
    simpl in Hf. rewrite Hf. fold d. rewrite Hr.
    split; [done|]. split; [done|]. split; [done|]. split; [done|].
    exists lines. by repeat split.
Qed.


(** X19: [post_leaderboard] never raises and never writes the
    file.  It sends at most one report, and sends one only when the listing
    of the channels is confirmed, the first channel named [general] has an
    id, the ranking of the file does not raise and the post succeeds: then
    the report goes to that channel, with the blocks and the text that
    [/stats] shows for the same file. *)
Theorem leaderboard_never_raises (k : desk) :
  let d := snapshot fromisoformat (file (store k)) in
  ∃ k',
    post_leaderboard' k = (inr tt, k') ∧
    file (store k') = file (store k) ∧
    outbox (store k') = outbox (store k) ∧
    (reports k' = reports k ∨
     ∃ ok channels listing channel channel_id text sorted_users,
       conversations_list (tick (store k)) = inr (ok, channels) ∧
       py_truthy ok = true ∧
       py_iter channels = inr listing ∧
       first_general listing channel ∧
       py_subscript channel "id" = inr channel_id ∧
       sorted_users_of set_iter d = inr sorted_users ∧
       text_of_ranking users_info_ok text sorted_users ∧
       reports k'
       = reports k ++ [Report (Some channel_id) text (standings_blocks sorted_users)]).
Proof.
  intros d. destruct k as [w sent]. cbn [store reports] in *.
  unfold post_leaderboard, try_except_R. rewrite R_bind_unfold.
  unfold call_conversations_list at 1. cbn [store reports].
  destruct (conversations_list (tick w)) as [e|[ok channels]] eqn:Hlist.
  { eexists. split; [reflexivity|]. simpl. repeat split; try done. by left. }
  cbn [fst snd].
  destruct (py_truthy ok) eqn:Hok.
  2: { eexists. split; [reflexivity|]. simpl. repeat split; try done. by left. }
  rewrite R_bind_unfold. unfold lift_R at 1.
  destruct (py_iter channels) as [e|listing] eqn:Hiter.
  { eexists. split; [reflexivity|]. simpl. repeat split; try done. by left. }
  rewrite R_bind_unfold. unfold lift_R at 1.
  pose proof (find_general_spec listing) as Hgen.
  destruct (find_general listing) as [e|[channel|]].
  { eexists. split; [reflexivity|]. simpl. repeat split; try done. by left. }
  2: { eexists. split; [reflexivity|]. simpl. repeat split; try done. by left. }
  destruct (py_truthy channel).
  2: { eexists. split; [reflexivity|]. simpl. repeat split; try done. by left. }
  pose proof (standings_then_ranking (step w) sent) as H. cbv zeta in H.
  change (file (step w)) with (file w) in H. fold d in H.
  destruct (sorted_users_of set_iter d) as [e|r] eqn:Hr.
  { rewrite R_bind_unfold, H.
    eexists. split; [reflexivity|]. simpl. repeat split; try done. by left. }
  destruct H as (text & w1 & Htext & Hrank & Hf & Ho & _ & Hgoes).
  rewrite R_bind_unfold, Htext, R_bind_unfold, Hrank.
  rewrite R_bind_unfold. unfold lift_R at 1.
  destruct (py_subscript channel "id") as [e|channel_id] eqn:Hid.
  { eexists. split; [reflexivity|]. simpl. repeat split; try done. by left. }
  unfold post_report. cbn [store reports tick with_data].
  destruct (chat_postMessage (tick w1)) as [e|[]].
  { eexists. split; [reflexivity|]. simpl. repeat split; try done. by left. }
  eexists. split; [reflexivity|]. simpl. split; [done|]. split; [done|].
  right. exists ok, channels, listing, channel, channel_id, text, r.
  by repeat split.
Qed.

End ReportFacts.

(** ** The weekly limit over a run of commands *)

Section WeeklyLimit.

Variable isoformat : datetime → string.
Variable fromisoformat : string → option datetime.
Variable clock : nat → datetime.
Variable disk : nat → write_result.
Variable _verify_user : string → bool.
Variable _find_user_by_name : string → option string.
Variable users_info : nat → string → result (option string).
Variable chat_postMessage : nat → result unit.
Hypothesis iso_roundtrip : ∀ t, fromisoformat (isoformat t) = Some t.

Local Abbreviation praise_loop' :=
  (praise_loop isoformat fromisoformat clock disk users_info chat_postMessage).
Local Abbreviation _process_praises' :=
  (_process_praises isoformat fromisoformat clock disk users_info chat_postMessage).
Local Abbreviation handle_hloppy_command' :=
  (handle_hloppy_command isoformat fromisoformat clock disk _verify_user
     _find_user_by_name users_info chat_postMessage).
Local Abbreviation run_commands' :=
  (run_commands isoformat fromisoformat clock disk _verify_user
     _find_user_by_name users_info chat_postMessage).
Local Abbreviation add_praise' := (add_praise isoformat fromisoformat clock disk).
Local Abbreviation given_in_file user_id w :=
  (given (at_user (snapshot fromisoformat (file w)) user_id)).

(** The praises of one user add nothing to the given list of another. *)
Lemma add_praise_other (u from to message : string) (w : world) :
  from ≠ u →
  grows_by 0 (given_in_file u w) (given_in_file u (add_praise' from to message w).2).
Proof.
  intros Hne. rewrite add_praise_spec. simpl.
  rewrite (snapshot_after_write _ _ iso_roundtrip).
  destruct (disk (S (tick w))).
  - rewrite at_user_prune, given_after_praise, decide_False, app_nil_r by done.
    by apply grows_by_refl.
  - by apply grows_by_refl.
  - rewrite at_user_empty. by apply grows_by_nil.
Qed.

Lemma praise_loop_other_user (u user_id praise_message channel_id : string)
    (user_info : option string) (remaining : Z) (mentions : list mention)
    (g : Z) (w : world) :
  user_id ≠ u →
  grows_by 0 (given_in_file u w)
    (given_in_file u
       (praise_loop' user_id praise_message channel_id user_info remaining
          mentions g w).2).
Proof.
  intros Hne. revert g w. induction mentions as [|m ms IH]; intros g w.
  - simpl. by apply grows_by_refl.
  - destruct (decide (m_id m = user_id)) as [Hself|Hother].
    { rewrite praise_loop_self by done. apply IH. }
    destruct (decide (g < remaining)) as [Hlt|Hge].
    2: { rewrite praise_loop_limit by (done || lia). simpl. by apply grows_by_refl. }
    rewrite praise_loop_other by done. cbv zeta.
    pose proof (add_praise_other u user_id (m_id m) praise_message w Hne) as Hadd.
    set (w1 := (add_praise' user_id (m_id m) praise_message w).2) in *.
    destruct (users_info _ (m_id m)) as [e|target_info]; [exact Hadd|].
    destruct (real_name user_info) as [e|sender_name]; [exact Hadd|].
    destruct (real_name target_info) as [e|target_name]; [exact Hadd|].
    destruct (chat_postMessage _) as [e|[]]; [exact Hadd|].
    apply (grows_by_trans 0 0 0 _ (given_in_file u w1)); [exact Hadd | | lia].
    match goal with
    | |- grows_by _ _ (given_in_file _ (praise_loop' _ _ _ _ _ _ _ ?w3).2) =>
        change (given_in_file u w1) with (given_in_file u w3)
    end.
    apply (IH (g + 1)).
Qed.

Lemma handle_other_user (u user_id channel_id text : string) (w : world) :
  user_id ≠ u →
  grows_by 0 (given_in_file u w)
    (given_in_file u (handle_hloppy_command' user_id channel_id text w).2).
Proof.
  intros Hne.
  pose proof (handle_gate isoformat fromisoformat clock disk _verify_user
                _find_user_by_name users_info chat_postMessage
                user_id channel_id text w) as Hgate.
  cbv zeta in Hgate.
  destruct (weekly_world fromisoformat clock user_id w) as (Hf0 & _).
  cbv zeta in Hf0.
  set (command_text := py_strip text) in *.
  set (mentions := _parse_mentions _verify_user _find_user_by_name command_text) in *.
  assert (Hsame : grows_by 0 (given_in_file u w) (given_in_file u w))
    by by apply grows_by_refl.
  destruct (decide (command_text = "")) as [Ht|Ht].
  { unfold handle_hloppy_command. fold command_text. by rewrite Ht. }
  destruct (decide (mentions = [])) as [Hm|Hm].
  { unfold handle_hloppy_command. fold command_text mentions.
    apply String.eqb_neq in Ht. by rewrite Ht, Hm. }
  rewrite Hgate by done.
  destruct (WEEKLY_PRAISE_LIMIT <=? _); [simpl; by rewrite Hf0|].
  destruct (_ <? Z.of_nat (length mentions)); [simpl; by rewrite Hf0|].
  destruct (String.eqb _ ""); [simpl; by rewrite Hf0|].
  match goal with
  | |- context [_process_praises' ?a ?ms ?msg ?c ?r ?w0] =>
      set (w0' := w0) in *; set (msg' := msg); set (r' := r)
  end.
  unfold _process_praises, try_except. rewrite M_bind_unfold.
  unfold call_users_info.
  destruct (users_info (tick w0') user_id) as [e|user_info].
  { simpl. by rewrite Hf0. }
  pose proof (praise_loop_other_user u user_id msg' channel_id user_info r'
                mentions 0 (step w0') Hne) as Hloop.
  simpl in Hloop. rewrite Hf0 in Hloop.
  by destruct (praise_loop' _ _ _ _ _ _ _ _) as [[e|[]] w1].
Qed.

Lemma handle_weekly_step (u user_id channel_id text : string) (w : world) :
  let monday := week_start (clock (tick w)) in
  weekly_sum monday
    (given_in_file u (handle_hloppy_command' user_id channel_id text w).2)
  ≤ Z.max WEEKLY_PRAISE_LIMIT (weekly_sum monday (given_in_file u w)).
Proof.
  intros monday. destruct (decide (user_id = u)) as [->|Hne].
  - destruct (handle_grows isoformat fromisoformat clock disk _verify_user
                _find_user_by_name users_info chat_postMessage iso_roundtrip
                u channel_id text w) as [_ Hweek].
    rewrite weekly_of_at_user in Hweek. fold monday in Hweek.
    specialize (Hweek monday). lia.
  - destruct (handle_other_user u user_id channel_id text w Hne) as [_ Hweek].
    specialize (Hweek monday). lia.
Qed.

(** X20: while the clock stays in one week, no run of [/hloppy]
    commands, by whatever users and with whatever texts, and whatever the
    disk, the directory and the chat platform do, brings the praises that
    the file holds as given by a user in that week above the limit of 3, or
    above what they were at the start if that was more. *)
Theorem weekly_limit_over_commands (commands : list (string * string * string))
    (u : string) (monday : datetime) (w : world) :
  (∀ t, week_start (clock t) = monday) →
  weekly_sum monday (given_in_file u (run_commands' commands w))
  ≤ Z.max WEEKLY_PRAISE_LIMIT (weekly_sum monday (given_in_file u w)).
Proof.
  intros Hweek. revert w.
  induction commands as [|[[user_id channel_id] text] commands IH]; intros w.
  { simpl. lia. }
  simpl. etrans; [apply IH|].
  pose proof (handle_weekly_step u user_id channel_id text w) as Hstep.
  cbv zeta in Hstep. rewrite Hweek in Hstep. lia.
Qed.

End WeeklyLimit.

(** ** The further properties at concrete inputs *)

Lemma failed_write_loses_praise_witness :
  refusing_disk (S (tick (sample_world FileAbsent))) ≠ WriteOk ∧
  file (add_praise sample_isoformat sample_fromisoformat sample_clock refusing_disk
          "U1" "U2" "great work" (sample_world FileAbsent)).2
  = FileAbsent.
Proof.
  assert (H : refusing_disk (S (tick (sample_world FileAbsent))) ≠ WriteOk)
    by discriminate.
  split; [exact H|].
  destruct (failed_write_loses_praise sample_isoformat sample_fromisoformat
              sample_clock refusing_disk "U1" "U2" "great work" "U2"
              (sample_world FileAbsent) H) as (_ & _ & Hf & _).
  exact Hf.
Defined.


Lemma queries_do_not_write_witness :
  Forall is_query [OpWeekly "U1"; OpRanking; OpCount "U2"; OpLoad] ∧
  file (run_ops sample_isoformat sample_fromisoformat sample_clock sample_disk
          sample_set_iter [OpWeekly "U1"; OpRanking; OpCount "U2"; OpLoad]
          one_praise_world)
  = file one_praise_world.
Proof.
  assert (H : Forall is_query [OpWeekly "U1"; OpRanking; OpCount "U2"; OpLoad])
    by (repeat constructor).
  split; [exact H|].
  exact (proj1 (queries_do_not_write sample_isoformat sample_fromisoformat
                  sample_clock sample_disk sample_set_iter
                  [OpWeekly "U1"; OpRanking; OpCount "U2"; OpLoad] "U2"
                  one_praise_world H)).
Defined.


Lemma week_window_witness :
  dt_le sample_noon (DateTime 738890 0) ∧
  week_start (DateTime 738890 0) = week_start sample_noon.
Proof.
  assert (H : dt_le sample_noon (DateTime 738890 0)) by (left; reflexivity).
  split; [exact H|].
  destruct (week_window sample_noon (DateTime 738890 0) [] H)
    as (_ & _ & Hsame & _).
  apply Hsame. reflexivity.
Defined.

Lemma process_praises_respects_remaining_witness :
  Z.of_nat (length (given (at_user
     (snapshot sample_fromisoformat
        (file (sample_process "U1" (sample_parse_mentions "@U2 @U3 great work")
                 "great work" "C1" 1 (sample_world FileAbsent)).2)) "U1")))
  ≤ Z.of_nat (length (given (at_user
       (snapshot sample_fromisoformat (file (sample_world FileAbsent))) "U1")))
    + Z.max 0 1.
Proof.
  exact (proj1 (process_praises_respects_remaining sample_isoformat
                  sample_fromisoformat sample_clock sample_disk sample_users_info
                  sample_chat_postMessage sample_iso_roundtrip
                  "U1" "great work" "C1" 1
                  (sample_parse_mentions "@U2 @U3 great work")
                  (sample_world FileAbsent))).
Defined.

Lemma handle_keeps_weekly_limit_witness :
  weekly_sum (week_start (sample_clock (tick three_praises_world)))
    (given (at_user
       (snapshot sample_fromisoformat
          (file (sample_handle "U1" "C1" "@U5 once more" three_praises_world).2))
       "U1"))
  ≤ Z.max WEEKLY_PRAISE_LIMIT
      (weekly_sum (week_start (sample_clock (tick three_praises_world)))
         (given (at_user (snapshot sample_fromisoformat (file three_praises_world))
                   "U1"))).
Proof.
  exact (proj1 (handle_keeps_weekly_limit sample_isoformat sample_fromisoformat
                  sample_clock sample_disk sample_verify_user
                  sample_find_user_by_name sample_users_info
                  sample_chat_postMessage sample_iso_roundtrip
                  "U1" "C1" "@U5 once more" three_praises_world)).
Defined.

Lemma sample_disk_works : disk_works sample_disk.
Proof. intros t. reflexivity. Qed.

Lemma sample_directory_works : directory_works sample_users_info.
Proof. intros t u. by exists u. Qed.

Lemma sample_chat_works : chat_works sample_chat_postMessage.
Proof. intros t. reflexivity. Qed.

Lemma process_praises_delivers_witness :
  disk_works sample_disk ∧ directory_works sample_users_info ∧
  chat_works sample_chat_postMessage ∧
  Z.of_nat (length (others "U1" (sample_parse_mentions "@U2 @U1 @U3 great work")))
  ≤ 2 ∧
  ∃ w' posts,
    sample_process "U1" (sample_parse_mentions "@U2 @U1 @U3 great work")
      "great work" "C1" 2 (sample_world FileAbsent)
    = (inr tt, w') ∧
    outbox w' = outbox (sample_world FileAbsent) ++ posts ∧
    post_target <$> posts
    = m_mention <$> others "U1" (sample_parse_mentions "@U2 @U1 @U3 great work").
Proof.
  assert (H : Z.of_nat (length (others "U1"
                (sample_parse_mentions "@U2 @U1 @U3 great work"))) ≤ 2)
    by (vm_compute; discriminate).
  split; [exact sample_disk_works|]. split; [exact sample_directory_works|].
  split; [exact sample_chat_works|]. split; [exact H|].
  destruct (process_praises_delivers sample_isoformat sample_fromisoformat
              sample_clock sample_disk sample_users_info sample_chat_postMessage
              sample_iso_roundtrip "U1" "great work" "C1" 2
              (sample_parse_mentions "@U2 @U1 @U3 great work")
              (sample_world FileAbsent)
              sample_disk_works sample_directory_works sample_chat_works H)
    as (w' & posts & Hrun & Hout & _ & Htargets & _).
  exists w', posts. split; [exact Hrun|]. split; [exact Hout | exact Htargets].
Defined.

Lemma refused_writes_still_notify_witness :
  (∀ t, refusing_disk t = WriteRefused) ∧
  directory_works sample_users_info ∧ chat_works sample_chat_postMessage ∧
  Z.of_nat (length (others "U1" (sample_parse_mentions "@U2 @U3 great work"))) ≤ 3 ∧
  ∃ w' posts,
    _process_praises sample_isoformat sample_fromisoformat sample_clock
      refusing_disk sample_users_info sample_chat_postMessage
      "U1" (sample_parse_mentions "@U2 @U3 great work") "great work" "C1" 3
      (sample_world FileAbsent)
    = (inr tt, w') ∧
    file w' = file (sample_world FileAbsent) ∧
    post_target <$> posts
    = m_mention <$> others "U1" (sample_parse_mentions "@U2 @U3 great work").
Proof.
  assert (Hd : ∀ t, refusing_disk t = WriteRefused) by (intros t; reflexivity).
  assert (H : Z.of_nat (length (others "U1"
                (sample_parse_mentions "@U2 @U3 great work"))) ≤ 3)
    by (vm_compute; discriminate).
  split; [exact Hd|]. split; [exact sample_directory_works|].
  split; [exact sample_chat_works|]. split; [exact H|].
  destruct (refused_writes_still_notify sample_isoformat sample_fromisoformat
              sample_clock refusing_disk sample_users_info sample_chat_postMessage
              sample_iso_roundtrip "U1" "great work" "C1" 3
              (sample_parse_mentions "@U2 @U3 great work")
              (sample_world FileAbsent)
              Hd sample_directory_works sample_chat_works H)
    as (w' & posts & Hrun & Hfile & _ & _ & Htargets).
  exists w', posts. split; [exact Hrun|]. split; [exact Hfile | exact Htargets].
Defined.

Lemma records_run_ahead_of_notices_witness :
  disk_works sample_disk ∧
  ∃ posts notice,
    outbox (_process_praises sample_isoformat sample_fromisoformat sample_clock
              sample_disk sample_users_info failing_chat_postMessage
              "U1" (sample_parse_mentions "@U2 @U3 great work") "great work" "C1" 3
              (sample_world FileAbsent)).2
    = outbox (sample_world FileAbsent) ++ posts ++ notice ∧
    length (given (at_user
      (snapshot sample_fromisoformat
         (file (_process_praises sample_isoformat sample_fromisoformat sample_clock
                  sample_disk sample_users_info failing_chat_postMessage
                  "U1" (sample_parse_mentions "@U2 @U3 great work") "great work"
                  "C1" 3 (sample_world FileAbsent)).2)) "U1"))
    = (length (given (at_user
         (snapshot sample_fromisoformat (file (sample_world FileAbsent))) "U1"))
       + length posts + 1)%nat.
Proof.
  split; [exact sample_disk_works|].
  destruct (records_run_ahead_of_notices sample_isoformat sample_fromisoformat
              sample_clock sample_disk sample_users_info failing_chat_postMessage
              sample_iso_roundtrip "U1" "great work" "C1" 3
              (sample_parse_mentions "@U2 @U3 great work")
              (sample_world FileAbsent) sample_disk_works)
    as (posts & notice & Hout & _ & _ & Hlen).
  exists posts, notice. split; [exact Hout | exact Hlen].
Defined.


Lemma unreadable_history_is_overwritten_witness :
  read_file sample_fromisoformat (file (sample_world half_broken_file))
  = inl AttributeError ∧
  sample_disk (S (tick (sample_world half_broken_file))) = WriteOk ∧
  file (sample_add_praise "U3" "U4" "well done" (sample_world half_broken_file)).2
  = FileJson (dump_ledger sample_isoformat
                (ledger_after_praise ∅ "U3" "U4" "well done"
                   (sample_clock (tick (sample_world half_broken_file))))).
Proof.
  assert (H : read_file sample_fromisoformat (file (sample_world half_broken_file))
              = inl AttributeError) by (vm_compute; reflexivity).
  split; [exact H|]. split; [reflexivity|].
  exact (proj1 (unreadable_history_is_overwritten sample_isoformat
                  sample_fromisoformat sample_clock sample_disk
                  sample_iso_roundtrip "U3" "U4" "well done" AttributeError
                  (sample_world half_broken_file) H eq_refl)).
Defined.

Lemma praises_are_conserved_witness :
  balanced (data (sample_world FileAbsent)) ∧
  balanced (snapshot sample_fromisoformat (file (sample_world FileAbsent))) ∧
  balanced
    (snapshot sample_fromisoformat
       (file (sample_handle "U1" "C1" "@U2 @U3 great work"
                (sample_world FileAbsent)).2)).
Proof.
  split; [exact balanced_empty|]. split; [exact balanced_empty|].
  destruct (praises_are_conserved sample_isoformat sample_fromisoformat
              sample_clock sample_disk sample_set_iter sample_verify_user
              sample_find_user_by_name sample_users_info sample_chat_postMessage
              sample_iso_roundtrip [OpAdd "U1" "U2" "great work"; OpSave]
              "U1" "C1" "@U2 @U3 great work" "U1" "U2" "thanks"
              (sample_world FileAbsent) balanced_empty balanced_empty)
    as (_ & _ & Hh & _).
  exact Hh.
Defined.

Lemma find_user_by_name_first_match_witness :
  Forall (fun u => member_matches "BUILDER" u = inr false)
    [JObj [("name", JStr "alice"); ("id", JStr "U1")]] ∧
  _find_user_by_name
    (inr (JArr ([JObj [("name", JStr "alice"); ("id", JStr "U1")]]
                ++ JObj [("name", JStr "bob"); ("real_name", JStr "Bob Builder");
                         ("id", JStr "U2")]
                :: [JObj [("name", JStr "builder"); ("id", JStr "U3")]])))
    "BUILDER"
  = JStr "U2".
Proof.
  assert (H : Forall (fun u => member_matches "BUILDER" u = inr false)
                [JObj [("name", JStr "alice"); ("id", JStr "U1")]])
    by (repeat constructor).
  split; [exact H|].
  destruct (find_user_by_name_first_match "BUILDER"
              [JObj [("name", JStr "alice"); ("id", JStr "U1")]]
              [JObj [("name", JStr "builder"); ("id", JStr "U3")]]
              (JObj [("name", JStr "bob"); ("real_name", JStr "Bob Builder");
                     ("id", JStr "U2")]) H) as (Hfirst & _).
  apply Hfirst. reflexivity.
Defined.

Example standings_of_one_praise :
  (format_standings_message sample_fromisoformat sample_set_iter only_U2_ok true
     one_praise_world).1
  = inr (Standings [Stats (KStr "U2") 1 0 1]) ∧
  (sample_ranking one_praise_world).1
  = inr [Stats (KStr "U1") 0 1 1; Stats (KStr "U2") 1 0 1].
Proof. vm_compute. done. Qed.

Example leaderboard_of_one_praise :
  reports (post_leaderboard sample_fromisoformat sample_set_iter all_ok
             sample_conversations_list sample_chat_postMessage
             (sample_desk one_praise_world)).2
  = [Report (Some (JStr "C1"))
       (Standings [Stats (KStr "U1") 0 1 1; Stats (KStr "U2") 1 0 1])
       [IntroBlock; HeadingBlock; LineBlock (Stats (KStr "U1") 0 1 1);
        LineBlock (Stats (KStr "U2") 1 0 1)]] ∧
  reports (handle_stats_command sample_fromisoformat sample_set_iter only_U2_ok
             (sample_desk (sample_world FileAbsent))).2
  = [Report None EmptyStandings [IntroBlock; HeadingBlock; NoPraisesBlock]].
Proof. vm_compute. done. Qed.

Lemma weekly_limit_over_commands_witness :
  (∀ t, week_start (sample_clock t) = week_start sample_noon) ∧
  weekly_sum (week_start sample_noon)
    (given (at_user
       (snapshot sample_fromisoformat
          (file (run_commands sample_isoformat sample_fromisoformat sample_clock
                   sample_disk sample_verify_user sample_find_user_by_name
                   sample_users_info sample_chat_postMessage
                   [("U1", "C1", "@U2 @U3 great work"); ("U2", "C1", "@U1 thanks");
                    ("U1", "C1", "@U4 @U5 well done"); ("U1", "C1", "@U4 well done")]
                   (sample_world FileAbsent))))
       "U1"))
  ≤ Z.max WEEKLY_PRAISE_LIMIT
      (weekly_sum (week_start sample_noon)
         (given (at_user
            (snapshot sample_fromisoformat (file (sample_world FileAbsent))) "U1"))).
Proof.
  assert (H : ∀ t, week_start (sample_clock t) = week_start sample_noon)
    by (intros t; reflexivity).
  split; [exact H|].
  exact (weekly_limit_over_commands sample_isoformat sample_fromisoformat
           sample_clock sample_disk sample_verify_user sample_find_user_by_name
           sample_users_info sample_chat_postMessage sample_iso_roundtrip
           [("U1", "C1", "@U2 @U3 great work"); ("U2", "C1", "@U1 thanks");
            ("U1", "C1", "@U4 @U5 well done"); ("U1", "C1", "@U4 well done")]
           "U1" (week_start sample_noon) (sample_world FileAbsent) H).
Defined.

Example three_in_a_week :
  weekly_sum (week_start sample_noon)
    (given (at_user
       (snapshot sample_fromisoformat
          (file (run_commands sample_isoformat sample_fromisoformat sample_clock
                   sample_disk sample_verify_user sample_find_user_by_name
                   sample_users_info sample_chat_postMessage
                   [("U1", "C1", "@U2 @U3 great work"); ("U2", "C1", "@U1 thanks");
                    ("U1", "C1", "@U4 @U5 well done"); ("U1", "C1", "@U4 well done")]
                   (sample_world FileAbsent))))
       "U1"))
  = 3.
Proof. vm_compute. done. Qed.
